(** * tq-obsidian: the recurrence engine and the task-list configuration parser

    A shallow embedding of the recurrence-rule engine bundled in [main.js]
    (rrule.js: [dateutil], [IterResult], [DateTime], [parseOptions], [Cache],
    [Iterinfo], [iter], [RRule], [iterSet]), of [RepeatAdapter.next]
    ([src/repeat.ts]) and of [parseTaskListConfig] ([src/state.ts]).

    Conventions of the embedding.
    - A JavaScript number is an integer [Z]: every quantity the engine
      computes with is an integer well inside the exact range of a double.
      [Math.floor (a / b)] is [a / b] on [Z] (floor division), the JavaScript
      remainder [a % b] is [Z.rem a b] (sign of the dividend).
    - A valid [Date] is its time value, the number of milliseconds since the
      epoch, as [Z]. The calendar fields of a date follow the algorithms of
      ECMA-262 (module [JSDate]); time values are assumed to stay within the
      range ECMA-262 supports, so [TimeClip] is the identity.
    - [null] is [None]; an array is a list, read through [helpers.get]
      (out of range: [undefined], here [None]).
    - What the engine takes from its host is a parameter: the local time
      zone offset ([getTimezoneOffset]) and Luxon's zone conversion
      (record [Host]).
    - A [while (true)] loop of the source runs on fuel; [None] means that the
      fuel ran out.
    - A string of [src/state.ts] is the list of its UTF-16 code units
      (module [JSString]); there, [None] is a [TypeError] thrown. *)

From Stdlib Require Import ZArith Lia Ascii String.
From stdpp Require Import base option list gmap strings sorting.

#[local] Open Scope Z_scope.

(** ** Helpers ([helpers.ts]) *)

Module helpers.

(** [arr[i]]: [None] is [undefined]. *)
Definition get {A} (l : list A) (i : Z) : option A :=
  if i <? 0 then None else l !! Z.to_nat i.

(** [arr[i] = v]. A write inside the array replaces the slot; a write past
    the end extends the array, the slots in between being holes, which the
    engine only ever reads through a truth test or [isPresent]: they are
    filled with [hole]. A negative index sets a property and leaves the
    elements alone. *)
Definition set {A} (hole : A) (l : list A) (i : Z) (v : A) : list A :=
  if i <? 0 then l
  else if i <? Z.of_nat (length l) then <[Z.to_nat i := v]> l
  else l ++ replicate (Z.to_nat i - length l) hole ++ [v].

(** [arr.slice(a, b)] with the relative-index rules of ECMA-262. *)
Definition slice {A} (l : list A) (a b : Z) : list A :=
  let len := Z.of_nat (length l) in
  let k := if a <? 0 then Z.max (len + a) 0 else Z.min a len in
  let final := if b <? 0 then Z.max (len + b) 0 else Z.min b len in
  take (Z.to_nat (final - k)) (drop (Z.to_nat k) l).

(** [range(start, end)]: the integers from [start] to [end - 1]. *)
Definition range (start stop : Z) : list Z :=
  map (fun i => start + Z.of_nat i) (seq 0 (Z.to_nat (stop - start))).

Definition repeat {A} (value : A) (times : Z) : list A :=
  replicate (Z.to_nat times) value.

Definition pymod (a b : Z) : Z :=
  let r := Z.rem a b in
  if r * b <? 0 then r + b else r.

Definition divmod (a b : Z) : Z * Z := (a / b, pymod a b).

(** [empty], [notEmpty] and [includes] on a value that is [null] or an
    array. *)
Definition empty {A} (obj : option (list A)) : bool :=
  match obj with
  | None | Some [] => true
  | Some (_ :: _) => false
  end.

Definition notEmpty {A} (obj : option (list A)) : bool := negb (empty obj).

Definition includes (arr : option (list Z)) (val : Z) : bool :=
  notEmpty arr && bool_decide (val ∈ default [] arr).

Definition isPresent {A} (value : option A) : bool :=
  match value with Some _ => true | None => false end.

End helpers.

(** ** The [Date] built-in (ECMA-262, "Date Objects")

    Only what the engine uses: [Date.UTC] and the UTC getters. *)

Module JSDate.

Definition msPerDay : Z := 86400000.
Definition msPerHour : Z := 3600000.
Definition msPerMinute : Z := 60000.
Definition msPerSecond : Z := 1000.

Definition Day (t : Z) : Z := t / msPerDay.
Definition TimeWithinDay (t : Z) : Z := t mod msPerDay.

Definition DaysInYear (y : Z) : Z :=
  if negb (y mod 4 =? 0) then 365
  else if negb (y mod 100 =? 0) then 366
  else if negb (y mod 400 =? 0) then 365
  else 366.

Definition DayFromYear (y : Z) : Z :=
  365 * (y - 1970) + (y - 1969) / 4 - (y - 1901) / 100 + (y - 1601) / 400.

(** [YearFromTime]: the largest [y] with [DayFromYear y <= d]. The estimate
    [y0] is at most one year off (lemma [YearFromDay_spec]). *)
Definition YearFromDay (d : Z) : Z :=
  let y0 := 1970 + (d * 400) / 146097 in
  if DayFromYear (y0 + 1) <=? d then y0 + 1
  else if DayFromYear y0 <=? d then y0
  else y0 - 1.

Definition InLeapYear (y : Z) : Z := if DaysInYear y =? 366 then 1 else 0.

(** The day of the year on which month [m] (0 to 11) begins; [m = 12] is the
    length of the year. *)
Definition monthStart (m leap : Z) : Z :=
  match m with
  | 0 => 0
  | 1 => 31
  | 2 => 59 + leap
  | 3 => 90 + leap
  | 4 => 120 + leap
  | 5 => 151 + leap
  | 6 => 181 + leap
  | 7 => 212 + leap
  | 8 => 243 + leap
  | 9 => 273 + leap
  | 10 => 304 + leap
  | 11 => 334 + leap
  | _ => 365 + leap
  end.

Definition MonthFromDayInYear (diy leap : Z) : Z :=
  if diy <? 31 then 0
  else if diy <? 59 + leap then 1
  else if diy <? 90 + leap then 2
  else if diy <? 120 + leap then 3
  else if diy <? 151 + leap then 4
  else if diy <? 181 + leap then 5
  else if diy <? 212 + leap then 6
  else if diy <? 243 + leap then 7
  else if diy <? 273 + leap then 8
  else if diy <? 304 + leap then 9
  else if diy <? 334 + leap then 10
  else 11.

Definition getUTCFullYear (t : Z) : Z := YearFromDay (Day t).

Definition DayWithinYear (t : Z) : Z := Day t - DayFromYear (getUTCFullYear t).

Definition getUTCMonth (t : Z) : Z :=
  MonthFromDayInYear (DayWithinYear t) (InLeapYear (getUTCFullYear t)).

Definition getUTCDate (t : Z) : Z :=
  DayWithinYear t
  - monthStart (getUTCMonth t) (InLeapYear (getUTCFullYear t)) + 1.

(** [WeekDay]: 0 is Sunday. *)
Definition getUTCDay (t : Z) : Z := (Day t + 4) mod 7.

Definition getUTCHours (t : Z) : Z := (t / msPerHour) mod 24.
Definition getUTCMinutes (t : Z) : Z := (t / msPerMinute) mod 60.
Definition getUTCSeconds (t : Z) : Z := (t / msPerSecond) mod 60.
Definition getUTCMilliseconds (t : Z) : Z := t mod msPerSecond.

Definition MakeTime (hour min sec ms : Z) : Z :=
  hour * msPerHour + min * msPerMinute + sec * msPerSecond + ms.

Definition MakeDay (year month date : Z) : Z :=
  let ym := year + month / 12 in
  let mn := month mod 12 in
  DayFromYear ym + monthStart mn (InLeapYear ym) + date - 1.

Definition MakeDate (day time : Z) : Z := day * msPerDay + time.

(** [Date.UTC(year, month, date, hours, minutes, seconds, ms)]: a year from
    0 to 99 stands for 1900 + year. *)
Definition UTC (year month date hours minutes seconds ms : Z) : Z :=
  let yr := if (0 <=? year) && (year <=? 99) then 1900 + year else year in
  MakeDate (MakeDay yr month date) (MakeTime hours minutes seconds ms).

End JSDate.

(** ** The host

    [getTimezoneOffset t] is what [Date.prototype.getTimezoneOffset] returns,
    in minutes, for the date with time value [t]; [setZone tzid t] is Luxon's
    [DateTime.fromJSDate(date).setZone(tzid, { keepLocalTime: true }).toJSDate()],
    [None] when Luxon throws.

    A date is a time value here, so [setZone] returns valid dates only: a
    host stands for the runs in which every zone met is one Luxon knows, or
    Luxon is absent. For a zone Luxon does not know, [setZone] gives an
    invalid [DateTime] and [toJSDate] an Invalid Date, which no host of this
    type returns; the properties below that depend on it are stated for
    rules in UTC, where [rezonedDate] does not call Luxon. *)

Record Host := {
  getTimezoneOffset : Z -> Z;
  setZone : string -> Z -> option Z
}.

(** A host on UTC without Luxon's zone data. *)
Definition utcHost : Host :=
  {| getTimezoneOffset := fun _ => 0; setZone := fun _ _ => None |}.

(** ** [dateutil] *)

Module dateutil.

Definition MONTH_DAYS : list Z := [31; 28; 31; 30; 31; 30; 31; 31; 30; 31; 30; 31].
Definition ONE_DAY : Z := 1000 * 60 * 60 * 24.
Definition MAXYEAR : Z := 9999.
Definition ORDINAL_BASE : Z := JSDate.UTC 1970 0 1 0 0 0 0.
Definition PY_WEEKDAYS : list Z := [6; 0; 1; 2; 3; 4; 5].

Definition isLeapYear (year : Z) : bool :=
  ((Z.rem year 4 =? 0) && negb (Z.rem year 100 =? 0)) || (Z.rem year 400 =? 0).

Definition tzOffset (h : Host) (date : Z) : Z :=
  getTimezoneOffset h date * 60 * 1000.

(** [Math.round (n / d)] for [0 < d]: the nearest integer, a tie going up. *)
Definition round_div (n d : Z) : Z := (2 * n + d) / (2 * d).

Definition daysBetween (h : Host) (date1 date2 : Z) : Z :=
  let date1ms := date1 - tzOffset h date1 in
  let date2ms := date2 - tzOffset h date2 in
  let differencems := date1ms - date2ms in
  round_div differencems ONE_DAY.

Definition toOrdinal (h : Host) (date : Z) : Z :=
  daysBetween h date ORDINAL_BASE.

Definition fromOrdinal (ordinal : Z) : Z := ORDINAL_BASE + ordinal * ONE_DAY.

Definition getMonthDays (date : Z) : Z :=
  let month := JSDate.getUTCMonth date in
  if (month =? 1) && isLeapYear (JSDate.getUTCFullYear date) then 29
  else default 0 (helpers.get MONTH_DAYS month).

Definition getWeekday (date : Z) : Z :=
  default 0 (helpers.get PY_WEEKDAYS (JSDate.getUTCDay date)).

Definition monthRange (year month : Z) : Z * Z :=
  let date := JSDate.UTC year month 1 0 0 0 0 in
  (getWeekday date, getMonthDays date).

(** [combine(date, time)]: the day of [date] with the time of day of [time].
    Without a [time], [time = date] and the getters are those of a [Date],
    which read local time. *)
Definition combine (h : Host) (date : Z) (time : option (Z * Z * Z * Z)) : Z :=
  let '(hours, minutes, seconds, ms) :=
    match time with
    | Some x => x
    | None =>
        let local := date - tzOffset h date in
        (JSDate.getUTCHours local, JSDate.getUTCMinutes local,
         JSDate.getUTCSeconds local, JSDate.getUTCMilliseconds local)
    end in
  JSDate.UTC (JSDate.getUTCFullYear date) (JSDate.getUTCMonth date)
             (JSDate.getUTCDate date) hours minutes seconds ms.

(** [dates.sort((a, b) => a.getTime() - b.getTime())], by insertion. The
    sort of an array is stable. [getTime] is [None] on an invalid date: the
    comparison then yields [NaN], which a sort reads as 0; the order a host
    leaves such an array in is its own, the model keeps insertion order. *)
Definition comes_after {A} (getTime : A -> option Z) (a b : A) : bool :=
  match getTime a, getTime b with
  | Some x, Some y => 0 <? x - y
  | _, _ => false
  end.

Fixpoint insert_by {A} (getTime : A -> option Z) (x : A) (l : list A) : list A :=
  match l with
  | [] => [x]
  | y :: l' =>
      if comes_after getTime x y then y :: insert_by getTime x l' else x :: l
  end.

Definition sort {A} (getTime : A -> option Z) (dates : list A) : list A :=
  foldr (fun x acc => insert_by getTime x acc) [] dates.

End dateutil.

(** ** [Weekday] and [Frequency] *)

Module Weekday.

Record t := mk { weekday : Z; n : option Z }.

(** [new Weekday(weekday, n)] throws when [n === 0]. *)
Definition new (weekday : Z) (n : option Z) : option t :=
  if bool_decide (n = Some 0) then None else Some (mk weekday n).

(** A [WeekdayStr] is one of the seven names of [ALL_WEEKDAYS]. *)
Inductive WeekdayStr : Set := MO | TU | WE | TH | FR | SA | SU.

Definition ALL_WEEKDAYS : list WeekdayStr := [MO; TU; WE; TH; FR; SA; SU].

(** [ALL_WEEKDAYS.indexOf(str)]. *)
Definition indexOf (str : WeekdayStr) : Z :=
  match str with
  | MO => 0 | TU => 1 | WE => 2 | TH => 3 | FR => 4 | SA => 5 | SU => 6
  end.

Definition fromStr (str : WeekdayStr) : t := mk (indexOf str) None.

Definition isWeekdayStr (value : WeekdayStr) : bool := 0 <=? indexOf value.

(** The truth value of the field [n]: neither [undefined] nor [0]. *)
Definition has_n (w : t) : bool :=
  match n w with Some k => negb (k =? 0) | None => false end.

(** [getJsWeekday()]: the number [Date.prototype.getUTCDay] gives the day,
    Sunday being 0. *)
Definition getJsWeekday (w : t) : Z :=
  if weekday w =? 6 then 0 else weekday w + 1.

End Weekday.

Inductive Frequency : Set :=
  YEARLY | MONTHLY | WEEKLY | DAILY | HOURLY | MINUTELY | SECONDLY.

#[global] Instance Frequency_eq_dec : EqDecision Frequency.
Proof. solve_decision. Defined.

Definition freq_num (f : Frequency) : Z :=
  match f with
  | YEARLY => 0 | MONTHLY => 1 | WEEKLY => 2 | DAILY => 3
  | HOURLY => 4 | MINUTELY => 5 | SECONDLY => 6
  end.

Definition freqIsDailyOrGreater (freq : Frequency) : bool :=
  freq_num freq <? freq_num HOURLY.

(** ** The resolved options ([ParsedOptions]) *)

Record ParsedOptions := {
  freq : Frequency;
  dtstart : Z;
  interval : Z;
  wkst : Z;
  count : option Z;
  until : option Z;
  tzid : option string;
  bysetpos : option (list Z);
  bymonth : option (list Z);
  bymonthday : list Z;
  bynmonthday : list Z;
  byyearday : option (list Z);
  byweekno : option (list Z);
  byweekday : option (list Z);
  bynweekday : option (list (Z * Z));
  byhour : option (list Z);
  byminute : option (list Z);
  bysecond : option (list Z);
  byeaster : option Z
}.

(** ** [Time] and [DateTime] ([datetime.ts]) *)

Module Time.

Record t := mk { hour : Z; minute : Z; second : Z; millisecond : Z }.

Definition getTime (x : t) : Z :=
  (hour x * 60 * 60 + minute x * 60 + second x) * 1000 + millisecond x.

End Time.

Module DateTime.

Record t := mk {
  year : Z; month : Z; day : Z;
  hour : Z; minute : Z; second : Z; millisecond : Z
}.

Definition with_year (d : t) (y : Z) : t :=
  mk y (month d) (day d) (hour d) (minute d) (second d) (millisecond d).
Definition with_month (d : t) (m : Z) : t :=
  mk (year d) m (day d) (hour d) (minute d) (second d) (millisecond d).
Definition with_day (d : t) (x : Z) : t :=
  mk (year d) (month d) x (hour d) (minute d) (second d) (millisecond d).
Definition with_hour (d : t) (x : Z) : t :=
  mk (year d) (month d) (day d) x (minute d) (second d) (millisecond d).
Definition with_minute (d : t) (x : Z) : t :=
  mk (year d) (month d) (day d) (hour d) x (second d) (millisecond d).
Definition with_second (d : t) (x : Z) : t :=
  mk (year d) (month d) (day d) (hour d) (minute d) x (millisecond d).

Definition fromDate (date : Z) : t :=
  mk (JSDate.getUTCFullYear date) (JSDate.getUTCMonth date + 1)
     (JSDate.getUTCDate date) (JSDate.getUTCHours date)
     (JSDate.getUTCMinutes date) (JSDate.getUTCSeconds date)
     (Z.rem date 1000).

Definition getTime (d : t) : Z :=
  JSDate.UTC (year d) (month d - 1) (day d)
             (hour d) (minute d) (second d) (millisecond d).

Definition getWeekday (d : t) : Z := dateutil.getWeekday (getTime d).

Definition addYears (years : Z) (d : t) : t := with_year d (year d + years).

Definition addMonths (months : Z) (d : t) : t :=
  let d := with_month d (month d + months) in
  if 12 <? month d then
    let yearDiv := month d / 12 in
    let monthMod := helpers.pymod (month d) 12 in
    let d := with_year (with_month d monthMod) (year d + yearDiv) in
    if month d =? 0 then with_year (with_month d 12) (year d - 1) else d
  else d.

(** The loop of [fixDay]; [daysinmonth] is the length of the current month.
    Every turn takes at least 28 days off [day], so [day] turns are enough
    (lemma [fixDay_loop_carries]). *)
Fixpoint fixDay_loop (turns : nat) (d : t) (daysinmonth : Z) : t :=
  match turns with
  | O => d
  | S turns =>
      if daysinmonth <? day d then
        let d := with_month (with_day d (day d - daysinmonth)) (month d + 1) in
        if month d =? 13 then
          let d := with_year (with_month d 1) (year d + 1) in
          if dateutil.MAXYEAR <? year d then d
          else fixDay_loop turns d (dateutil.monthRange (year d) (month d - 1)).2
        else fixDay_loop turns d (dateutil.monthRange (year d) (month d - 1)).2
      else d
  end.

Definition fixDay (d : t) : t :=
  if day d <=? 28 then d
  else
    let daysinmonth := (dateutil.monthRange (year d) (month d - 1)).2 in
    if day d <=? daysinmonth then d
    else fixDay_loop (Z.to_nat (day d)) d daysinmonth.

Definition addWeekly (days wkst : Z) (d : t) : t :=
  if getWeekday d <? wkst then
    fixDay (with_day d (day d + (- (getWeekday d + 1 + (6 - wkst)) + days * 7)))
  else
    fixDay (with_day d (day d + (- (getWeekday d - wkst) + days * 7))).

Definition addDaily (days : Z) (d : t) : t := fixDay (with_day d (day d + days)).

Definition hour_ok (byhour : option (list Z)) (d : t) : bool :=
  helpers.empty byhour || helpers.includes byhour (hour d).
Definition minute_ok (byminute : option (list Z)) (d : t) : bool :=
  helpers.empty byminute || helpers.includes byminute (minute d).
Definition second_ok (bysecond : option (list Z)) (d : t) : bool :=
  helpers.empty bysecond || helpers.includes bysecond (second d).

(** The [while (true)] loop of [addHours]. *)
Fixpoint addHours_loop (fuel : nat) (hours : Z) (byhour : option (list Z))
    (d : t) : option t :=
  match fuel with
  | O => None
  | S fuel =>
      let d := with_hour d (hour d + hours) in
      let '(dayDiv, hourMod) := helpers.divmod (hour d) 24 in
      let d := if dayDiv =? 0 then d else addDaily dayDiv (with_hour d hourMod) in
      if hour_ok byhour d then Some d
      else addHours_loop fuel hours byhour d
  end.

Definition addHours (fuel : nat) (hours : Z) (filtered : bool)
    (byhour : option (list Z)) (d : t) : option t :=
  let d :=
    if filtered then with_hour d (hour d + (23 - hour d) / hours * hours)
    else d in
  addHours_loop fuel hours byhour d.

Fixpoint addMinutes_loop (fuel : nat) (minutes : Z)
    (byhour byminute : option (list Z)) (d : t) : option t :=
  match fuel with
  | O => None
  | S fuel =>
      let d := with_minute d (minute d + minutes) in
      let '(hourDiv, minuteMod) := helpers.divmod (minute d) 60 in
      d ← (if hourDiv =? 0 then Some d
           else addHours (S fuel) hourDiv false byhour (with_minute d minuteMod));
      if hour_ok byhour d && minute_ok byminute d then Some d
      else addMinutes_loop fuel minutes byhour byminute d
  end.

Definition addMinutes (fuel : nat) (minutes : Z) (filtered : bool)
    (byhour byminute : option (list Z)) (d : t) : option t :=
  let d :=
    if filtered then
      with_minute d
        (minute d + (1439 - (hour d * 60 + minute d)) / minutes * minutes)
    else d in
  addMinutes_loop fuel minutes byhour byminute d.

Fixpoint addSeconds_loop (fuel : nat) (seconds : Z)
    (byhour byminute bysecond : option (list Z)) (d : t) : option t :=
  match fuel with
  | O => None
  | S fuel =>
      let d := with_second d (second d + seconds) in
      let '(minuteDiv, secondMod) := helpers.divmod (second d) 60 in
      d ← (if minuteDiv =? 0 then Some d
           else addMinutes (S fuel) minuteDiv false byhour byminute
                  (with_second d secondMod));
      if hour_ok byhour d && minute_ok byminute d && second_ok bysecond d
      then Some d
      else addSeconds_loop fuel seconds byhour byminute bysecond d
  end.

Definition addSeconds (fuel : nat) (seconds : Z) (filtered : bool)
    (byhour byminute bysecond : option (list Z)) (d : t) : option t :=
  let d :=
    if filtered then
      with_second d
        (second d
         + (86399 - (hour d * 3600 + minute d * 60 + second d)) / seconds * seconds)
    else d in
  addSeconds_loop fuel seconds byhour byminute bysecond d.

Definition add (fuel : nat) (options : ParsedOptions) (filtered : bool)
    (d : t) : option t :=
  match freq options with
  | YEARLY => Some (addYears (interval options) d)
  | MONTHLY => Some (addMonths (interval options) d)
  | WEEKLY => Some (addWeekly (interval options) (wkst options) d)
  | DAILY => Some (addDaily (interval options) d)
  | HOURLY => addHours fuel (interval options) filtered (byhour options) d
  | MINUTELY =>
      addMinutes fuel (interval options) filtered
        (byhour options) (byminute options) d
  | SECONDLY =>
      addSeconds fuel (interval options) filtered
        (byhour options) (byminute options) (bysecond options) d
  end.

End DateTime.

(** ** [IterResult] and [CallbackIterResult] ([iterresult.ts]) *)

(** The method of a query with its arguments. *)
Inductive Query :=
| QAll
| QBetween (after before : Z) (inc : bool)
| QBefore (dt : Z) (inc : bool)
| QAfter (dt : Z) (inc : bool).

#[global] Instance Query_eq_dec : EqDecision Query.
Proof. solve_decision. Defined.

(** What a query returns: an array for [all] and [between], a date or
    [null] for [before] and [after]. *)
Inductive Value :=
| Dates (l : list Z)
| OneDate (d : option Z).

Module IterResult.

(** [iterator] is the callback of a [CallbackIterResult], [None] for a plain
    [IterResult]. *)
Record t := mk {
  method : Query;
  minDate : option Z;
  maxDate : option Z;
  _result : list Z;
  total : Z;
  iterator : option (Z -> Z -> bool)
}.

Definition new (q : Query) (iterator : option (Z -> Z -> bool)) : t :=
  match q with
  | QAll => mk q None None [] 0 iterator
  | QBetween after before inc =>
      mk q (Some (if inc then after else after + 1))
           (Some (if inc then before else before - 1)) [] 0 iterator
  | QBefore dt inc =>
      mk q None (Some (if inc then dt else dt - 1)) [] 0 iterator
  | QAfter dt inc =>
      mk q (Some (if inc then dt else dt + 1)) None [] 0 iterator
  end.

Definition with_total (r : t) (n : Z) : t :=
  mk (method r) (minDate r) (maxDate r) (_result r) n (iterator r).

Definition push (r : t) (date : Z) : t :=
  mk (method r) (minDate r) (maxDate r) (_result r ++ [date]) (total r)
     (iterator r).

(** [add]: the callback, when there is one, sees the date and the number of
    dates kept so far. *)
Definition add (r : t) (date : Z) : t * bool :=
  match iterator r with
  | None => (push r date, true)
  | Some f =>
      if f date (Z.of_nat (length (_result r))) then (push r date, true)
      else (r, false)
  end.

Definition accept (r : t) (date : Z) : t * bool :=
  let r := with_total r (total r + 1) in
  let tooEarly :=
    match minDate r with Some m => date <? m | None => false end in
  let tooLate :=
    match maxDate r with Some m => m <? date | None => false end in
  match method r with
  | QBetween _ _ _ =>
      if tooEarly then (r, true)
      else if tooLate then (r, false)
      else add r date
  | QBefore _ _ =>
      if tooLate then (r, false) else add r date
  | QAfter _ _ =>
      if tooEarly then (r, true) else ((add r date).1, false)
  | QAll => add r date
  end.

Definition getValue (r : t) : Value :=
  match method r with
  | QAll | QBetween _ _ _ => Dates (_result r)
  | QBefore _ _ | QAfter _ _ => OneDate (last (_result r))
  end.

End IterResult.

(** ** [initializeOptions] and [parseOptions] ([parseoptions.ts]) *)

(** A value that is one item or an array of them. *)
Inductive OneOrMany (A : Type) :=
| One (a : A)
| Many (l : list A).
Arguments One {A} a.
Arguments Many {A} l.

(** A [Date] object as a caller can pass it: it may hold [NaN]. *)
Inductive DateValue :=
| ValidDate (time : Z)
| InvalidDate.

Inductive ByWeekday :=
| WNum (n : Z)
| WStr (s : Weekday.WeekdayStr)
| WObj (w : Weekday.t).

Inductive Wkst :=
| WkstObj (w : Weekday.t)
| WkstNum (n : Z).

Module Options.

(** [Partial<Options>]. A field is [None] when its key is absent (or
    holds [null], for the keys whose default is [null]); a key that is
    present holds a value of its declared type, so [freq] is a frequency
    and the check [Invalid frequency] cannot fail.
    [otherKeys] lists the keys of the object that are not keys of
    [DEFAULT_OPTIONS]. The keys [bynmonthday] and [bynweekday] are accepted
    and overwritten by [parseOptions], whatever they hold; they have no
    field here. *)
Record t := mk {
  freq : option Frequency;
  dtstart : option DateValue;
  interval : option Z;
  wkst : option Wkst;
  count : option Z;
  until : option DateValue;
  tzid : option string;
  bysetpos : option (OneOrMany Z);
  bymonth : option (OneOrMany Z);
  bymonthday : option (OneOrMany Z);
  byyearday : option (OneOrMany Z);
  byweekno : option (OneOrMany Z);
  byweekday : option (OneOrMany ByWeekday);
  byhour : option (OneOrMany Z);
  byminute : option (OneOrMany Z);
  bysecond : option (OneOrMany Z);
  byeaster : option Z;
  otherKeys : list string
}.

End Options.

Inductive ValidationError :=
| InvalidOptions (invalid : list string)
| InvalidFrequency
| InvalidBySetPos.

Inductive result (A : Type) :=
| Ok (a : A)
| Throw (e : ValidationError).
Arguments Ok {A} a.
Arguments Throw {A} e.

Section ParseOptions.

Definition toArray {A} (item : OneOrMany A) : list A :=
  match item with One a => [a] | Many l => l end.

(** [notEmpty] on a value that is [null], a number or an array: a number
    has no [length], so it is not empty. *)
Definition notEmpty1 {A} (obj : option (OneOrMany A)) : bool :=
  match obj with
  | None => false
  | Some (One _) => true
  | Some (Many l) => negb (bool_decide (length l = 0%nat))
  end.

(** [Boolean(value)] on a value that is [null], a number or an array. *)
Definition truthy (value : option (OneOrMany Z)) : bool :=
  match value with
  | None => false
  | Some (One n) => negb (n =? 0)
  | Some (Many _) => true
  end.

Definition is_invalid_date (d : option DateValue) : bool :=
  match d with Some InvalidDate => true | _ => false end.

(** The keys [initializeOptions] rejects: those that are no option, and
    those holding an invalid date. The order in which the object lists its
    keys is not modelled. *)
Definition invalid_keys (options : Options.t) : list string :=
  Options.otherKeys options
  ++ (if is_invalid_date (Options.dtstart options) then ["dtstart"%string] else [])
  ++ (if is_invalid_date (Options.until options) then ["until"%string] else []).

Definition initializeOptions (options : Options.t) : result Options.t :=
  match invalid_keys options with
  | [] => Ok options
  | invalid => Throw (InvalidOptions invalid)
  end.

Definition date_time (d : option DateValue) : option Z :=
  match d with Some (ValidDate time) => Some time | _ => None end.

Definition bysetpos_ok (v : Z) : bool :=
  negb ((v =? 0) || negb ((-366 <=? v) && (v <=? 366))).

(** The loop of [parseOptions] over an array [byweekday]. *)
Fixpoint split_byweekday (freq : Frequency) (l : list ByWeekday)
    (byweekday : list Z) (bynweekday : list (Z * Z)) : list Z * list (Z * Z) :=
  match l with
  | [] => (byweekday, bynweekday)
  | WNum wday :: l => split_byweekday freq l (byweekday ++ [wday]) bynweekday
  | WStr wday :: l =>
      split_byweekday freq l
        (byweekday ++ [Weekday.weekday (Weekday.fromStr wday)]) bynweekday
  | WObj wday :: l =>
      if negb (Weekday.has_n wday) || (freq_num MONTHLY <? freq_num freq)
      then split_byweekday freq l (byweekday ++ [Weekday.weekday wday]) bynweekday
      else split_byweekday freq l byweekday
             (bynweekday ++ [(Weekday.weekday wday, default 0 (Weekday.n wday))])
  end.

Definition nonempty_or_null {A} (l : list A) : option (list A) :=
  match l with [] => None | _ => Some l end.

(** [now] is the time value of [new Date()], read when [dtstart] is
    absent. *)
Definition parseOptions (now : Z) (options : Options.t) : result ParsedOptions :=
  match initializeOptions options with
  | Throw e => Throw e
  | Ok o =>
      let freq :=
        if helpers.isPresent (Options.byeaster o) then YEARLY
        else default YEARLY (Options.freq o) in
      let dtstart := default (now - now mod 1000) (date_time (Options.dtstart o)) in
      let wkst :=
        match Options.wkst o with
        | None => Weekday.weekday (Weekday.fromStr Weekday.MO)
        | Some (WkstNum n) => n
        | Some (WkstObj w) => Weekday.weekday w
        end in
      let bysetpos := toArray <$> Options.bysetpos o in
      if negb (forallb bysetpos_ok (default [] bysetpos)) then Throw InvalidBySetPos
      else
        let no_day_rule :=
          negb (truthy (Options.byweekno o) || notEmpty1 (Options.byweekno o)
                || notEmpty1 (Options.byyearday o)
                || truthy (Options.bymonthday o) || notEmpty1 (Options.bymonthday o)
                || helpers.isPresent (Options.byweekday o)
                || helpers.isPresent (Options.byeaster o)) in
        let bymonth0 :=
          if no_day_rule && bool_decide (freq = YEARLY)
             && negb (truthy (Options.bymonth o))
          then Some (One (JSDate.getUTCMonth dtstart + 1))
          else Options.bymonth o in
        let bymonthday0 :=
          if no_day_rule
             && (bool_decide (freq = YEARLY) || bool_decide (freq = MONTHLY))
          then Some (One (JSDate.getUTCDate dtstart))
          else Options.bymonthday o in
        let byweekday0 :=
          if no_day_rule && bool_decide (freq = WEEKLY)
          then Some (Many [WNum (dateutil.getWeekday dtstart)])
          else Options.byweekday o in
        let bymonth := toArray <$> bymonth0 in
        let byyearday := toArray <$> Options.byyearday o in
        let '(bymonthday, bynmonthday) :=
          match bymonthday0 with
          | None => ([], [])
          | Some (Many l) =>
              (List.filter (fun v => 0 <? v) l, List.filter (fun v => v <? 0) l)
          | Some (One v) => if v <? 0 then ([], [v]) else ([v], [])
          end in
        let byweekno := toArray <$> Options.byweekno o in
        let '(byweekday, bynweekday) :=
          match byweekday0 with
          | None => (None, None)
          | Some (One (WNum n)) => (Some [n], None)
          | Some (One (WStr s)) =>
              (Some [Weekday.weekday (Weekday.fromStr s)], None)
          | Some (One (WObj w)) =>
              if negb (Weekday.has_n w) || (freq_num MONTHLY <? freq_num freq)
              then (Some [Weekday.weekday w], None)
              else (None, Some [(Weekday.weekday w, default 0 (Weekday.n w))])
          | Some (Many l) =>
              let '(wd, nwd) := split_byweekday freq l [] [] in
              (nonempty_or_null wd, nonempty_or_null nwd)
          end in
        let byhour :=
          match Options.byhour o with
          | None =>
              if freq_num freq <? freq_num HOURLY
              then Some [JSDate.getUTCHours dtstart] else None
          | Some v => Some (toArray v)
          end in
        let byminute :=
          match Options.byminute o with
          | None =>
              if freq_num freq <? freq_num MINUTELY
              then Some [JSDate.getUTCMinutes dtstart] else None
          | Some v => Some (toArray v)
          end in
        let bysecond :=
          match Options.bysecond o with
          | None =>
              if freq_num freq <? freq_num SECONDLY
              then Some [JSDate.getUTCSeconds dtstart] else None
          | Some v => Some (toArray v)
          end in
        Ok {| freq := freq; dtstart := dtstart;
              interval := default 1 (Options.interval o);
              wkst := wkst; count := Options.count o;
              until := date_time (Options.until o);
              tzid := Options.tzid o; bysetpos := bysetpos;
              bymonth := bymonth; bymonthday := bymonthday;
              bynmonthday := bynmonthday; byyearday := byyearday;
              byweekno := byweekno; byweekday := byweekday;
              bynweekday := bynweekday; byhour := byhour;
              byminute := byminute; bysecond := bysecond;
              byeaster := Options.byeaster o |}
  end.

End ParseOptions.

Definition Time_of (x : Time.t) : Z * Z * Z * Z :=
  (Time.hour x, Time.minute x, Time.second x, Time.millisecond x).

(** [buildTimeset]. [parseOptions] leaves [byhour], [byminute] and
    [bysecond] arrays whenever the frequency is daily or coarser (lemma
    [parseOptions_timeset_fields]); [forEach] on [null] is read as no turn. *)
Definition buildTimeset (opts : ParsedOptions) : list Time.t :=
  let millisecondModulo := Z.rem (dtstart opts) 1000 in
  if negb (freqIsDailyOrGreater (freq opts)) then []
  else
    hour ← default [] (byhour opts);
    minute ← default [] (byminute opts);
    second ← default [] (bysecond opts);
    [Time.mk hour minute second millisecondModulo].

(** ** Date masks ([masks.ts]) *)

Definition M365MASK : list Z := Eval vm_compute in
  helpers.repeat 1 31 ++ helpers.repeat 2 28 ++ helpers.repeat 3 31
  ++ helpers.repeat 4 30 ++ helpers.repeat 5 31 ++ helpers.repeat 6 30
  ++ helpers.repeat 7 31 ++ helpers.repeat 8 31 ++ helpers.repeat 9 30
  ++ helpers.repeat 10 31 ++ helpers.repeat 11 30 ++ helpers.repeat 12 31
  ++ helpers.repeat 1 7.
Definition M366MASK : list Z := Eval vm_compute in
  helpers.repeat 1 31 ++ helpers.repeat 2 29 ++ helpers.repeat 3 31
  ++ helpers.repeat 4 30 ++ helpers.repeat 5 31 ++ helpers.repeat 6 30
  ++ helpers.repeat 7 31 ++ helpers.repeat 8 31 ++ helpers.repeat 9 30
  ++ helpers.repeat 10 31 ++ helpers.repeat 11 30 ++ helpers.repeat 12 31
  ++ helpers.repeat 1 7.
Definition M28 : list Z := Eval vm_compute in helpers.range 1 29.
Definition M29 : list Z := Eval vm_compute in helpers.range 1 30.
Definition M30 : list Z := Eval vm_compute in helpers.range 1 31.
Definition M31 : list Z := Eval vm_compute in helpers.range 1 32.
Definition MDAY366MASK : list Z := Eval vm_compute in
  M31 ++ M29 ++ M31 ++ M30 ++ M31 ++ M30 ++ M31 ++ M31 ++ M30 ++ M31 ++ M30
  ++ M31 ++ helpers.slice M31 0 7.
Definition MDAY365MASK : list Z := Eval vm_compute in
  M31 ++ M28 ++ M31 ++ M30 ++ M31 ++ M30 ++ M31 ++ M31 ++ M30 ++ M31 ++ M30
  ++ M31 ++ helpers.slice M31 0 7.
Definition NM28 : list Z := Eval vm_compute in helpers.range (-28) 0.
Definition NM29 : list Z := Eval vm_compute in helpers.range (-29) 0.
Definition NM30 : list Z := Eval vm_compute in helpers.range (-30) 0.
Definition NM31 : list Z := Eval vm_compute in helpers.range (-31) 0.
Definition NMDAY366MASK : list Z := Eval vm_compute in
  NM31 ++ NM29 ++ NM31 ++ NM30 ++ NM31 ++ NM30 ++ NM31 ++ NM31 ++ NM30 ++ NM31
  ++ NM30 ++ NM31 ++ helpers.slice NM31 0 7.
Definition NMDAY365MASK : list Z := Eval vm_compute in
  NM31 ++ NM28 ++ NM31 ++ NM30 ++ NM31 ++ NM30 ++ NM31 ++ NM31 ++ NM30 ++ NM31
  ++ NM30 ++ NM31 ++ helpers.slice NM31 0 7.
Definition M366RANGE : list Z := [0; 31; 60; 91; 121; 152; 182; 213; 244; 274; 305; 335; 366].
Definition M365RANGE : list Z := [0; 31; 59; 90; 120; 151; 181; 212; 243; 273; 304; 334; 365].
Definition WDAYMASK : list Z := Eval vm_compute in
  Nat.iter 55 (fun wdaymask => wdaymask ++ helpers.range 0 7) [].

(** ** [rebuildYear], [rebuildMonth], [easter] *)

Record YearInfo := {
  yearlen : Z;
  nextyearlen : Z;
  yearordinal : Z;
  yearweekday : Z;
  mmask : list Z;
  mdaymask : list Z;
  nmdaymask : list Z;
  wdaymask : list Z;
  mrange : list Z;
  wnomask : option (list Z)
}.

Definition with_wnomask (y : YearInfo) (w : option (list Z)) : YearInfo :=
  {| yearlen := yearlen y; nextyearlen := nextyearlen y;
     yearordinal := yearordinal y; yearweekday := yearweekday y;
     mmask := mmask y; mdaymask := mdaymask y; nmdaymask := nmdaymask y;
     wdaymask := wdaymask y; mrange := mrange y; wnomask := w |}.

Definition year_length (year : Z) : Z :=
  if dateutil.isLeapYear year then 366 else 365.

(** [baseYearMasks]: the five masks of a year, as
    [(mmask, mdaymask, nmdaymask, wdaymask, mrange)]. *)
Definition baseYearMasks (year : Z)
    : list Z * list Z * list Z * list Z * list Z :=
  let yearlen := year_length year in
  let firstyday := JSDate.UTC year 0 1 0 0 0 0 in
  let wday := dateutil.getWeekday firstyday in
  if yearlen =? 365 then
    (M365MASK, MDAY365MASK, NMDAY365MASK,
     helpers.slice WDAYMASK wday (Z.of_nat (length WDAYMASK)), M365RANGE)
  else
    (M366MASK, MDAY366MASK, NMDAY366MASK,
     helpers.slice WDAYMASK wday (Z.of_nat (length WDAYMASK)), M366RANGE).

(** The loop that marks the days of one week: from [i] on, at most seven
    days, up to the day before the next week start. *)
Fixpoint mark_week (turns : nat) (wdaymask : list Z) (wkst : Z)
    (wnomask : list Z) (i : Z) : list Z :=
  match turns with
  | O => wnomask
  | S turns =>
      let wnomask := helpers.set 0 wnomask i 1 in
      let i := i + 1 in
      if bool_decide (helpers.get wdaymask i = Some wkst) then wnomask
      else mark_week turns wdaymask wkst wnomask i
  end.

Definition rebuildYear (h : Host) (year : Z) (options : ParsedOptions) : YearInfo :=
  let firstyday := JSDate.UTC year 0 1 0 0 0 0 in
  let yearlen := year_length year in
  let nextyearlen := year_length (year + 1) in
  let yearordinal := dateutil.toOrdinal h firstyday in
  let yearweekday := dateutil.getWeekday firstyday in
  let '(mmask, mdaymask, nmdaymask, wdaymask, mrange) := baseYearMasks year in
  let result :=
    {| yearlen := yearlen; nextyearlen := nextyearlen;
       yearordinal := yearordinal; yearweekday := yearweekday;
       mmask := mmask; mdaymask := mdaymask; nmdaymask := nmdaymask;
       wdaymask := wdaymask; mrange := mrange; wnomask := None |} in
  if helpers.empty (byweekno options) then result
  else
    let wnomask := helpers.repeat 0 (yearlen + 7) in
    let firstwkst := helpers.pymod (7 - yearweekday + wkst options) 7 in
    let '(no1wkst, wyearlen) :=
      if 4 <=? firstwkst
      then (0, yearlen + helpers.pymod (yearweekday - wkst options) 7)
      else (firstwkst, yearlen - firstwkst) in
    let div := wyearlen / 7 in
    let mod_ := helpers.pymod wyearlen 7 in
    let numweeks := div + mod_ / 4 in
    let wnomask :=
      foldl (fun wnomask n =>
        let n := if n <? 0 then n + (numweeks + 1) else n in
        if negb ((0 <? n) && (n <=? numweeks)) then wnomask
        else
          let i :=
            if 1 <? n then
              let i := no1wkst + (n - 1) * 7 in
              if negb (no1wkst =? firstwkst) then i - (7 - firstwkst) else i
            else no1wkst in
          mark_week 7 wdaymask (wkst options) wnomask i)
        wnomask (default [] (byweekno options)) in
    let wnomask :=
      if helpers.includes (byweekno options) 1 then
        let i := no1wkst + numweeks * 7 in
        let i := if negb (no1wkst =? firstwkst) then i - (7 - firstwkst) else i in
        if i <? yearlen then mark_week 7 wdaymask (wkst options) wnomask i
        else wnomask
      else wnomask in
    let wnomask :=
      if negb (no1wkst =? 0) then
        let lnumweeks :=
          if negb (helpers.includes (byweekno options) (-1)) then
            let lyearweekday :=
              dateutil.getWeekday (JSDate.UTC (year - 1) 0 1 0 0 0 0) in
            let lno1wkst := helpers.pymod (7 - lyearweekday + wkst options) 7 in
            let lyearlen := year_length (year - 1) in
            let weekst :=
              if 4 <=? lno1wkst
              then lyearlen + helpers.pymod (lyearweekday - wkst options) 7
              else yearlen - no1wkst in
            52 + helpers.pymod weekst 7 / 4
          else -1 in
        if helpers.includes (byweekno options) lnumweeks then
          foldl (fun wnomask i => helpers.set 0 wnomask i 1)
                wnomask (helpers.range 0 no1wkst)
        else wnomask
      else wnomask in
    with_wnomask result (Some wnomask).

Record MonthInfo := {
  lastyear : Z;
  lastmonth : Z;
  nwdaymask : list Z
}.

(** One [(wday, n)] of [bynweekday] in one range [rang] of days. A range
    that [slice] left short, or a day outside [wdaymask], gives [undefined]
    and then [NaN], which no comparison accepts: nothing is marked. *)
Definition mark_nth_weekday (wdaymask : list Z) (rang : list Z)
    (nwdaymask : list Z) (item : Z * Z) : list Z :=
  let '(wday, n) := item in
  match helpers.get rang 0, helpers.get rang 1 with
  | Some first, Some rang1 =>
      let last := rang1 - 1 in
      let i0 := if n <? 0 then last + (n + 1) * 7 else first + (n - 1) * 7 in
      match helpers.get wdaymask i0 with
      | Some w =>
          let i :=
            if n <? 0 then i0 - helpers.pymod (w - wday) 7
            else i0 + helpers.pymod (7 - w + wday) 7 in
          if (first <=? i) && (i <=? last) then helpers.set 0 nwdaymask i 1
          else nwdaymask
      | None => nwdaymask
      end
  | _, _ => nwdaymask
  end.

Definition rebuildMonth (year month yearlen : Z) (mrange wdaymask : list Z)
    (options : ParsedOptions) : MonthInfo :=
  let ranges :=
    match freq options with
    | YEARLY =>
        if helpers.empty (bymonth options) then [[0; yearlen]]
        else
          map (fun month => helpers.slice mrange (month - 1) (month + 1))
              (default [] (bymonth options))
    | MONTHLY => [helpers.slice mrange (month - 1) (month + 1)]
    | _ => []
    end in
  match ranges with
  | [] => {| lastyear := year; lastmonth := month; nwdaymask := [] |}
  | _ =>
      let nwdaymask :=
        foldl (fun nwdaymask rang =>
                 foldl (mark_nth_weekday wdaymask rang) nwdaymask
                       (default [] (bynweekday options)))
              (helpers.repeat 0 yearlen) ranges in
      {| lastyear := year; lastmonth := month; nwdaymask := nwdaymask |}
  end.

(** [Math.ceil (n / d)] for [0 < d]. *)
Definition ceil_div (n d : Z) : Z := - ((- n) / d).

Definition easter (y offset : Z) : list Z :=
  let a := Z.rem y 19 in
  let b := y / 100 in
  let c := Z.rem y 100 in
  let d := b / 4 in
  let e := Z.rem b 4 in
  let f := (b + 8) / 25 in
  let g := (b - f + 1) / 3 in
  let h := Z.rem (19 * a + b - d - g + 15) 30 in
  let i := c / 4 in
  let k := Z.rem c 4 in
  let l := Z.rem (32 + 2 * e + 2 * i - h - k) 7 in
  let m := (a + 11 * h + 22 * l) / 451 in
  let month := (h + l - 7 * m + 114) / 31 in
  let day := Z.rem (h + l - 7 * m + 114) 31 + 1 in
  let date := JSDate.UTC y (month - 1) (day + offset) 0 0 0 0 in
  let yearStart := JSDate.UTC y 0 1 0 0 0 0 in
  [ceil_div (date - yearStart) (1000 * 60 * 60 * 24)].

(** ** [Iterinfo] ([iterinfo/index.ts]) *)

Module Iterinfo.

(** The fields [yearinfo], [monthinfo] and [eastermask] of the object;
    [options] is passed along. [monthinfo] and [eastermask] stay [undefined]
    until [rebuild] sets them; [yearinfo] is set by the first [rebuild],
    which [iter] runs before it reads anything. *)
Record t := mk {
  yearinfo : YearInfo;
  monthinfo : option MonthInfo;
  eastermask : option (list Z)
}.

(** [rebuild]; [prev] is [None] on the object [new Iterinfo(options)]
    returns. The getters [lastyear] and [lastmonth] read [monthinfo], and
    are [null] without one. *)
Definition rebuild (h : Host) (options : ParsedOptions) (prev : option t)
    (year month : Z) : t :=
  let old_monthinfo := prev ≫= monthinfo in
  let lastyear_ := lastyear <$> old_monthinfo in
  let lastmonth_ := lastmonth <$> old_monthinfo in
  let yearinfo_ :=
    match prev with
    | Some ii =>
        if bool_decide (Some year ≠ lastyear_) then rebuildYear h year options
        else yearinfo ii
    | None => rebuildYear h year options
    end in
  let monthinfo_ :=
    if helpers.notEmpty (bynweekday options)
       && (bool_decide (Some month ≠ lastmonth_)
           || bool_decide (Some year ≠ lastyear_))
    then Some (rebuildMonth year month (yearlen yearinfo_) (mrange yearinfo_)
                            (wdaymask yearinfo_) options)
    else old_monthinfo in
  let eastermask_ :=
    match byeaster options with
    | Some offset => Some (easter year offset)
    | None => prev ≫= eastermask
    end in
  mk yearinfo_ monthinfo_ eastermask_.

(** The getter [nwdaymask]. *)
Definition get_nwdaymask (ii : t) : list Z :=
  match monthinfo ii with Some m => nwdaymask m | None => [] end.

(** A day set: the array, [start] and [end]. A slot holds a day of the year
    or [null]. *)
Definition dayset := (list (option Z) * Z * Z)%type.

Definition ydayset (ii : t) : dayset :=
  (Some <$> helpers.range 0 (yearlen (yearinfo ii)), 0, yearlen (yearinfo ii)).

(** [mdayset]. With a month outside 1 to 12, [start] or [end] is
    [undefined] and no loop over the set makes a turn: the bounds are then
    given as 0 and 0. *)
Definition mdayset (ii : t) (month : Z) : dayset :=
  let set := helpers.repeat None (yearlen (yearinfo ii)) in
  match helpers.get (mrange (yearinfo ii)) (month - 1),
        helpers.get (mrange (yearinfo ii)) month with
  | Some start, Some stop =>
      (foldl (fun set i => helpers.set None set i (Some i)) set
             (helpers.range start stop), start, stop)
  | _, _ => (set, 0, 0)
  end.

(** The loop of [wdayset]: at most seven days from [i], up to the day
    before the next week start. Returns the set and the final [i]. *)
Fixpoint wdayset_loop (turns : nat) (wdaymask : list Z) (wkst : Z)
    (set : list (option Z)) (i : Z) : list (option Z) * Z :=
  match turns with
  | O => (set, i)
  | S turns =>
      let set := helpers.set None set i (Some i) in
      let i := i + 1 in
      if bool_decide (helpers.get wdaymask i = Some wkst) then (set, i)
      else wdayset_loop turns wdaymask wkst set i
  end.

Definition wdayset (h : Host) (options : ParsedOptions) (ii : t)
    (year month day : Z) : dayset :=
  let set := helpers.repeat None (yearlen (yearinfo ii) + 7) in
  let i := dateutil.toOrdinal h (JSDate.UTC year (month - 1) day 0 0 0 0)
           - yearordinal (yearinfo ii) in
  let start := i in
  let '(set, i) :=
    wdayset_loop 7 (wdaymask (yearinfo ii)) (wkst options) set i in
  (set, start, i).

Definition ddayset (h : Host) (ii : t) (year month day : Z) : dayset :=
  let set := helpers.repeat None (yearlen (yearinfo ii)) in
  let i := dateutil.toOrdinal h (JSDate.UTC year (month - 1) day 0 0 0 0)
           - yearordinal (yearinfo ii) in
  (helpers.set None set i (Some i), i, i + 1).

Definition getdayset (h : Host) (options : ParsedOptions) (ii : t)
    (freq : Frequency) (year month day : Z) : dayset :=
  match freq with
  | YEARLY => ydayset ii
  | MONTHLY => mdayset ii month
  | WEEKLY => wdayset h options ii year month day
  | DAILY => ddayset h ii year month day
  | _ => ddayset h ii year month day
  end.

Definition Time_key (x : Time.t) : option Z := Some (Time.getTime x).

(** [mtimeset], [htimeset] and [stimeset]. As in [buildTimeset], [null]
    in [byminute] or [bysecond] is read as no turn: [parseOptions] sets
    them whenever the frequency reads them. *)
Definition mtimeset (options : ParsedOptions)
    (hour minute second millisecond : Z) : list Time.t :=
  dateutil.sort Time_key
    (map (fun second => Time.mk hour minute second millisecond)
         (default [] (bysecond options))).

Definition htimeset (options : ParsedOptions)
    (hour minute second millisecond : Z) : list Time.t :=
  dateutil.sort Time_key
    (foldl (fun set minute =>
              set ++ mtimeset options hour minute second millisecond)
           [] (default [] (byminute options))).

Definition stimeset (hour minute second millisecond : Z) : list Time.t :=
  [Time.mk hour minute second millisecond].

(** [gettimeset(freq)] applied; it is only called with a frequency finer
    than daily. *)
Definition gettimeset (options : ParsedOptions) (freq : Frequency)
    (hour minute second millisecond : Z) : list Time.t :=
  match freq with
  | HOURLY => htimeset options hour minute second millisecond
  | MINUTELY => mtimeset options hour minute second millisecond
  | SECONDLY => stimeset hour minute second millisecond
  | _ => []
  end.

End Iterinfo.

(** ** [DateWithZone] ([datewithzone.ts]) *)

Module DateWithZone.

Definition upper_ascii (c : ascii) : ascii :=
  let n := nat_of_ascii c in
  if (97 <=? n)%nat && (n <=? 122)%nat then ascii_of_nat (n - 32) else c.

(** [toUpperCase], on the ASCII letters (enough to compare with "UTC"). *)
Fixpoint toUpperCase (s : string) : string :=
  match s with
  | EmptyString => EmptyString
  | String c s => String (upper_ascii c) (toUpperCase s)
  end.

(** The getter [isUTC]: [!this.tzid || this.tzid.toUpperCase() === 'UTC']. *)
Definition isUTC (tzid : option string) : bool :=
  match tzid with
  | None => true
  | Some s => bool_decide (s = ""%string) || bool_decide (toUpperCase s = "UTC"%string)
  end.

(** [rezonedDate]: when Luxon throws, the date itself is returned. *)
Definition rezonedDate (h : Host) (date : Z) (tzid : option string) : Z :=
  if isUTC tzid then date
  else default date (setZone h (default ""%string tzid) date).

End DateWithZone.

(** ** The iterator ([iter/index.ts], [iter/poslist.ts]) *)

Section Iter.

Context (h : Host).

Definition at_day (mask : list Z) (currentDay : option Z) : option Z :=
  currentDay ≫= helpers.get mask.

Definition includes_day (arr : option (list Z)) (v : option Z) : bool :=
  match v with Some x => helpers.includes arr x | None => false end.

(** [!v] on a slot of a mask: [undefined] and 0 are false. *)
Definition not_set (v : option Z) : bool :=
  match v with Some x => x =? 0 | None => true end.

(** [isFiltered]. [currentDay] is a slot of the day set: a day of the year
    or [null], which indexes nothing and counts as 0 in arithmetic. *)
Definition isFiltered (ii : Iterinfo.t) (currentDay : option Z)
    (options : ParsedOptions) : bool :=
  let yi := Iterinfo.yearinfo ii in
  let day := default 0 currentDay in
  (helpers.notEmpty (bymonth options)
   && negb (includes_day (bymonth options) (at_day (mmask yi) currentDay)))
  || (helpers.notEmpty (byweekno options)
      && not_set (at_day (default [] (wnomask yi)) currentDay))
  || (helpers.notEmpty (byweekday options)
      && negb (includes_day (byweekday options) (at_day (wdaymask yi) currentDay)))
  || (helpers.notEmpty (Some (Iterinfo.get_nwdaymask ii))
      && not_set (at_day (Iterinfo.get_nwdaymask ii) currentDay))
  || (helpers.isPresent (byeaster options)
      && negb (includes_day (Iterinfo.eastermask ii) currentDay))
  || ((helpers.notEmpty (Some (bymonthday options))
       || helpers.notEmpty (Some (bynmonthday options)))
      && negb (includes_day (Some (bymonthday options))
                            (at_day (mdaymask yi) currentDay))
      && negb (includes_day (Some (bynmonthday options))
                            (at_day (nmdaymask yi) currentDay)))
  || (helpers.notEmpty (byyearday options)
      && (((day <? yearlen yi)
           && negb (helpers.includes (byyearday options) (day + 1))
           && negb (helpers.includes (byyearday options) (- yearlen yi + day)))
          || ((yearlen yi <=? day)
              && negb (helpers.includes (byyearday options) (day + 1 - yearlen yi))
              && negb (helpers.includes (byyearday options)
                         (- nextyearlen yi + day - yearlen yi))))).

(** [removeFilteredDays]: the day set is changed in place, so the changed
    set is returned with the flag. *)
Definition removeFilteredDays (dayset : list (option Z)) (start stop : Z)
    (ii : Iterinfo.t) (options : ParsedOptions) : list (option Z) * bool :=
  foldl (fun '(dayset, _) dayCounter =>
           let currentDay := mjoin (helpers.get dayset dayCounter) in
           let filtered := isFiltered ii currentDay options in
           let dayset :=
             match filtered, currentDay with
             | true, Some c => helpers.set None dayset c None
             | _, _ => dayset
             end in
           (dayset, filtered))
        (dayset, false) (helpers.range start stop).

Definition makeTimeset (counterDate : DateTime.t) (options : ParsedOptions)
    : list Time.t :=
  if freqIsDailyOrGreater (freq options) then buildTimeset options
  else if ((freq_num HOURLY <=? freq_num (freq options))
           && helpers.notEmpty (byhour options)
           && negb (helpers.includes (byhour options) (DateTime.hour counterDate)))
          || ((freq_num MINUTELY <=? freq_num (freq options))
              && helpers.notEmpty (byminute options)
              && negb (helpers.includes (byminute options)
                         (DateTime.minute counterDate)))
          || ((freq_num SECONDLY <=? freq_num (freq options))
              && helpers.notEmpty (bysecond options)
              && negb (helpers.includes (bysecond options)
                         (DateTime.second counterDate)))
  then []
  else Iterinfo.gettimeset options (freq options)
         (DateTime.hour counterDate) (DateTime.minute counterDate)
         (DateTime.second counterDate) (DateTime.millisecond counterDate).

(** The days of the set from [start] to [end - 1] that are not [null]. *)
Definition present_days (dayset : list (option Z)) (start stop : Z) : list Z :=
  omap (fun k => mjoin (helpers.get dayset k)) (helpers.range start stop).

(** [buildPoslist]. A date is [None] when it is invalid ([NaN]): a position
    past the candidates gives [undefined] for the day. With an empty
    [timeset] the divisions by its length give infinities and [NaN]:
    [daypos] is negative for [pos <= 0] and picks the first day, the time is
    [undefined]. A fresh [Date] is never found by [includes], so every
    position is pushed. *)
Definition buildPoslist (bysetpos : list Z) (timeset : list Time.t)
    (start stop : Z) (ii : Iterinfo.t) (dayset : list (option Z))
    : list (option Z) :=
  let len := Z.of_nat (length timeset) in
  let tmp := present_days dayset start stop in
  let poslist :=
    map (fun pos =>
      let '(i, time) :=
        if len =? 0 then
          (if pos <=? 0 then head tmp else None, None)
        else
          let daypos := if pos <? 0 then pos / len else (pos - 1) / len in
          let timepos :=
            if pos <? 0 then helpers.pymod pos len
            else helpers.pymod (pos - 1) len in
          (if daypos <? 0
           then head (helpers.slice tmp daypos (Z.of_nat (length tmp)))
           else helpers.get tmp daypos,
           helpers.get timeset timepos) in
      (fun i =>
         dateutil.combine h
           (dateutil.fromOrdinal (yearordinal (Iterinfo.yearinfo ii) + i))
           (Time_of <$> time)) <$> i)
      bysetpos in
  dateutil.sort id poslist.

(** The dates of a period in the order the loops of [iter] make them, when
    there is no [bysetpos]. *)
Definition period_dates (timeset : list Time.t) (start stop : Z)
    (ii : Iterinfo.t) (dayset : list (option Z)) : list (option Z) :=
  currentDay ← present_days dayset start stop;
  let date := dateutil.fromOrdinal (yearordinal (Iterinfo.yearinfo ii) + currentDay) in
  time ← timeset;
  [Some (dateutil.combine h date (Some (Time_of time)))].

Definition rezoneIfNeeded (date : Z) (options : ParsedOptions) : Z :=
  DateWithZone.rezonedDate h date (tzid options).

End Iter.

(** How the walk over the dates of one period ends: [iter] returns
    ([Stop]), or goes on to the next period with the count that is left. *)
Inductive Emitted (S : Type) :=
| Stop (s : S)
| Continue (s : S) (count : option Z).
Arguments Stop {S} s.
Arguments Continue {S} s count.

Section IterLoop.

Context (h : Host).

(** The sink: the state of the object [iter] is given and its method
    [accept], which returns whether to go on. [accept] of a recurrence set
    runs other rules, hence the fuel in its result. *)
Context {S : Type} (accept : S -> Z -> option (S * bool)).

Context (options : ParsedOptions).

(** The body both loops of [iter] share, over the dates [res] of a period.
    An invalid date fails both comparisons. *)
Fixpoint emit (dates : list (option Z)) (s : S) (count : option Z)
    : option (Emitted S) :=
  match dates with
  | [] => Some (Continue s count)
  | None :: dates => emit dates s count
  | Some res :: dates =>
      if match until options with Some u => u <? res | None => false end
      then Some (Stop s)
      else if dtstart options <=? res then
        '(s, ok) ← accept s (rezoneIfNeeded h res options);
        if negb ok then Some (Stop s)
        else
          match count with
          | Some c =>
              if c =? 0 then emit dates s count
              else if c - 1 =? 0 then Some (Stop s)
              else emit dates s (Some (c - 1))
          | None => emit dates s count
          end
      else emit dates s count
  end.

(** The dates of the period at [counterDate], and the flag [filtered]. *)
Definition period (counterDate : DateTime.t) (ii : Iterinfo.t)
    (timeset : list Time.t) : list (option Z) * bool :=
  let '(dayset, start, stop) :=
    Iterinfo.getdayset h options ii (freq options)
      (DateTime.year counterDate) (DateTime.month counterDate)
      (DateTime.day counterDate) in
  let '(dayset, filtered) := removeFilteredDays dayset start stop ii options in
  (if helpers.notEmpty (bysetpos options)
   then buildPoslist h (default [] (bysetpos options)) timeset start stop ii dayset
   else period_dates h timeset start stop ii dayset,
   filtered).

(** The [while (true)] loop of [iter]. *)
Fixpoint iter_loop (fuel : nat) (counterDate : DateTime.t) (ii : Iterinfo.t)
    (timeset : list Time.t) (s : S) (count : option Z) : option S :=
  match fuel with
  | O => None
  | Datatypes.S fuel =>
      let '(dates, filtered) := period counterDate ii timeset in
      r ← emit dates s count;
      match r with
      | Stop s => Some s
      | Continue s count =>
          if interval options =? 0 then Some s
          else
            counterDate ← DateTime.add fuel options filtered counterDate;
            if dateutil.MAXYEAR <? DateTime.year counterDate then Some s
            else
              let timeset :=
                if negb (freqIsDailyOrGreater (freq options))
                then Iterinfo.gettimeset options (freq options)
                       (DateTime.hour counterDate) (DateTime.minute counterDate)
                       (DateTime.second counterDate) 0
                else timeset in
              let ii :=
                Iterinfo.rebuild h options (Some ii)
                  (DateTime.year counterDate) (DateTime.month counterDate) in
              iter_loop fuel counterDate ii timeset s count
      end
  end.

(** [iter(iterResult, options)], up to the final [emitResult]: the state of
    the sink when [iter] returns. *)
Definition iter (fuel : nat) (s : S) : option S :=
  if bool_decide (count options = Some 0) || (interval options =? 0) then Some s
  else
    let counterDate := DateTime.fromDate (dtstart options) in
    let ii :=
      Iterinfo.rebuild h options None
        (DateTime.year counterDate) (DateTime.month counterDate) in
    let timeset := makeTimeset counterDate options in
    iter_loop fuel counterDate ii timeset s (count options).

End IterLoop.

(** [accept] of a plain or callback [IterResult]. *)
Definition accept_result (r : IterResult.t) (date : Z)
    : option (IterResult.t * bool) :=
  Some (IterResult.accept r date).

Definition emitResult (r : IterResult.t) : Value := IterResult.getValue r.

(** [RRule.prototype._iter] on a fresh [IterResult] or
    [CallbackIterResult]. *)
Definition rrule_iter (h : Host) (options : ParsedOptions) (fuel : nat)
    (q : Query) (iterator : option (Z -> Z -> bool)) : option Value :=
  emitResult <$> iter h accept_result options fuel (IterResult.new q iterator).

(** ** [Cache] ([cache.ts]) *)

Module Cache.

(** An entry of [this.before], [this.after] or [this.between]: the
    arguments of the query with the field [_value] the cache adds to
    them. *)
Record Item := { args : Query; _value : Value }.

(** [all] is [None] while the field holds [false]. *)
Record t := mk {
  all : option (list Z);
  before : list Item;
  after : list Item;
  between : list Item
}.

Definition new : t := mk None [] [] [].

(** [String(date)] prints a date to the second, with the offset of the
    host's zone: two dates print alike exactly when they fall in the same
    second. *)
Definition String_of_date (date : Z) : Z := date / 1000.

(** [findCacheDiff(item)], negated: every key of [args] prints the same in
    [item]. *)
Definition same_args (args item : Query) : bool :=
  match args, item with
  | QAll, QAll => true
  | QBetween a b i, QBetween a' b' i' =>
      bool_decide (String_of_date b = String_of_date b')
      && bool_decide (String_of_date a = String_of_date a')
      && bool_decide (i = i')
  | QBefore d i, QBefore d' i' | QAfter d i, QAfter d' i' =>
      bool_decide (String_of_date d = String_of_date d')
      && bool_decide (i = i')
  | _, _ => false
  end.

(** [this[what]]. *)
Definition items (c : t) (what : Query) : list Item :=
  match what with
  | QAll => []
  | QBetween _ _ _ => between c
  | QBefore _ _ => before c
  | QAfter _ _ => after c
  end.

(** [_cacheAdd(what, value, args)]. The value of an [all] query is an
    array. *)
Definition _cacheAdd (c : t) (what : Query) (value : Value) : t :=
  let item := {| args := what; _value := value |} in
  match what with
  | QAll =>
      match value with
      | Dates l => mk (Some l) (before c) (after c) (between c)
      | OneDate _ => c
      end
  | QBetween _ _ _ => mk (all c) (before c) (after c) (between c ++ [item])
  | QBefore _ _ => mk (all c) (before c ++ [item]) (after c) (between c)
  | QAfter _ _ => mk (all c) (before c) (after c ++ [item]) (between c)
  end.

(** The loop of [_cacheGet] over the cached occurrences: [accept] on each,
    until it returns [false]. *)
Fixpoint feed (r : IterResult.t) (dates : list Z) : IterResult.t :=
  match dates with
  | [] => r
  | date :: dates =>
      let '(r, ok) := IterResult.accept r date in
      if ok then feed r dates else r
  end.

(** [!cached]: [false] and [null] are false, an array and a date are
    not. *)
Definition not_cached (cached : option Value) : bool :=
  match cached with
  | None | Some (OneDate None) => true
  | Some _ => false
  end.

(** The first part of [_cacheGet(what, args)]: the value cached for these
    arguments; [None] is [false], not in the cache. *)
Definition lookup (c : t) (what : Query) : option Value :=
  match what with
  | QAll => Dates <$> all c
  | _ => _value <$> List.find (fun item => same_args what (args item)) (items c what)
  end.

(** [_cacheGet(what, args)]: a query that is not in the cache is answered
    from the occurrences of [all], when they are known, and added to the
    cache. *)
Definition _cacheGet (c : t) (what : Query) : option Value * t :=
  let cached := lookup c what in
  match all c with
  | Some dates =>
      if not_cached cached then
        let iterResult := IterResult.new what None in
        let cached := IterResult.getValue (feed iterResult dates) in
        (Some cached, _cacheAdd c what cached)
      else (cached, c)
  | None => (cached, c)
  end.

End Cache.

(** ** [RRule] ([rrule.ts]) *)

Module RRule.

Record t := mk {
  _cache : option Cache.t;
  origOptions : Options.t;
  options : ParsedOptions
}.

(** [new RRule(options, noCache)]. *)
Definition new (now : Z) (opts : Options.t) (noCache : bool) : result t :=
  match initializeOptions opts with
  | Throw e => Throw e
  | Ok origOptions =>
      match parseOptions now opts with
      | Throw e => Throw e
      | Ok parsedOptions =>
          Ok (mk (if noCache then None else Some Cache.new)
                 origOptions parsedOptions)
      end
  end.

Definition _iter (h : Host) (rule : t) (fuel : nat) (q : Query)
    (iterator : option (Z -> Z -> bool)) : option Value :=
  rrule_iter h (options rule) fuel q iterator.

Definition _cacheGet (rule : t) (what : Query) : option Value * t :=
  match _cache rule with
  | None => (None, rule)
  | Some c =>
      let '(v, c) := Cache._cacheGet c what in
      (v, mk (Some c) (origOptions rule) (options rule))
  end.

Definition _cacheAdd (rule : t) (what : Query) (value : Value) : t :=
  match _cache rule with
  | None => rule
  | Some c => mk (Some (Cache._cacheAdd c what value)) (origOptions rule) (options rule)
  end.

(** The body [all], [between], [before] and [after] share when there is no
    callback: the cache first, then the iterator. *)
Definition cached_query (h : Host) (fuel : nat) (rule : t) (q : Query)
    : option (Value * t) :=
  let '(result, rule) := _cacheGet rule q in
  match result with
  | Some v => Some (v, rule)
  | None =>
      v ← _iter h rule fuel q None;
      Some (v, _cacheAdd rule q v)
  end.

Definition all (h : Host) (fuel : nat) (rule : t)
    (iterator : option (Z -> Z -> bool)) : option (Value * t) :=
  match iterator with
  | Some _ => v ← _iter h rule fuel QAll iterator; Some (v, rule)
  | None => cached_query h fuel rule QAll
  end.

Definition between (h : Host) (fuel : nat) (rule : t) (after before : Z)
    (inc : bool) (iterator : option (Z -> Z -> bool)) : option (Value * t) :=
  match iterator with
  | Some _ =>
      v ← _iter h rule fuel (QBetween after before inc) iterator; Some (v, rule)
  | None => cached_query h fuel rule (QBetween after before inc)
  end.

Definition before (h : Host) (fuel : nat) (rule : t) (dt : Z) (inc : bool)
    : option (Value * t) :=
  cached_query h fuel rule (QBefore dt inc).

Definition after (h : Host) (fuel : nat) (rule : t) (dt : Z) (inc : bool)
    : option (Value * t) :=
  cached_query h fuel rule (QAfter dt inc).

(** A call of one of the four query methods. *)
Inductive Call :=
| CallAll (iterator : option (Z -> Z -> bool))
| CallBetween (after before : Z) (inc : bool) (iterator : option (Z -> Z -> bool))
| CallBefore (dt : Z) (inc : bool)
| CallAfter (dt : Z) (inc : bool).

Definition call (h : Host) (fuel : nat) (rule : t) (c : Call)
    : option (Value * t) :=
  match c with
  | CallAll iterator => all h fuel rule iterator
  | CallBetween a b inc iterator => between h fuel rule a b inc iterator
  | CallBefore dt inc => before h fuel rule dt inc
  | CallAfter dt inc => after h fuel rule dt inc
  end.

(** Calls made one after the other on the same rule, whose cache they
    fill. *)
Fixpoint calls (h : Host) (fuel : nat) (rule : t) (cs : list Call)
    : option (list Value * t) :=
  match cs with
  | [] => Some ([], rule)
  | c :: cs =>
      '(v, rule) ← call h fuel rule c;
      '(vs, rule) ← calls h fuel rule cs;
      Some (v :: vs, rule)
  end.

End RRule.

(** ** [RepeatAdapter.next] ([src/repeat.ts]) *)

Module RepeatAdapter.

(** [this.rrule.all((_, len) => len < count)]. *)
Definition next (h : Host) (fuel : nat) (rrule : RRule.t) (count : Z)
    : option (Value * RRule.t) :=
  RRule.all h fuel rrule (Some (fun _ len => len <? count)).

(** *** The subscriptions

    A hook is a function of the caller. [subscribe] calls it once and
    [notify] calls every hook; what a hook does is the caller's and is not
    part of the adapter. *)

Record Subscription (Hook : Type) := { id : Z; hook : Hook }.
Arguments id {Hook} _.
Arguments hook {Hook} _.

(** [subscribe(subscription)]: the subscriptions afterwards and [newID],
    which the function returned closes over. *)
Definition subscribe {Hook} (subscription : Hook)
    (subscriptions : list (Subscription Hook))
    : list (Subscription Hook) * Z :=
  let maxID := foldl (fun prev s => Z.max prev (id s)) 0 subscriptions in
  let newID := maxID + 1 in
  (subscriptions ++ [{| id := newID; hook := subscription |}], newID).

(** The function [subscribe] returns, called. *)
Definition unsubscribe {Hook} (newID : Z)
    (subscriptions : list (Subscription Hook)) : list (Subscription Hook) :=
  List.filter (fun s => negb (id s =? newID)) subscriptions.

(** *** The setters and getters

    They assign to the fields of [rrule.origOptions] and [rrule.options];
    the cache of the rule is left as it is. *)

Definition set_orig_byweekday (rrule : RRule.t)
    (v : option (OneOrMany ByWeekday)) : RRule.t :=
  let o := RRule.origOptions rrule in
  RRule.mk (RRule._cache rrule)
    (Options.mk (Options.freq o) (Options.dtstart o) (Options.interval o)
       (Options.wkst o) (Options.count o) (Options.until o) (Options.tzid o)
       (Options.bysetpos o) (Options.bymonth o) (Options.bymonthday o)
       (Options.byyearday o) (Options.byweekno o) v (Options.byhour o)
       (Options.byminute o) (Options.bysecond o) (Options.byeaster o)
       (Options.otherKeys o))
    (RRule.options rrule).

Definition set_orig_bymonthday (rrule : RRule.t) (v : option (OneOrMany Z))
    : RRule.t :=
  let o := RRule.origOptions rrule in
  RRule.mk (RRule._cache rrule)
    (Options.mk (Options.freq o) (Options.dtstart o) (Options.interval o)
       (Options.wkst o) (Options.count o) (Options.until o) (Options.tzid o)
       (Options.bysetpos o) (Options.bymonth o) v
       (Options.byyearday o) (Options.byweekno o) (Options.byweekday o)
       (Options.byhour o) (Options.byminute o) (Options.bysecond o)
       (Options.byeaster o) (Options.otherKeys o))
    (RRule.options rrule).

Definition set_byweekday (rrule : RRule.t) (v : option (list Z)) : RRule.t :=
  let o := RRule.options rrule in
  RRule.mk (RRule._cache rrule) (RRule.origOptions rrule)
    {| freq := freq o; dtstart := dtstart o; interval := interval o;
       wkst := wkst o; count := count o; until := until o; tzid := tzid o;
       bysetpos := bysetpos o; bymonth := bymonth o;
       bymonthday := bymonthday o; bynmonthday := bynmonthday o;
       byyearday := byyearday o; byweekno := byweekno o; byweekday := v;
       bynweekday := bynweekday o; byhour := byhour o; byminute := byminute o;
       bysecond := bysecond o; byeaster := byeaster o |}.

Definition set_bymonthday (rrule : RRule.t) (v : list Z) : RRule.t :=
  let o := RRule.options rrule in
  RRule.mk (RRule._cache rrule) (RRule.origOptions rrule)
    {| freq := freq o; dtstart := dtstart o; interval := interval o;
       wkst := wkst o; count := count o; until := until o; tzid := tzid o;
       bysetpos := bysetpos o; bymonth := bymonth o;
       bymonthday := v; bynmonthday := bynmonthday o;
       byyearday := byyearday o; byweekno := byweekno o;
       byweekday := byweekday o; bynweekday := bynweekday o;
       byhour := byhour o; byminute := byminute o; bysecond := bysecond o;
       byeaster := byeaster o |}.

Definition set_options_interval (rrule : RRule.t) (v : Z) : RRule.t :=
  let o := RRule.options rrule in
  RRule.mk (RRule._cache rrule) (RRule.origOptions rrule)
    {| freq := freq o; dtstart := dtstart o; interval := v;
       wkst := wkst o; count := count o; until := until o; tzid := tzid o;
       bysetpos := bysetpos o; bymonth := bymonth o;
       bymonthday := bymonthday o; bynmonthday := bynmonthday o;
       byyearday := byyearday o; byweekno := byweekno o;
       byweekday := byweekday o; bynweekday := bynweekday o;
       byhour := byhour o; byminute := byminute o; bysecond := bysecond o;
       byeaster := byeaster o |}.

(** The setter [interval]; [n] is [None] for [null] and [undefined]. The
    second component tells whether [notify] was called. *)
Definition set_interval (n : option Z) (rrule : RRule.t) : RRule.t * bool :=
  let newVal := match n with Some k => if k =? 0 then 1 else k | None => 1 end in
  if negb (newVal =? interval (RRule.options rrule))
  then (set_options_interval rrule newVal, true)
  else (rrule, false).

(** [setDaysOfWeek(ids)]: [new Weekday(id)] has no [n] and does not
    throw. *)
Definition setDaysOfWeek (ids : list Z) (rrule : RRule.t) : RRule.t :=
  let weekdayList := map (fun id => WObj (Weekday.mk id None)) ids in
  let numberList := ids in
  set_byweekday (set_orig_byweekday rrule (Some (Many weekdayList)))
    (Some numberList).

Definition ByWeekdayToNumber (wd : ByWeekday) : Z :=
  match wd with
  | WNum n => n
  | WStr _ => 0
  | WObj w => Weekday.weekday w
  end.

(** The getter [daysOfWeek]: [!weekdays] holds of a [byweekday] that is
    absent and of the number 0. *)
Definition daysOfWeek (rrule : RRule.t) : list Z :=
  match Options.byweekday (RRule.origOptions rrule) with
  | None => []
  | Some (Many weekdays) => map ByWeekdayToNumber weekdays
  | Some (One (WNum n)) => if n =? 0 then [] else [n]
  | Some (One wd) => [ByWeekdayToNumber wd]
  end.

(** The getter [dayOfMonth]; [None] is [null] or [undefined]. *)
Definition dayOfMonth (rrule : RRule.t) : option Z :=
  match Options.bymonthday (RRule.origOptions rrule) with
  | Some (Many day) => head day
  | Some (One day) => Some day
  | None => None
  end.

(** The setter [dayOfMonth]. *)
Definition set_dayOfMonth (n : Z) (rrule : RRule.t) : RRule.t :=
  set_orig_byweekday
    (set_bymonthday (set_orig_bymonthday rrule (Some (One n))) [n])
    (Some (Many [])).

(** The setter [lastDayOfMonth]. *)
Definition set_lastDayOfMonth (val : bool) (rrule : RRule.t) : RRule.t :=
  if val then set_bymonthday (set_orig_bymonthday rrule (Some (One (-1)))) [-1]
  else set_bymonthday (set_orig_bymonthday rrule (Some (Many []))) [].

(** The getter [lastDayOfMonth]. *)
Definition lastDayOfMonth (rrule : RRule.t) : bool :=
  match Options.bymonthday (RRule.origOptions rrule) with
  | Some (Many day) =>
      match day with
      | d :: _ => d =? -1
      | [] => false
      end
  | Some (One day) => day =? -1
  | None => false
  end.

End RepeatAdapter.

(** ** [iterSet] and [RRuleSet] ([iterset.ts], [rruleset.ts]) *)

(** What the replaced [accept] of [iterSet] works on: the [IterResult], the
    object [_exdateHash] (a set of time values) and the exclusion rules,
    whose caches [between] fills. *)
Record SetSink := {
  sink_result : IterResult.t;
  _exdateHash : gset Z;
  sink_exrule : list RRule.t
}.

Section IterSet.

Context (h : Host).

(** [evalExdate(after, before)]: every date the exclusion rules have from
    [after] to [before], both included, goes into the hash. *)
Fixpoint evalExdate (fuel : nat) (_exrule : list RRule.t) (hash : gset Z)
    (after before : Z) : option (list RRule.t * gset Z) :=
  match _exrule with
  | [] => Some ([] : list RRule.t, hash)
  | rrule :: rest =>
      '(v, rrule) ← RRule.between h fuel rrule after before true None;
      let dates := match v with Dates l => l | OneDate _ => [] end in
      '(rest, hash) ← evalExdate fuel rest (hash ∪ list_to_set dates) after before;
      Some (rrule :: rest, hash)
  end.

(** The [accept] installed first, kept for [all], [before] and [after]. *)
Definition accept_set (fuel : nat) (s : SetSink) (date : Z)
    : option (SetSink * bool) :=
  let dt := date in
  if bool_decide (dt ∈ _exdateHash s) then Some (s, true)
  else
    '(exrule, hash) ←
      evalExdate fuel (sink_exrule s) (_exdateHash s) (dt - 1) (dt + 1);
    if bool_decide (dt ∈ hash)
    then Some ({| sink_result := sink_result s; _exdateHash := hash;
                  sink_exrule := exrule |}, true)
    else
      let '(r, ok) := IterResult.accept (sink_result s) date in
      Some ({| sink_result := r; _exdateHash := hash ∪ {[dt]};
               sink_exrule := exrule |}, ok).

(** The [accept] installed for [between], after one [evalExdate] over the
    whole interval. *)
Definition accept_set_between (s : SetSink) (date : Z)
    : option (SetSink * bool) :=
  let dt := date in
  if bool_decide (dt ∈ _exdateHash s) then Some (s, true)
  else
    let '(r, ok) := IterResult.accept (sink_result s) date in
    Some ({| sink_result := r; _exdateHash := _exdateHash s ∪ {[dt]};
             sink_exrule := sink_exrule s |}, ok).

(** The loop over [_rdate]: it breaks when [accept] returns [false]. *)
Fixpoint accept_rdates (accept : SetSink -> Z -> option (SetSink * bool))
    (tzid : option string) (_rdate : list Z) (s : SetSink) : option SetSink :=
  match _rdate with
  | [] => Some s
  | date :: rest =>
      let zonedDate := DateWithZone.rezonedDate h date tzid in
      '(s, ok) ← accept s zonedDate;
      if (ok : bool) then accept_rdates accept tzid rest s else Some s
  end.

(** [_rrule.forEach(rrule => iter(iterResult, rrule.options))]: what
    [iter] returns is dropped, each rule runs in turn. *)
Fixpoint iter_rules (accept : SetSink -> Z -> option (SetSink * bool))
    (fuel : nat) (_rrule : list RRule.t) (s : SetSink) : option SetSink :=
  match _rrule with
  | [] => Some s
  | rrule :: rest =>
      s ← iter h accept (RRule.options rrule) fuel s;
      iter_rules accept fuel rest s
  end.

(** [iterSet]: the value returned, and the exclusion rules with the caches
    the run leaves them. Dates are valid here: the branch of [accept] for a
    date that is [NaN] is not taken. *)
Definition iterSet (fuel : nat) (iterResult : IterResult.t)
    (_rrule _exrule : list RRule.t) (_rdate _exdate : list Z)
    (tzid : option string) : option (Value * list RRule.t) :=
  let _exdateHash : gset Z :=
    list_to_set (map (fun date => DateWithZone.rezonedDate h date tzid) _exdate) in
  '(accept, _exrule, _exdateHash) ←
    match IterResult.method iterResult with
    | QBetween after before _ =>
        '(exrule, hash) ← evalExdate fuel _exrule _exdateHash after before;
        Some (accept_set_between, exrule, hash)
    | _ => Some (accept_set fuel, _exrule, _exdateHash)
    end;
  s ← accept_rdates accept tzid _rdate
        {| sink_result := iterResult; _exdateHash := _exdateHash;
           sink_exrule := _exrule |};
  s ← iter_rules accept fuel _rrule s;
  let res := dateutil.sort Some (IterResult._result (sink_result s)) in
  Some (match IterResult.method iterResult with
        | QAll | QBetween _ _ _ => Dates res
        | QBefore _ _ => OneDate (last res)
        | QAfter _ _ => OneDate (head res)
        end,
        sink_exrule s).

End IterSet.

Module RRuleSet.

(** The fields of the set that [_iter] reads; [_tzid] is the zone given to
    the set itself, if any.

    [RRuleSet] extends [RRule] and inherits its [_cache], which [all],
    [between], [before] and [after] consult when they are called without a
    callback on a set constructed with [noCache = false], and which [rrule],
    [rdate], [exrule] and [exdate] never reset. That cache is not a field
    here: a query of a set is taken as [_iter] on a new [IterResult], which
    is what the four methods run on a set constructed with
    [new RRuleSet(true)], and what [all] and [between] run on any set when
    they are given a callback. *)
Record t := mk {
  _rrule : list RRule.t;
  _rdate : list Z;
  _exrule : list RRule.t;
  _exdate : list Z;
  _tzid : option string
}.

(** The getter [tzid()]: the zone of the set or, without one, the first
    non-empty [tzid] among the original options of its rules. *)
Definition tzid (s : t) : option string :=
  match _tzid s with
  | Some z => Some z
  | None =>
      mjoin (head (List.filter helpers.isPresent
              (map (fun r =>
                      match Options.tzid (RRule.origOptions r) with
                      | Some ""%string => None
                      | z => z
                      end) (_rrule s))))
  end.

(** [_addDate(date, collection)]. *)
Definition _addDate (date : Z) (collection : list Z) : list Z :=
  if bool_decide (date ∈ collection) then collection
  else dateutil.sort Some (collection ++ [date]).

Definition rdate (date : Z) (s : t) : t :=
  mk (_rrule s) (_addDate date (_rdate s)) (_exrule s) (_exdate s) (_tzid s).

Definition exdate (date : Z) (s : t) : t :=
  mk (_rrule s) (_rdate s) (_exrule s) (_addDate date (_exdate s)) (_tzid s).

(** [_iter(iterResult)]. *)
Definition _iter (h : Host) (fuel : nat) (s : t) (iterResult : IterResult.t)
    : option (Value * list RRule.t) :=
  iterSet h fuel iterResult (_rrule s) (_exrule s) (_rdate s) (_exdate s) (tzid s).

End RRuleSet.

(** * The task list configuration ([src/state.ts]) *)

(** ** Strings

    A string of the program is a sequence of UTF-16 code units. *)

Module JSString.

Definition t : Type := list N.

(** A literal of the source, which holds ASCII characters only. *)
Definition lit (s : string) : t := N_of_ascii <$> list_ascii_of_string s.

(** [WhiteSpace] and [LineTerminator] of ECMA-262, which [trim] strips. *)
Definition isLineTerminator (c : N) : bool :=
  bool_decide (c ∈ [10; 13; 8232; 8233]%N).

Definition isWhiteSpace (c : N) : bool :=
  bool_decide (c ∈ [9; 11; 12; 32; 160; 5760; 8239; 8287; 12288; 65279]%N)
  || ((8192 <=? c) && (c <=? 8202))%N.

Definition trimmed (c : N) : bool := isWhiteSpace c || isLineTerminator c.

Fixpoint trimStart (s : t) : t :=
  match s with
  | c :: rest => if trimmed c then trimStart rest else s
  | [] => []
  end.

Definition trimEnd (s : t) : t := reverse (trimStart (reverse s)).

Definition trim (s : t) : t := trimEnd (trimStart s).

(** [s.split(sep)] for a separator of one code unit; [part] is the part
    read so far. The empty string splits into one empty part. *)
Fixpoint split_from (sep : N) (part : t) (s : t) : list t :=
  match s with
  | [] => [part]
  | c :: rest =>
      if (c =? sep)%N then part :: split_from sep [] rest
      else split_from sep (part ++ [c]) rest
  end.

Definition split (sep : N) (s : t) : list t := split_from sep [] s.

Definition colon : N := 58.
Definition comma : N := 44.
Definition bracket_open : N := 91.
Definition bracket_close : N := 93.
Definition quote : N := 34.

(** [s.match(/^\[.*\]$/)] is not [null]: [s] opens with a bracket and
    closes with another one, and no line terminator stands between them
    (the dot matches none, and without the flag [m] the dollar matches at
    the end of [s] only). *)
Definition in_brackets (s : t) : bool :=
  match s with
  | c :: rest =>
      (c =? bracket_open)%N
      && match reverse rest with
         | d :: middle =>
             (d =? bracket_close)%N
             && forallb (fun c => negb (isLineTerminator c)) middle
         | [] => false
         end
  | [] => false
  end.

(** [s.replace(/^\[/, '')]. *)
Definition drop_bracket_open (s : t) : t :=
  match s with
  | c :: rest => if (c =? bracket_open)%N then rest else s
  | [] => []
  end.

(** [s.replace(/\]$/, '')]. *)
Definition drop_bracket_close (s : t) : t :=
  match reverse s with
  | c :: rest => if (c =? bracket_close)%N then reverse rest else s
  | [] => []
  end.

End JSString.

Module State.

(** ** [TaskListConfig] *)

Inductive SortKey := SortDue | SortScore.
Inductive GroupKey := GroupDue | GroupCompleted.

(** A field that may be [undefined] is an [option]. *)
Record TaskListConfig := {
  overdue : bool;
  due : bool;
  noDue : bool;
  completed : option bool;
  sort : option SortKey;
  group : option GroupKey;
  selectTags : list JSString.t;
  omitTags : list JSString.t;
  selectDay : option JSString.t;
  selectWeek : option JSString.t
}.

Definition TaskListConfigDefaults : TaskListConfig :=
  {| overdue := false; due := true; noDue := true; completed := None;
     sort := Some SortScore; group := None; selectTags := []; omitTags := [];
     selectDay := None; selectWeek := None |}.

(** The assignments [state.field = v]. *)
Definition set_overdue (state : TaskListConfig) (v : bool)
    : TaskListConfig :=
  {| overdue := v; due := due state; noDue := noDue state;
     completed := completed state; sort := sort state; group := group state;
     selectTags := selectTags state; omitTags := omitTags state;
     selectDay := selectDay state; selectWeek := selectWeek state |}.

Definition set_due (state : TaskListConfig) (v : bool)
    : TaskListConfig :=
  {| overdue := overdue state; due := v; noDue := noDue state;
     completed := completed state; sort := sort state; group := group state;
     selectTags := selectTags state; omitTags := omitTags state;
     selectDay := selectDay state; selectWeek := selectWeek state |}.

Definition set_noDue (state : TaskListConfig) (v : bool)
    : TaskListConfig :=
  {| overdue := overdue state; due := due state; noDue := v;
     completed := completed state; sort := sort state; group := group state;
     selectTags := selectTags state; omitTags := omitTags state;
     selectDay := selectDay state; selectWeek := selectWeek state |}.

Definition set_completed (state : TaskListConfig) (v : option bool)
    : TaskListConfig :=
  {| overdue := overdue state; due := due state; noDue := noDue state;
     completed := v; sort := sort state; group := group state;
     selectTags := selectTags state; omitTags := omitTags state;
     selectDay := selectDay state; selectWeek := selectWeek state |}.

Definition set_sort (state : TaskListConfig) (v : option SortKey)
    : TaskListConfig :=
  {| overdue := overdue state; due := due state; noDue := noDue state;
     completed := completed state; sort := v; group := group state;
     selectTags := selectTags state; omitTags := omitTags state;
     selectDay := selectDay state; selectWeek := selectWeek state |}.

Definition set_group (state : TaskListConfig) (v : option GroupKey)
    : TaskListConfig :=
  {| overdue := overdue state; due := due state; noDue := noDue state;
     completed := completed state; sort := sort state; group := v;
     selectTags := selectTags state; omitTags := omitTags state;
     selectDay := selectDay state; selectWeek := selectWeek state |}.

Definition set_selectTags (state : TaskListConfig) (v : list JSString.t)
    : TaskListConfig :=
  {| overdue := overdue state; due := due state; noDue := noDue state;
     completed := completed state; sort := sort state; group := group state;
     selectTags := v; omitTags := omitTags state;
     selectDay := selectDay state; selectWeek := selectWeek state |}.

Definition set_omitTags (state : TaskListConfig) (v : list JSString.t)
    : TaskListConfig :=
  {| overdue := overdue state; due := due state; noDue := noDue state;
     completed := completed state; sort := sort state; group := group state;
     selectTags := selectTags state; omitTags := v;
     selectDay := selectDay state; selectWeek := selectWeek state |}.

Definition set_selectDay (state : TaskListConfig) (v : option JSString.t)
    : TaskListConfig :=
  {| overdue := overdue state; due := due state; noDue := noDue state;
     completed := completed state; sort := sort state; group := group state;
     selectTags := selectTags state; omitTags := omitTags state;
     selectDay := v; selectWeek := selectWeek state |}.

Definition set_selectWeek (state : TaskListConfig) (v : option JSString.t)
    : TaskListConfig :=
  {| overdue := overdue state; due := due state; noDue := noDue state;
     completed := completed state; sort := sort state; group := group state;
     selectTags := selectTags state; omitTags := omitTags state;
     selectDay := selectDay state; selectWeek := v |}.

(** ** [parseTaskListConfig]

    The state of the parse is the configuration being filled together with
    the lines [console.error] has printed. A step returns [None] when it
    throws: a method called on [undefined]. *)

Definition ParseState : Type := TaskListConfig * list JSString.t.

(** The text [tq: Invalid line in config "${line}"]. *)
Definition invalid_line (line : JSString.t) : JSString.t :=
  JSString.lit "tq: Invalid line in config " ++ [JSString.quote] ++ line
  ++ [JSString.quote].

(** The value of [select-tags] and [omit-tags]: [parts[1].match] throws on
    [undefined]. *)
Definition parse_tags (value : option JSString.t) : option (list JSString.t) :=
  match value with
  | None => None
  | Some value =>
      if JSString.in_brackets value then
        Some (JSString.trim
                <$> JSString.split JSString.comma
                      (JSString.drop_bracket_close
                         (JSString.drop_bracket_open value)))
      else Some [value]
  end.

(** [x === 'text'], where [x] may be [undefined]. *)
Definition equals (x : option JSString.t) (text : string) : bool :=
  bool_decide (x = Some (JSString.lit text)).

(** [line.split(':').map((part) => part.trim())]. *)
Definition parts_of (line : JSString.t) : list JSString.t :=
  JSString.trim <$> JSString.split JSString.colon line.

(** The callback of [lines.forEach]. *)
Definition parse_line (st : ParseState) (line : JSString.t) : option ParseState :=
  let '(state, errors) := st in
  if bool_decide (line = []) then Some st
  else
    let parts := parts_of line in
    if negb (bool_decide (length parts = 2%nat)) then
      Some (state, errors ++ [invalid_line line])
    else
      let key := parts !! 0%nat in
      let value := parts !! 1%nat in
      if equals key "overdue" then
        Some (set_overdue state (equals value "true"), errors)
      else if equals key "due" then
        Some (set_due state (equals value "true"), errors)
      else if equals key "no-due" then
        Some (set_noDue state (equals value "true"), errors)
      else if equals key "completed" then
        Some (set_completed state (Some (equals value "true")), errors)
      else if equals key "sort" then
        if equals value "due" then Some (set_sort state (Some SortDue), errors)
        else if equals value "score" then
          Some (set_sort state (Some SortScore), errors)
        else Some (set_sort state None, errors ++ [invalid_line line])
      else if equals key "group" then
        if equals value "due" then Some (set_group state (Some GroupDue), errors)
        else if equals value "completed" then
          Some (set_group state (Some GroupCompleted), errors)
        else Some (set_group state None, errors ++ [invalid_line line])
      else if equals key "select-tags" then
        tags ← parse_tags value; Some (set_selectTags state tags, errors)
      else if equals key "omit-tags" then
        tags ← parse_tags value; Some (set_omitTags state tags, errors)
      else if equals key "select-day" then
        Some (set_due (set_selectDay state value) true, errors)
      else if equals key "select-week" then
        Some (set_due (set_selectWeek state value) true, errors)
      else Some st.

(** [lines.forEach(...)] on the state. *)
Fixpoint parse_lines (st : ParseState) (lines : list JSString.t)
    : option ParseState :=
  match lines with
  | [] => Some st
  | line :: lines => st ← parse_line st line; parse_lines st lines
  end.

(** [taskListConfigWithDefaults({})] is a copy of the defaults. *)
Definition parseTaskListConfig (lines : list JSString.t) : option ParseState :=
  parse_lines (TaskListConfigDefaults, []) lines.

End State.

(** * The strings of dates ([dateutil.ts], [helpers.ts]) *)

Module UntilString.

(** [String(n)] for an integer [n] below 10^21 in size: its decimal
    digits, after a minus sign when it is negative. The fuel bounds the
    number of digits. *)
Fixpoint digits (fuel : nat) (n : Z) (acc : JSString.t) : JSString.t :=
  match fuel with
  | O => acc
  | S fuel =>
      let acc := Z.to_N (48 + n mod 10) :: acc in
      if n <? 10 then acc else digits fuel (n / 10) acc
  end.

Definition String_of_number (n : Z) : JSString.t :=
  if n <? 0 then 45%N :: digits (S (Z.to_nat (Z.log2 (- n)))) (- n) []
  else digits (S (Z.to_nat (Z.log2 n))) n [].

(** [String(array)] for an array of strings: the strings, with commas
    between them. *)
Fixpoint String_of_array (array : list JSString.t) : JSString.t :=
  match array with
  | [] => []
  | [s] => s
  | s :: rest => s ++ [JSString.comma] ++ String_of_array rest
  end.

(** [n >> 0] on an integer [n]: [n] wrapped to 32 bits, as a signed
    number. *)
Definition to_int32 (n : Z) : Z := (n + 2 ^ 31) mod 2 ^ 32 - 2 ^ 31.

(** [padStart(item, targetLength, padString)] on [str = String(item)], for
    a [padString] that is not empty. [repeat] returns an array, which [+=]
    turns into a string; its loop runs for every [i] below
    [targetLength / padString.length], a number that need not be whole. *)
Definition padStart (str : JSString.t) (targetLength : Z)
    (padString : JSString.t) : JSString.t :=
  let len := Z.of_nat (length str) in
  let targetLength := to_int32 targetLength in
  if targetLength <? len then str
  else
    let targetLength := targetLength - len in
    let padLength := Z.of_nat (length padString) in
    let padString :=
      if padLength <? targetLength then
        padString
        ++ String_of_array
             (helpers.repeat padString (ceil_div targetLength padLength))
      else padString in
    take (Z.to_nat targetLength) padString ++ str.

(** [timeToUntilString(time, utc)]. *)
Definition timeToUntilString (time : Z) (utc : bool) : JSString.t :=
  let date := time in
  let zero := JSString.lit "0" in
  padStart (String_of_number (JSDate.getUTCFullYear date)) 4 zero
  ++ padStart (String_of_number (JSDate.getUTCMonth date + 1)) 2 zero
  ++ padStart (String_of_number (JSDate.getUTCDate date)) 2 zero
  ++ JSString.lit "T"
  ++ padStart (String_of_number (JSDate.getUTCHours date)) 2 zero
  ++ padStart (String_of_number (JSDate.getUTCMinutes date)) 2 zero
  ++ padStart (String_of_number (JSDate.getUTCSeconds date)) 2 zero
  ++ (if utc then JSString.lit "Z" else []).

(** [\d] matches the ten digits of ASCII. *)
Definition isDigit (c : N) : bool := ((48 <=? c) && (c <=? 57))%N.

(** [re.exec(until)] for the expression
    [/^(\d{4})(\d{2})(\d{2})(T(\d{2})(\d{2})(\d{2})Z?)?$/]: the groups 1, 2
    and 3 and, when the optional part is there, the groups 5, 6 and 7;
    [None] when there is no match. *)
Definition exec (until : JSString.t)
    : option (JSString.t * JSString.t * JSString.t
              * option (JSString.t * JSString.t * JSString.t)) :=
  let date := take 8 until in
  if bool_decide (length date = 8%nat) && forallb isDigit date then
    let bits := (take 4 date, take 2 (drop 4 date), drop 6 date) in
    match drop 8 until with
    | [] => Some (bits, None)
    | c :: time =>
        let hms := take 6 time in
        let z := drop 6 time in
        if (c =? 84)%N && bool_decide (length hms = 6%nat)
           && forallb isDigit hms
           && (bool_decide (z = []) || bool_decide (z = JSString.lit "Z"))
        then Some (bits, Some (take 2 hms, take 2 (drop 2 hms), drop 4 hms))
        else None
    end
  else None.

(** [parseInt(s, 10)] on a string of digits. *)
Definition parseInt (s : JSString.t) : Z :=
  foldl (fun n c => n * 10 + (Z.of_N c - 48)) 0 s.

(** [untilStringToDate(until)]; [None] when it throws. A group that is
    [undefined] parses to [NaN], for which [|| 0] gives 0. *)
Definition untilStringToDate (until : JSString.t) : option Z :=
  match exec until with
  | None => None
  | Some (year, month, day, time) =>
      let '(hours, minutes, seconds) :=
        match time with
        | Some (hours, minutes, seconds) =>
            (parseInt hours, parseInt minutes, parseInt seconds)
        | None => (0, 0, 0)
        end in
      Some (JSDate.UTC (parseInt year) (parseInt month - 1) (parseInt day)
              hours minutes seconds 0)
  end.

End UntilString.

(** * The vocabulary of the properties

    The definitions the statements below are written with: none of them is
    part of the program. *)

(** ** Sinks and what they are offered *)

(** The sink that keeps every date it is offered and never stops the
    iteration. *)
Definition collect (l : list Z) (date : Z) : option (list Z * bool) :=
  Some (l ++ [date], true).

Section Feed.

Context {S : Type} (accept : S -> Z -> option (S * bool)).

(** Offer the dates of a list to a sink, in order, until it asks to stop.
    The flag tells whether it never did. *)
Fixpoint feed_sink (s : S) (dates : list Z) : option (S * bool) :=
  match dates with
  | [] => Some (s, true)
  | date :: dates =>
      '(s, ok) ← accept s date;
      if (ok : bool) then feed_sink s dates else Some (s, false)
  end.

End Feed.

Section Offered.

Context (h : Host) (options : ParsedOptions).

(** One more date offered before the others. *)
Definition cons_offered (d : Z) (r : list Z * option (option Z))
    : list Z * option (option Z) :=
  (d :: r.1, r.2).

(** The dates the walk over a period offers a sink that never stops it,
    and how the walk ends: [None] when [iter] returns, the count that is
    left when it goes on. *)
Fixpoint offered (dates : list (option Z)) (count : option Z)
    : list Z * option (option Z) :=
  match dates with
  | [] => ([], Some count)
  | None :: dates => offered dates count
  | Some res :: dates =>
      if match until options with Some u => u <? res | None => false end
      then ([], None)
      else if dtstart options <=? res then
        let d := rezoneIfNeeded h res options in
        match count with
        | Some c =>
            if c =? 0 then cons_offered d (offered dates count)
            else if c - 1 =? 0 then ([d], None)
            else cons_offered d (offered dates (Some (c - 1)))
        | None => cons_offered d (offered dates count)
        end
      else offered dates count
  end.


End Offered.

(** The sink of [all()] without a callback. *)
Definition all_sink (r : IterResult.t) : Prop :=
  IterResult.method r = QAll /\ IterResult.iterator r = None.


(** ** Empty answers *)

(** The value of a query that found nothing. *)
Definition empty_value (q : Query) : Value :=
  match q with
  | QAll | QBetween _ _ _ => Dates []
  | QBefore _ _ | QAfter _ _ => OneDate None
  end.

(** The query a call makes. *)
Definition query_of (c : RRule.Call) : Query :=
  match c with
  | RRule.CallAll _ => QAll
  | RRule.CallBetween a b inc _ => QBetween a b inc
  | RRule.CallBefore dt inc => QBefore dt inc
  | RRule.CallAfter dt inc => QAfter dt inc
  end.

(** A rule that [iter] leaves at once. *)
Definition zero_rule (o : ParsedOptions) : Prop :=
  count o = Some 0 \/ interval o = 0.

(** A cache that holds only empty answers. *)
Definition cache_empty (c : Cache.t) : Prop :=
  (Cache.all c = None \/ Cache.all c = Some [])
  /\ Forall (fun item => Cache._value item = OneDate None) (Cache.before c)
  /\ Forall (fun item => Cache._value item = OneDate None) (Cache.after c)
  /\ Forall (fun item => Cache._value item = Dates []) (Cache.between c).

(** A rule of count or interval zero whose cache, if it has one, holds only
    empty answers. *)
Definition rule_empty (rule : RRule.t) : Prop :=
  zero_rule (RRule.options rule)
  /\ match RRule._cache rule with
     | Some c => cache_empty c
     | None => True
     end.

(** ** The clock and the calendar *)




(** The length of month [m] (0 to 11). *)
Definition month_length (leap m : Z) : Z :=
  JSDate.monthStart (m + 1) leap - JSDate.monthStart m leap.

(** The length [fixDay] reads for month [m] (1 to 12) of year [y]. *)
Definition daysinmonth (y m : Z) : Z := (dateutil.monthRange y (m - 1)).2.



(** ** Weekdays without their ordinals *)

(** A weekday without its ordinal. *)
Definition plain_weekday (w : ByWeekday) : ByWeekday :=
  match w with
  | WObj wday => WNum (Weekday.weekday wday)
  | _ => w
  end.

(** The same on a value of [byweekday], a weekday or an array of them. *)
Definition plain_weekdays (v : OneOrMany ByWeekday) : OneOrMany ByWeekday :=
  match v with
  | One w => One (plain_weekday w)
  | Many l => Many (plain_weekday <$> l)
  end.

(** The options with every [Weekday] object of [byweekday] replaced by its
    weekday number. *)
Definition without_ordinals (o : Options.t) : Options.t :=
  Options.mk (Options.freq o) (Options.dtstart o) (Options.interval o)
    (Options.wkst o) (Options.count o) (Options.until o) (Options.tzid o)
    (Options.bysetpos o) (Options.bymonth o) (Options.bymonthday o)
    (Options.byyearday o) (Options.byweekno o)
    (plain_weekdays <$> Options.byweekday o) (Options.byhour o)
    (Options.byminute o) (Options.bysecond o) (Options.byeaster o)
    (Options.otherKeys o).

(** The number of the weekday a [byweekday] entry names. *)
Definition weekday_number (w : ByWeekday) : Z :=
  match w with
  | WNum n => n
  | WStr s => Weekday.weekday (Weekday.fromStr s)
  | WObj w => Weekday.weekday w
  end.

(** ** Lines of a task list configuration *)



(** ** The rules, sets and lines the theorems are evaluated at *)

(** [{freq: MONTHLY, bymonthday: [31], dtstart: 2024-01-31T00:00:00Z}]. *)
Definition monthly_on_the_31st : Options.t :=
  Options.mk (Some MONTHLY) (Some (ValidDate (JSDate.UTC 2024 0 31 0 0 0 0)))
    None None None None None None None (Some (Many [31])) None None None None
    None None None [].


(** [{freq: YEARLY, dtstart: 2024-01-01T00:00:00Z, until: 2026-06-01T00:00:00Z}]. *)
Definition yearly_until_2026 : Options.t :=
  Options.mk (Some YEARLY) (Some (ValidDate (JSDate.UTC 2024 0 1 0 0 0 0)))
    None None None (Some (ValidDate (JSDate.UTC 2026 5 1 0 0 0 0))) None None
    None None None None None None None None None [].

(** [{freq: WEEKLY, dtstart: 2024-01-01T00:00:00Z, count: 3,
      byweekday: [TU.nth(2)]}]. *)
Definition weekly_second_tuesday : Options.t :=
  Options.mk (Some WEEKLY) (Some (ValidDate (JSDate.UTC 2024 0 1 0 0 0 0)))
    None None (Some 3) None None None None None None None
    (Some (Many [WObj (Weekday.mk 1 (Some 2))])) None None None None [].

(** [{freq: YEARLY, dtstart: 2024-03-15T00:00:00Z, bymonth: 0}]. *)
Definition yearly_bymonth_zero : Options.t :=
  Options.mk (Some YEARLY) (Some (ValidDate (JSDate.UTC 2024 2 15 0 0 0 0)))
    None None None None None None (Some (One 0)) None None None None None None
    None None [].

(** [{freq: DAILY, dtstart: 2024-01-01T05:00:00Z, byhour: [10, 5]}]. *)
Definition daily_at_10_and_5 : Options.t :=
  Options.mk (Some DAILY) (Some (ValidDate (JSDate.UTC 2024 0 1 5 0 0 0)))
    None None None None None None None None None None None
    (Some (Many [10; 5])) None None None [].

(** The options [RRule.fromText] makes of the text [every day at 10, 5]:
    [{freq: DAILY, byhour: [10, 5]}]. *)
Definition every_day_at_10_5 : Options.t :=
  Options.mk (Some DAILY) None None None None None None None None None None
    None None (Some (Many [10; 5])) None None None [].

(** [{freq: DAILY, dtstart: 2024-01-01T12:00:00.200Z, count: 1}]. *)
Definition once_at_200ms : Options.t :=
  Options.mk (Some DAILY) (Some (ValidDate (JSDate.UTC 2024 0 1 12 0 0 200)))
    None None (Some 1) None None None None None None None None None None None
    None [].

(** The set holding the dates 12:00:00.100 and 12:00:00.200 of 2024-01-01
    and the exclusion rule [exrule]. *)
Definition two_dates_except (exrule : RRule.t) : RRuleSet.t :=
  RRuleSet.mk []
    [JSDate.UTC 2024 0 1 12 0 0 100; JSDate.UTC 2024 0 1 12 0 0 200]
    [exrule] [] None.

(** [set.all()] on a set without a cache of its own. *)
Definition set_all (s : RRuleSet.t) : option Value :=
  fst <$> RRuleSet._iter utcHost 4 s (IterResult.new QAll None).

(** [{freq: DAILY, dtstart: 2024-01-01T00:00:00Z, count: 0}]. *)
Definition daily_zero_times : Options.t :=
  Options.mk (Some DAILY) (Some (ValidDate (JSDate.UTC 2024 0 1 0 0 0 0)))
    None None (Some 0) None None None None None None None None None None None
    None [].

(** The lines [overdue: true], [sort: bogus], the empty line, [note] and
    [select-tags: [work, home]]. *)
Definition some_lines : list JSString.t :=
  JSString.lit
    <$> ["overdue: true"; "sort: bogus"; ""; "note";
         "select-tags: [work, home]"]%string.

(** ** The vocabulary of the further properties *)

(** The order of two elements by their times. *)
Definition time_le {A} (getTime : A -> option Z) (a b : A) : Prop :=
  match getTime a, getTime b with
  | Some x, Some y => x <= y
  | _, _ => False
  end.

(** A time the walk of a rule can offer: not before [dtstart], not after
    [until], moved to the zone of the rule. *)
Definition occurrence_time (h : Host) (o : ParsedOptions) (date : Z) : Prop :=
  exists res : Z,
    dtstart o <= res
    /\ match until o with Some u => res <= u | None => True end
    /\ date = rezoneIfNeeded h res o.

(** The dates in the value of a query. *)
Definition dates_of (v : Value) : list Z :=
  match v with
  | Dates l => l
  | OneDate (Some d) => [d]
  | OneDate None => []
  end.

(** The bounds of a query. *)
Definition within (q : Query) (d : Z) : Prop :=
  match q with
  | QAll => True
  | QBetween after before inc =>
      if inc then after <= d <= before else after < d < before
  | QBefore dt inc => if inc then d <= dt else d < dt
  | QAfter dt inc => if inc then dt <= d else dt < d
  end.

(** A date from [dtstart] on and, when [until] is set, not after it. *)
Definition in_span (o : ParsedOptions) (d : Z) : Prop :=
  dtstart o <= d /\ match until o with Some u => d <= u | None => True end.

(** A cache that holds dates of the span of the rule only. *)
Definition cache_span (o : ParsedOptions) (c : Cache.t) : Prop :=
  (forall l, Cache.all c = Some l -> Forall (in_span o) l)
  /\ Forall (fun item => Forall (in_span o) (dates_of (Cache._value item)))
       (Cache.before c)
  /\ Forall (fun item => Forall (in_span o) (dates_of (Cache._value item)))
       (Cache.after c)
  /\ Forall (fun item => Forall (in_span o) (dates_of (Cache._value item)))
       (Cache.between c).

(** A rule whose cache, if it has one, holds dates of its span only. *)
Definition rule_span (rule : RRule.t) : Prop :=
  match RRule._cache rule with
  | Some c => cache_span (RRule.options rule) c
  | None => True
  end.

(** The state of the [IterResult] of a query: its bounds are those the
    constructor gave it, and the dates it holds are within them. *)
Definition query_state (q : Query) (r : IterResult.t) : Prop :=
  IterResult.method r = q
  /\ IterResult.minDate r = IterResult.minDate (IterResult.new q None)
  /\ IterResult.maxDate r = IterResult.maxDate (IterResult.new q None)
  /\ Forall (within q) (IterResult._result r).

#[global] Instance within_dec (q : Query) (d : Z) : Decision (within q d).
Proof. destruct q as [|a b [|]|dt [|]|dt [|]]; cbn [within]; apply _. Defined.

(** The [IterResult] of a query without a callback, holding [res]. *)
Definition result_with (q : Query) (res : list Z) (n : Z) : IterResult.t :=
  IterResult.mk q (IterResult.minDate (IterResult.new q None))
    (IterResult.maxDate (IterResult.new q None)) res n None.

(** A clock that stands for a time of a day of the calendar, from 1970
    on. *)
Definition valid_clock (d : DateTime.t) : Prop :=
  1970 <= DateTime.year d
  /\ 1 <= DateTime.month d <= 12
  /\ 1 <= DateTime.day d <= daysinmonth (DateTime.year d) (DateTime.month d)
  /\ 0 <= DateTime.hour d < 24
  /\ 0 <= DateTime.minute d < 60
  /\ 0 <= DateTime.second d < 60
  /\ 0 <= DateTime.millisecond d < 1000.

(** Day [i] of year [year], at midnight UTC. *)
Definition day_of_year (year i : Z) : Z :=
  JSDate.UTC year 0 1 0 0 0 0 + i * dateutil.ONE_DAY.

(** The tables against the arithmetic of the calendar, day by day. *)
Definition masks_agree (leap : Z) (mmask mdaymask nmdaymask mrange : list Z)
    (i : Z) : bool :=
  let month := JSDate.MonthFromDayInYear i leap in
  bool_decide (helpers.get mmask i = Some (month + 1))
  && bool_decide (helpers.get mdaymask i
                  = Some (i - JSDate.monthStart month leap + 1))
  && bool_decide (helpers.get nmdaymask i
                  = Some (i - JSDate.monthStart (month + 1) leap))
  && bool_decide (helpers.get mrange month = Some (JSDate.monthStart month leap))
  && bool_decide (helpers.get mrange (month + 1)
                  = Some (JSDate.monthStart (month + 1) leap)).

(** A date a set can return: one of its [rdate]s, moved to the zone of the
    set, or a time of the walk of one of its rules. *)
Definition set_time (h : Host) (s : RRuleSet.t) (d : Z) : Prop :=
  d ∈ (fun date => DateWithZone.rezonedDate h date (RRuleSet.tzid s))
        <$> RRuleSet._rdate s
  \/ exists rule : RRule.t,
       rule ∈ RRuleSet._rrule s /\ occurrence_time h (RRule.options rule) d.

(** The dates of [_exdate], moved to the zone of the set. *)
Definition excluded_dates (h : Host) (s : RRuleSet.t) : list Z :=
  (fun date => DateWithZone.rezonedDate h date (RRuleSet.tzid s))
    <$> RRuleSet._exdate s.

(** What [iterSet] keeps true of its [IterResult] and of [_exdateHash]: the
    hash holds the excluded dates and every date of the result; the result
    holds no date twice, none of the excluded, only dates within the bounds
    of the query and only dates of the class [from]. *)
Definition set_state (q : Query) (excluded : gset Z) (from : Z -> Prop)
    (s : SetSink) : Prop :=
  query_state q (sink_result s)
  /\ NoDup (IterResult._result (sink_result s))
  /\ excluded ⊆ _exdateHash s
  /\ Forall (fun d => (d ∈ _exdateHash s) /\ (d ∉ excluded) /\ from d)
       (IterResult._result (sink_result s)).

(** A set of one rule with the dates 2024-07-01 and 2025-01-01, the second
    of which is excluded. *)
Definition dates_and_an_exclusion (rule : RRule.t) : RRuleSet.t :=
  RRuleSet.mk [rule]
    [JSDate.UTC 2024 6 1 0 0 0 0; JSDate.UTC 2025 0 1 0 0 0 0] []
    [JSDate.UTC 2025 0 1 0 0 0 0] None.

(** The positions [bysetpos] asks for. *)
Definition setpos_of (o : Options.t) : list Z :=
  default [] (toArray <$> Options.bysetpos o).

(** A position [parseOptions] refuses. *)
Definition bad_setpos (v : Z) : Prop := v = 0 \/ v < -366 \/ 366 < v.

(** [{freq: DAILY, bysetpos: [1, 0]}], which is refused for the position
    0. *)
Definition daily_with_position_0 : Options.t :=
  Options.mk (Some DAILY) None None None None None None (Some (Many [1; 0]))
    None None None None None None None None None [].

(** The month and the day of the month [easter] computes for year [y],
    before it turns them into a day of the year. *)
Definition easter_month_day (y : Z) : Z * Z :=
  let a := Z.rem y 19 in
  let b := y / 100 in
  let c := Z.rem y 100 in
  let d := b / 4 in
  let e := Z.rem b 4 in
  let f := (b + 8) / 25 in
  let g := (b - f + 1) / 3 in
  let h := Z.rem (19 * a + b - d - g + 15) 30 in
  let i := c / 4 in
  let k := Z.rem c 4 in
  let l := Z.rem (32 + 2 * e + 2 * i - h - k) 7 in
  let m := (a + 11 * h + 22 * l) / 451 in
  ((h + l - 7 * m + 114) / 31, Z.rem (h + l - 7 * m + 114) 31 + 1).

(** The month and day of [easter_month_day] are a Sunday from March 22 to
    April 25. *)
Definition easter_ok (y : Z) : bool :=
  let '(month, day) := easter_month_day y in
  (((month =? 3) && (22 <=? day) && (day <=? 31))
   || ((month =? 4) && (1 <=? day) && (day <=? 25)))
  && ((JSDate.DayFromYear y
       + JSDate.monthStart (month - 1) (JSDate.InLeapYear y) + day - 1 + 3)
        mod 7 =? 6).

(** The number of colons in a line. *)
Definition colons (line : list N) : nat :=
  length (filter (fun c => c = JSString.colon) line).

(** A string [trim] has nothing left to strip from: neither its first nor
    its last code unit is white space or a line terminator. *)
Definition stripped (s : list N) : Prop :=
  (forall c rest, s = c :: rest -> JSString.trimmed c = false)
  /\ (forall c front, s = front ++ [c] -> JSString.trimmed c = false).

(** The ids of the subscriptions. *)
Definition ids_of {Hook} (subscriptions : list (RepeatAdapter.Subscription Hook))
    : list Z :=
  RepeatAdapter.id <$> subscriptions.

(** [padStart(n, width, '0')] is [width] digits that [parseInt] reads back
    as [n]. *)
Definition padded (width : Z) (n : Z) : bool :=
  let s := UntilString.padStart (UntilString.String_of_number n) width
             (JSString.lit "0") in
  bool_decide (Z.of_nat (length s) = width)
  && forallb UntilString.isDigit s
  && bool_decide (UntilString.parseInt s = n).

(** * Properties of the iterator *)

(** ** Sinks

    [collect] keeps every date it is offered and never stops the
    iteration: what it holds when [iter] returns are the dates [iter]
    offered, in order. *)

Section Feed.

Context {S : Type} (accept : S -> Z -> option (S * bool)).

Lemma feed_sink_app (s : S) (l1 l2 : list Z) :
  feed_sink accept s (l1 ++ l2) =
  match feed_sink accept s l1 with
  | Some (s', true) => feed_sink accept s' l2
  | other => other
  end.
Proof.
  revert s. induction l1 as [|d l1 IH]; intros s; simpl; [done|].
  destruct (accept s d) as [[s' [|]]|]; simpl; [apply IH|done|done].
Qed.

End Feed.

Lemma feed_sink_collect (acc l : list Z) :
  feed_sink collect acc l = Some (acc ++ l, true).
Proof.
  revert acc. induction l as [|d l IH]; intros acc; simpl.
  - by rewrite app_nil_r.
  - rewrite IH. by rewrite <- (assoc (++)).
Qed.

Section Replay.

Context (h : Host) (options : ParsedOptions).

Context {S : Type} (accept : S -> Z -> option (S * bool)).

Lemma emit_offered (dates : list (option Z)) (s : S) (count : option Z) :
  emit h accept options dates s count =
  match feed_sink accept s (offered h options dates count).1 with
  | None => None
  | Some (s', false) => Some (Stop s')
  | Some (s', true) =>
      Some (match (offered h options dates count).2 with
            | None => Stop s'
            | Some c => Continue s' c
            end)
  end.
Proof.
  revert s count. induction dates as [|[res|] dates IH]; intros s count; simpl.
  - done.
  - destruct (match until options with Some u => u <? res | None => false end);
      [done|].
    destruct (dtstart options <=? res); [|apply IH].
    destruct count as [c|].
    + destruct (c =? 0); [|destruct (c - 1 =? 0)]; simpl;
        destruct (accept s (rezoneIfNeeded h res options)) as [[s' [|]]|];
        simpl; try done; apply IH.
    + simpl. destruct (accept s (rezoneIfNeeded h res options)) as [[s' [|]]|];
        simpl; try done; apply IH.
  - apply IH.
Qed.

End Replay.

Section ReplayLoop.

Context (h : Host) (options : ParsedOptions).
Context {S : Type} (accept : S -> Z -> option (S * bool)).

(** [iter] offers any sink the dates it offers [collect], until the sink
    asks to stop. *)
Lemma iter_loop_replay (fuel : nat) :
  forall (counterDate : DateTime.t) (ii : Iterinfo.t) (timeset : list Time.t)
         (acc : list Z) (count : option Z) (res : list Z),
    iter_loop h collect options fuel counterDate ii timeset acc count = Some res ->
    exists l : list Z,
      res = acc ++ l /\
      forall s : S,
        iter_loop h accept options fuel counterDate ii timeset s count =
        fst <$> feed_sink accept s l.
Proof.
  induction fuel as [|fuel IH]; intros counterDate ii timeset acc count res Hres;
    [done|].
  simpl in Hres |- *.
  destruct (period h options counterDate ii timeset) as [dates filtered].
  rewrite emit_offered, feed_sink_collect in Hres.
  setoid_rewrite emit_offered.
  destruct (offered h options dates count) as [l1 k]. simpl in Hres |- *.
  destruct k as [count'|]; simpl in Hres.
  - destruct (interval options =? 0).
    { simplify_eq. exists l1. split; [done|]. intros s.
      by destruct (feed_sink accept s l1) as [[s' [|]]|]. }
    destruct (DateTime.add fuel options filtered counterDate) as [cd'|];
      [|done].
    simpl in Hres |- *.
    destruct (dateutil.MAXYEAR <? DateTime.year cd').
    { simplify_eq. exists l1. split; [done|]. intros s.
      by destruct (feed_sink accept s l1) as [[s' [|]]|]. }
    apply IH in Hres as (l2 & -> & Hl2).
    exists (l1 ++ l2). split; [by rewrite (assoc (++))|]. intros s.
    rewrite feed_sink_app.
    destruct (feed_sink accept s l1) as [[s' [|]]|]; simpl; done.
  - simplify_eq. exists l1. split; [done|]. intros s.
    by destruct (feed_sink accept s l1) as [[s' [|]]|].
Qed.

Lemma iter_replay (fuel : nat) (l : list Z) (s : S) :
  iter h collect options fuel [] = Some l ->
  iter h accept options fuel s = fst <$> feed_sink accept s l.
Proof.
  unfold iter.
  destruct (bool_decide (count options = Some 0) || (interval options =? 0)).
  { intros; by simplify_eq. }
  intros Hl. apply iter_loop_replay in Hl as (l' & -> & Hl'). apply Hl'.
Qed.

End ReplayLoop.

(** ** A sink that never stops the iteration sees what [collect] sees *)

Section NeverStops.

Context (h : Host) (options : ParsedOptions).
Context {S : Type} (accept : S -> Z -> option (S * bool)).
Context (P : S -> Prop).
Hypothesis accept_goes_on :
  forall s date, P s -> exists s', accept s date = Some (s', true) /\ P s'.

Lemma feed_sink_goes_on (l : list Z) :
  forall s, P s -> exists s', feed_sink accept s l = Some (s', true) /\ P s'.
Proof.
  induction l as [|d l IH]; intros s Hs; simpl; [by eauto|].
  destruct (accept_goes_on s d Hs) as (s' & -> & Hs'). simpl. by apply IH.
Qed.

Lemma iter_loop_collects (fuel : nat) :
  forall counterDate ii timeset (s s' : S) count (acc : list Z),
    P s ->
    iter_loop h accept options fuel counterDate ii timeset s count = Some s' ->
    exists l : list Z,
      iter_loop h collect options fuel counterDate ii timeset acc count
      = Some (acc ++ l).
Proof.
  induction fuel as [|fuel IH]; intros counterDate ii timeset s s' count acc Hs;
    [done|].
  simpl. destruct (period h options counterDate ii timeset) as [dates filtered].
  rewrite !emit_offered, feed_sink_collect.
  destruct (offered h options dates count) as [l1 k]. simpl.
  destruct (feed_sink_goes_on l1 s Hs) as (s1 & -> & Hs1). simpl.
  destruct k as [count'|]; simpl; [|by eauto].
  destruct (interval options =? 0); [by eauto|].
  destruct (DateTime.add fuel options filtered counterDate) as [cd'|]; [|done].
  simpl. destruct (dateutil.MAXYEAR <? DateTime.year cd'); [by eauto|].
  intros Hrun. apply (IH _ _ _ _ _ _ (acc ++ l1) Hs1) in Hrun as [l2 Hl2].
  exists (l1 ++ l2). by rewrite Hl2, (assoc (++)).
Qed.

Lemma iter_collects (fuel : nat) (s s' : S) :
  P s ->
  iter h accept options fuel s = Some s' ->
  exists l : list Z, iter h collect options fuel [] = Some l.
Proof.
  unfold iter.
  destruct (bool_decide (count options = Some 0) || (interval options =? 0));
    [by eauto|].
  intros Hs Hrun. by apply (iter_loop_collects _ _ _ _ _ _ _ [] Hs) in Hrun.
Qed.

End NeverStops.

(** ** The sink of [all] *)

Lemma accept_all_sink (r : IterResult.t) (date : Z) :
  all_sink r ->
  exists r', accept_result r date = Some (r', true) /\ all_sink r'
             /\ IterResult._result r' = IterResult._result r ++ [date].
Proof.
  intros [Hm Hi]. destruct r as [m mi ma res tot it]; simpl in *; subst.
  unfold accept_result, IterResult.accept, IterResult.add; simpl.
  eexists; split; [done|]. by split.
Qed.

Lemma feed_all_sink (l : list Z) :
  forall r, all_sink r ->
    exists r', feed_sink accept_result r l = Some (r', true) /\ all_sink r'
               /\ IterResult._result r' = IterResult._result r ++ l.
Proof.
  induction l as [|d l IH]; intros r Hr; cbn [feed_sink].
  - exists r. by rewrite app_nil_r.
  - destruct (accept_all_sink r d Hr) as (r1 & -> & Hr1 & Hres1). simpl.
    destruct (IH r1 Hr1) as (r2 & -> & Hr2 & Hres2).
    exists r2. split; [done|]. split; [done|].
    by rewrite Hres2, Hres1, <- (assoc (++)).
Qed.

(** The dates [all()] returns are the dates [iter] offers [collect]. *)
Lemma all_is_collect (h : Host) (options : ParsedOptions) (fuel : nat)
    (dates : list Z) :
  rrule_iter h options fuel QAll None = Some (Dates dates) <->
  iter h collect options fuel [] = Some dates.
Proof.
  unfold rrule_iter. split.
  - intros Hall.
    destruct (iter h accept_result options fuel (IterResult.new QAll None))
      as [r|] eqn:Hrun; [|done].
    assert (all_sink (IterResult.new QAll None)) as Hnew by done.
    assert (exists l, iter h collect options fuel [] = Some l) as [l Hl].
    { apply (iter_collects h options accept_result all_sink) with (3 := Hrun);
        [|done].
      intros s d Hs. destruct (accept_all_sink s d Hs) as (s' & ? & ? & ?).
      by eauto. }
    rewrite (iter_replay h options accept_result fuel l) in Hrun by done.
    destruct (feed_all_sink l _ Hnew) as (r' & Hfeed & [Hm _] & Hres).
    rewrite Hfeed in Hrun. simpl in *. simplify_eq.
    unfold emitResult, IterResult.getValue in Hall. rewrite Hm in Hall.
    by simplify_eq.
  - intros Hl.
    rewrite (iter_replay h options accept_result fuel dates) by done.
    destruct (feed_all_sink dates (IterResult.new QAll None))
      as (r' & -> & [Hm _] & Hres); [done|].
    simpl. unfold emitResult, IterResult.getValue. by rewrite Hm, Hres.
Qed.

(** [Cache.feed] is [feed_sink] on an [IterResult]. *)
Lemma feed_sink_result (r : IterResult.t) (l : list Z) :
  fst <$> feed_sink accept_result r l = Some (Cache.feed r l).
Proof.
  revert r. induction l as [|d l IH]; intros r; simpl; [done|].
  unfold accept_result at 1. simpl.
  destruct (IterResult.accept r d) as [r' [|]]; simpl; [apply IH|done].
Qed.

(** Any query of a rule is the walk of its sink over the dates [all()]
    returns. *)
Lemma query_is_feed_of_all (h : Host) (options : ParsedOptions) (fuel : nat)
    (dates : list Z) (q : Query) (iterator : option (Z -> Z -> bool)) :
  rrule_iter h options fuel QAll None = Some (Dates dates) ->
  rrule_iter h options fuel q iterator
  = Some (IterResult.getValue (Cache.feed (IterResult.new q iterator) dates)).
Proof.
  intros Hall%all_is_collect. unfold rrule_iter.
  rewrite (iter_replay h options accept_result fuel dates) by done.
  by rewrite feed_sink_result.
Qed.

(** ** The count *)


Section WithCount.
Context (h : Host) (o : ParsedOptions) (c : option Z).










End WithCount.

Section Count.

Context (h : Host) (o : ParsedOptions).






End Count.



(** * Properties of [parseOptions] *)

(** The fields [parseOptions] copies. *)
Lemma parseOptions_copies (now : Z) (opts : Options.t) (p : ParsedOptions) :
  parseOptions now opts = Ok p ->
  interval p = default 1 (Options.interval opts)
  /\ count p = Options.count opts
  /\ until p = date_time (Options.until opts)
  /\ tzid p = Options.tzid opts
  /\ byeaster p = Options.byeaster opts
  /\ dtstart p = default (now - now mod 1000) (date_time (Options.dtstart opts))
  /\ freq p = (if helpers.isPresent (Options.byeaster opts) then YEARLY
               else default YEARLY (Options.freq opts)).
Proof.
  unfold parseOptions, initializeOptions.
  destruct (invalid_keys opts); [|done].
  destruct (negb _); [done|].
  repeat match goal with
         | |- context [let '(_, _) := ?x in _] => destruct x
         end.
  intros; by simplify_eq.
Qed.

(** With a frequency of a day or more, the resolved options hold arrays
    for the hours, minutes and seconds: [buildTimeset] calls [forEach] on
    arrays. *)
Lemma parseOptions_timeset_fields (now : Z) (opts : Options.t)
    (p : ParsedOptions) :
  parseOptions now opts = Ok p ->
  freqIsDailyOrGreater (freq p) = true ->
  is_Some (byhour p) /\ is_Some (byminute p) /\ is_Some (bysecond p).
Proof.
  unfold parseOptions, initializeOptions.
  destruct (invalid_keys opts); [|done].
  destruct (negb _); [done|].
  repeat match goal with
         | |- context [let '(_, _) := ?x in _] => destruct x
         end.
  intros Hp. injection Hp; clear Hp; intros <-.
  cbn [freq byhour byminute bysecond].
  unfold freqIsDailyOrGreater.
  set (f := if helpers.isPresent (Options.byeaster opts) then YEARLY
            else default YEARLY (Options.freq opts)).
  intros Hf%Z.ltb_lt.
  clearbody f. cbn [freq_num] in Hf.
  rewrite (proj2 (Z.ltb_lt (freq_num f) 4)) by lia.
  rewrite (proj2 (Z.ltb_lt (freq_num f) 5)) by lia.
  rewrite (proj2 (Z.ltb_lt (freq_num f) 6)) by lia.
  repeat split; by case_match.
Qed.

(** * A rule with a count or an interval of zero *)

(** [iter] returns before it makes a turn of its loop: no fuel is needed. *)
Lemma iter_zero (h : Host) {S} (accept : S -> Z -> option (S * bool))
    (o : ParsedOptions) (fuel : nat) (s : S) :
  zero_rule o -> iter h accept o fuel s = Some s.
Proof.
  intros [Hc|Hi]; unfold iter.
  - by rewrite bool_decide_eq_true_2.
  - rewrite Hi. by rewrite orb_true_r.
Qed.

Lemma rrule_iter_zero (h : Host) (o : ParsedOptions) (fuel : nat) (q : Query)
    (iterator : option (Z -> Z -> bool)) :
  zero_rule o -> rrule_iter h o fuel q iterator = Some (empty_value q).
Proof.
  intros Hz. unfold rrule_iter. rewrite iter_zero by done. by destruct q.
Qed.

Lemma find_Forall {A} (P : A -> Prop) (f : A -> bool) (l : list A) (x : A) :
  Forall P l -> List.find f l = Some x -> P x.
Proof.
  induction 1 as [|y l Hy Hl IH]; simpl; [done|].
  destruct (f y); intros; simplify_eq; auto.
Qed.

Lemma lookup_cache_empty (c : Cache.t) (q : Query) :
  cache_empty c ->
  Cache.lookup c q = None \/ Cache.lookup c q = Some (empty_value q).
Proof.
  intros (Hall & Hb & Ha & Hbt). unfold Cache.lookup.
  destruct q as [|a b i|d i|d i]; simpl.
  - destruct Hall as [->| ->]; by auto.
  - destruct (List.find _ _) as [item|] eqn:Hf; [|by auto].
    right. simpl. f_equal. by eapply (find_Forall _ _ _ _ Hbt Hf).
  - destruct (List.find _ _) as [item|] eqn:Hf; [|by auto].
    right. simpl. f_equal. by eapply (find_Forall _ _ _ _ Hb Hf).
  - destruct (List.find _ _) as [item|] eqn:Hf; [|by auto].
    right. simpl. f_equal. by eapply (find_Forall _ _ _ _ Ha Hf).
Qed.

Lemma _cacheAdd_cache_empty (c : Cache.t) (q : Query) :
  cache_empty c -> cache_empty (Cache._cacheAdd c q (empty_value q)).
Proof.
  intros (Hall & Hb & Ha & Hbt).
  destruct q; (split; [|split; [|split]]); simpl; auto;
    apply Forall_app; split; auto.
Qed.

Lemma feed_nil_empty (q : Query) :
  IterResult.getValue (Cache.feed (IterResult.new q None) []) = empty_value q.
Proof. by destruct q. Qed.

Lemma _cacheGet_cache_empty (c : Cache.t) (q : Query) :
  cache_empty c ->
  cache_empty (Cache._cacheGet c q).2
  /\ ((Cache._cacheGet c q).1 = None
      \/ (Cache._cacheGet c q).1 = Some (empty_value q)).
Proof.
  intros Hc. unfold Cache._cacheGet.
  pose proof (lookup_cache_empty c q Hc) as Hl.
  destruct Hc as (Hall & Hrest).
  destruct Hall as [Hall|Hall]; rewrite Hall.
  - simpl. split; [|done]. split; auto.
  - destruct (Cache.not_cached (Cache.lookup c q)).
    + rewrite feed_nil_empty. simpl. split; [|by auto].
      apply _cacheAdd_cache_empty. split; auto.
    + simpl. split; [|done]. split; auto.
Qed.

Lemma cached_query_empty (h : Host) (fuel : nat) (rule : RRule.t) (q : Query) :
  rule_empty rule ->
  exists rule',
    RRule.cached_query h fuel rule q = Some (empty_value q, rule')
    /\ rule_empty rule'.
Proof.
  intros [Hz Hc]. unfold RRule.cached_query, RRule._cacheGet.
  destruct rule as [[c|] oo o]; simpl in *.
  - destruct (_cacheGet_cache_empty c q Hc) as [Hc' Hv].
    destruct (Cache._cacheGet c q) as [v c']. simpl in *.
    destruct Hv as [-> | ->].
    + unfold RRule._iter. simpl. rewrite rrule_iter_zero by done. simpl.
      eexists; split; [done|]. split; [done|]. simpl.
      by apply _cacheAdd_cache_empty.
    + eexists; split; [done|]. by split.
  - unfold RRule._iter. simpl. rewrite rrule_iter_zero by done. simpl.
    eexists; split; [done|]. by split.
Qed.

Lemma call_empty (h : Host) (fuel : nat) (rule : RRule.t) (c : RRule.Call) :
  rule_empty rule ->
  exists rule',
    RRule.call h fuel rule c = Some (empty_value (query_of c), rule')
    /\ rule_empty rule'.
Proof.
  intros Hr.
  destruct c as [[it|]|a b inc [it|]|dt inc|dt inc]; simpl;
    unfold RRule.all, RRule.between, RRule.before, RRule.after;
    try (by apply cached_query_empty);
    unfold RRule._iter; rewrite rrule_iter_zero by apply Hr; simpl; by eauto.
Qed.

Lemma calls_empty (h : Host) (fuel : nat) (cs : list RRule.Call) :
  forall rule,
    rule_empty rule ->
    exists rule',
      RRule.calls h fuel rule cs
      = Some (map (fun c => empty_value (query_of c)) cs, rule').
Proof.
  induction cs as [|c cs IH]; intros rule Hr; simpl; [by eauto|].
  destruct (call_empty h fuel rule c Hr) as (rule1 & -> & Hr1). simpl.
  destruct (IH rule1 Hr1) as (rule2 & ->). simpl. by eauto.
Qed.

(** C7: on a rule constructed with an interval of 0 or a count of 0, every
    query ([all], [between], [before], [after], in any sequence, with or
    without a callback) returns at once, whatever the fuel, with nothing:
    the empty array for [all] and [between], [null] for [before] and
    [after]. *)
Theorem zero_count_or_interval_answers_nothing
    (h : Host) (now : Z) (opts : Options.t) (noCache : bool) (rule : RRule.t)
    (fuel : nat) (cs : list RRule.Call) :
  RRule.new now opts noCache = Ok rule ->
  Options.interval opts = Some 0 \/ Options.count opts = Some 0 ->
  exists rule',
    RRule.calls h fuel rule cs
    = Some (map (fun c => empty_value (query_of c)) cs, rule').
Proof.
  intros Hnew Hzero. apply calls_empty.
  unfold RRule.new in Hnew.
  destruct (initializeOptions opts); [|done].
  destruct (parseOptions now opts) as [p|] eqn:Hp; [|done].
  simplify_eq. apply parseOptions_copies in Hp as (Hi & Hc & _).
  split; simpl.
  - unfold zero_rule. rewrite Hi, Hc.
    destruct Hzero as [-> | ->]; by auto.
  - destruct noCache; [done|]. split; [by left|]. by repeat split.
Qed.

(** The theorem at a daily rule of count 0, on one call of each kind, with
    no fuel. *)
Lemma zero_count_or_interval_answers_nothing_witness :
  exists rule rule' : RRule.t,
    RRule.new 0 daily_zero_times false = Ok rule
    /\ RRule.calls utcHost 0 rule
         [RRule.CallAll None;
          RRule.CallBefore (JSDate.UTC 2025 0 1 0 0 0 0) true;
          RRule.CallAfter (JSDate.UTC 2023 0 1 0 0 0 0) true;
          RRule.CallBetween (JSDate.UTC 2023 0 1 0 0 0 0)
            (JSDate.UTC 2025 0 1 0 0 0 0) true None]
       = Some ([Dates []; OneDate None; OneDate None; Dates []], rule').
Proof.
  destruct (zero_count_or_interval_answers_nothing utcHost 0 daily_zero_times
              false _ 0
              [RRule.CallAll None;
               RRule.CallBefore (JSDate.UTC 2025 0 1 0 0 0 0) true;
               RRule.CallAfter (JSDate.UTC 2023 0 1 0 0 0 0) true;
               RRule.CallBetween (JSDate.UTC 2023 0 1 0 0 0 0)
                 (JSDate.UTC 2025 0 1 0 0 0 0) true None]
              eq_refl (or_intror eq_refl)) as [rule' Hcalls].
  eexists _, rule'. split; [reflexivity|exact Hcalls].
Defined.

(** * The cache *)

(** C4: on a rule whose cache holds the occurrences of a complete [all()],
    a [before], [after] or [between] query that is not in the cache yet is
    answered by feeding the cached occurrences to the [accept] of the
    query, and this is the value the iterator returns when it runs with
    that query. *)
Theorem cached_filter_agrees_with_iterator
    (h : Host) (rule : RRule.t) (c : Cache.t) (fuel : nat) (dates : list Z)
    (q : Query) :
  RRule._cache rule = Some c ->
  Cache.all c = Some dates ->
  RRule._iter h rule fuel QAll None = Some (Dates dates) ->
  Cache.not_cached (Cache.lookup c q) = true ->
  exists (v : Value) (rule' : RRule.t),
    RRule.cached_query h fuel rule q = Some (v, rule')
    /\ v = IterResult.getValue (Cache.feed (IterResult.new q None) dates)
    /\ RRule._iter h rule fuel q None = Some v.
Proof.
  intros Hcache Hall Hiter Hmiss.
  unfold RRule.cached_query, RRule._cacheGet, Cache._cacheGet.
  rewrite Hcache, Hall, Hmiss. do 2 eexists. split; [done|]. split; [done|].
  by apply query_is_feed_of_all.
Qed.

(** The theorem at a yearly rule of three occurrences, on [after] its
    first one. *)
Lemma cached_filter_agrees_with_iterator_witness :
  exists rule0 rule : RRule.t,
    RRule.new 0 yearly_until_2026 false = Ok rule0
    /\ RRule.all utcHost 5 rule0 None
       = Some (Dates [JSDate.UTC 2024 0 1 0 0 0 0; JSDate.UTC 2025 0 1 0 0 0 0;
                      JSDate.UTC 2026 0 1 0 0 0 0], rule)
    /\ exists (v : Value) (rule' : RRule.t),
         RRule.cached_query utcHost 5 rule
           (QAfter (JSDate.UTC 2024 0 1 0 0 0 0) false)
         = Some (v, rule')
         /\ v = OneDate (Some (JSDate.UTC 2025 0 1 0 0 0 0))
         /\ RRule._iter utcHost rule 5
              (QAfter (JSDate.UTC 2024 0 1 0 0 0 0) false) None
            = Some v.
Proof.
  eexists _, _. split; [vm_compute; reflexivity|].
  split; [vm_compute; reflexivity|].
  eapply (cached_filter_agrees_with_iterator utcHost _ _ 5
            [JSDate.UTC 2024 0 1 0 0 0 0; JSDate.UTC 2025 0 1 0 0 0 0;
             JSDate.UTC 2026 0 1 0 0 0 0]
            (QAfter (JSDate.UTC 2024 0 1 0 0 0 0) false)).
  - reflexivity.
  - reflexivity.
  - vm_compute. reflexivity.
  - reflexivity.
Defined.

(** * The clock moves forward *)

Lemma pymod_pos (a b : Z) : 0 <= a -> 0 < b -> helpers.pymod a b = a mod b.
Proof.
  intros Ha Hb. unfold helpers.pymod.
  rewrite Z.rem_mod_nonneg by lia.
  pose proof (Z.mod_pos_bound a b Hb).
  by rewrite (proj2 (Z.ltb_ge _ _)) by nia.
Qed.

Lemma getUTCMonth_range (t : Z) : 0 <= JSDate.getUTCMonth t <= 11.
Proof.
  unfold JSDate.getUTCMonth, JSDate.MonthFromDayInYear.
  repeat case_match; lia.
Qed.


Lemma getWeekday_range (t : Z) : 0 <= dateutil.getWeekday t <= 6.
Proof.
  unfold dateutil.getWeekday, JSDate.getUTCDay.
  pose proof (Z.mod_pos_bound (JSDate.Day t + 4) 7 ltac:(lia)) as Hm.
  assert (exists k : nat, (JSDate.Day t + 4) mod 7 = Z.of_nat k /\ (k < 7)%nat)
    as (k & -> & Hk).
  { exists (Z.to_nat ((JSDate.Day t + 4) mod 7)). lia. }
  do 7 (destruct k as [|k]; [vm_compute; split; congruence|]). lia.
Qed.

Ltac clock_fields :=
  unfold DateTime.with_day, DateTime.with_month, DateTime.with_year,
         DateTime.with_hour, DateTime.with_minute, DateTime.with_second in *;
  cbn [DateTime.year DateTime.month DateTime.day DateTime.hour
       DateTime.minute DateTime.second DateTime.millisecond] in *.





Section Terminates.

Context (h : Host) (o : ParsedOptions).
Hypothesis daily_or_coarser : freqIsDailyOrGreater (freq o) = true.
Hypothesis interval_pos : 0 < interval o.
Hypothesis wkst_nonneg : 0 <= wkst o.




End Terminates.

(** * The count of a rule *)




(** * The calendar of [Date] *)

(** The calendar repeats every 400 years, which are 146097 days. *)
Lemma DayFromYear_cycle (k r : Z) :
  JSDate.DayFromYear (400 * k + r) = 146097 * k + JSDate.DayFromYear r.
Proof.
  unfold JSDate.DayFromYear.
  replace ((400 * k + r - 1969) / 4) with (100 * k + (r - 1969) / 4)
    by (Z.div_mod_to_equations; lia).
  replace ((400 * k + r - 1901) / 100) with (4 * k + (r - 1901) / 100)
    by (Z.div_mod_to_equations; lia).
  replace ((400 * k + r - 1601) / 400) with (k + (r - 1601) / 400)
    by (Z.div_mod_to_equations; lia).
  lia.
Qed.

Lemma DaysInYear_cycle (k r : Z) :
  JSDate.DaysInYear (400 * k + r) = JSDate.DaysInYear r.
Proof.
  unfold JSDate.DaysInYear.
  replace ((400 * k + r) mod 4) with (r mod 4)
    by (Z.div_mod_to_equations; lia).
  replace ((400 * k + r) mod 100) with (r mod 100)
    by (Z.div_mod_to_equations; lia).
  replace ((400 * k + r) mod 400) with (r mod 400)
    by (Z.div_mod_to_equations; lia).
  done.
Qed.

(** A property of the years of one cycle holds of every year. *)
Lemma cycle_cases (P : Z -> bool) (r : Z) :
  forallb P (helpers.range 0 400) = true -> 0 <= r < 400 -> P r = true.
Proof.
  intros HP Hr. rewrite forallb_forall in HP. apply HP.
  unfold helpers.range. apply in_map_iff. exists (Z.to_nat r).
  split; [lia|]. apply in_seq. lia.
Qed.

Lemma DayFromYear_succ (y : Z) :
  JSDate.DayFromYear (y + 1) = JSDate.DayFromYear y + JSDate.DaysInYear y.
Proof.
  pose proof (Z.div_mod y 400 ltac:(lia)) as Hy.
  pose proof (Z.mod_pos_bound y 400 ltac:(lia)) as Hr.
  set (k := y / 400) in *. set (r := y mod 400) in *. clearbody k r. subst y.
  replace (400 * k + r + 1) with (400 * k + (r + 1)) by lia.
  rewrite !DayFromYear_cycle, DaysInYear_cycle.
  pose proof (cycle_cases
    (fun r => JSDate.DayFromYear (r + 1)
              =? JSDate.DayFromYear r + JSDate.DaysInYear r) r) as Hc.
  cbv beta in Hc. apply Z.eqb_eq in Hc; [lia| |done].
  by vm_compute.
Qed.

Lemma DaysInYear_range (y : Z) : 365 <= JSDate.DaysInYear y <= 366.
Proof. unfold JSDate.DaysInYear. repeat case_match; lia. Qed.

Lemma DayFromYear_le (n : nat) (y : Z) :
  JSDate.DayFromYear y + 365 * Z.of_nat n <= JSDate.DayFromYear (y + Z.of_nat n).
Proof.
  induction n as [|n IH].
  - replace (y + Z.of_nat 0) with y by lia. lia.
  - replace (y + Z.of_nat (S n)) with (y + Z.of_nat n + 1) by lia.
    rewrite DayFromYear_succ. pose proof (DaysInYear_range (y + Z.of_nat n)).
    lia.
Qed.

Lemma DayFromYear_lt (y y' : Z) :
  y < y' -> JSDate.DayFromYear y + 365 <= JSDate.DayFromYear y'.
Proof.
  intros Hlt. pose proof (DayFromYear_le (Z.to_nat (y' - y)) y) as H.
  replace (y + Z.of_nat (Z.to_nat (y' - y))) with y' in H by lia. lia.
Qed.

(** The days before a year, against the mean length of a year. *)
Lemma DayFromYear_mean (y : Z) :
  146097 * (y - 1970) - 600 <= 400 * JSDate.DayFromYear y
  <= 146097 * (y - 1970) + 600.
Proof. unfold JSDate.DayFromYear. Z.div_mod_to_equations. lia. Qed.

Lemma YearFromDay_unique (d y : Z) :
  JSDate.DayFromYear y <= d < JSDate.DayFromYear (y + 1) ->
  JSDate.YearFromDay d = y.
Proof.
  intros Hd. unfold JSDate.YearFromDay.
  set (y0 := 1970 + d * 400 / 146097).
  assert (y - 1 <= y0 <= y + 1) as Hy0.
  { unfold y0. pose proof (DayFromYear_mean y).
    pose proof (DayFromYear_mean (y + 1)).
    Z.div_mod_to_equations. lia. }
  clearbody y0.
  pose proof (DayFromYear_lt (y - 1) y ltac:(lia)).
  pose proof (DayFromYear_lt (y + 1) (y + 2) ltac:(lia)).
  assert (y0 = y - 1 \/ y0 = y \/ y0 = y + 1) as [->|[->| ->]] by lia.
  - replace (y - 1 + 1) with y by lia.
    by rewrite (proj2 (Z.leb_le _ _)) by lia.
  - rewrite (proj2 (Z.leb_gt _ _)) by lia.
    by rewrite (proj2 (Z.leb_le _ _)) by lia.
  - replace (y + 1 + 1) with (y + 2) by lia.
    rewrite (proj2 (Z.leb_gt _ _)) by lia.
    rewrite (proj2 (Z.leb_gt _ _)) by lia. lia.
Qed.

Lemma isLeapYear_DaysInYear (y : Z) :
  dateutil.isLeapYear y = (JSDate.DaysInYear y =? 366).
Proof.
  unfold dateutil.isLeapYear, JSDate.DaysInYear.
  destruct (Z.rem y 4 =? 0) eqn:R4, (Z.rem y 100 =? 0) eqn:R100,
           (Z.rem y 400 =? 0) eqn:R400,
           (y mod 4 =? 0) eqn:H4, (y mod 100 =? 0) eqn:H100,
           (y mod 400 =? 0) eqn:H400; try done;
    repeat match goal with
           | H : (_ =? _) = true |- _ => apply Z.eqb_eq in H
           | H : (_ =? _) = false |- _ => apply Z.eqb_neq in H
           end;
    Z.to_euclidean_division_equations; lia.
Qed.

Lemma InLeapYear_range (y : Z) : 0 <= JSDate.InLeapYear y <= 1.
Proof. unfold JSDate.InLeapYear. case_match; lia. Qed.

Lemma DaysInYear_InLeapYear (y : Z) :
  JSDate.DaysInYear y = 365 + JSDate.InLeapYear y.
Proof.
  unfold JSDate.InLeapYear. pose proof (DaysInYear_range y) as Hr.
  destruct (JSDate.DaysInYear y =? 366) eqn:Hl;
    [apply Z.eqb_eq in Hl|apply Z.eqb_neq in Hl]; lia.
Qed.

(** Twelve cases on a month from 0 to 11. *)
Ltac month_cases m :=
  let H := fresh "Hcases" in
  assert (m = 0 \/ m = 1 \/ m = 2 \/ m = 3 \/ m = 4 \/ m = 5 \/ m = 6
          \/ m = 7 \/ m = 8 \/ m = 9 \/ m = 10 \/ m = 11) as H by lia;
  destruct H as [->|[->|[->|[->|[->|[->|[->|[->|[->|[->|[->| ->]]]]]]]]]]].

Lemma Day_MakeDate (day time : Z) :
  0 <= time < JSDate.msPerDay -> JSDate.Day (JSDate.MakeDate day time) = day.
Proof.
  unfold JSDate.Day, JSDate.MakeDate, JSDate.msPerDay. intros.
  Z.div_mod_to_equations. lia.
Qed.

(** A date made of a year, a month and a day of that month reads back as
    them. *)
Lemma MakeDay_read_back (y m dd time : Z) :
  0 <= m <= 11 -> 1 <= dd <= month_length (JSDate.InLeapYear y) m ->
  0 <= time < JSDate.msPerDay ->
  let t := JSDate.MakeDate (JSDate.MakeDay y m dd) time in
  JSDate.getUTCFullYear t = y /\ JSDate.getUTCMonth t = m
  /\ JSDate.getUTCDate t = dd.
Proof.
  intros Hm Hdd Htime t.
  pose proof (InLeapYear_range y) as Hleap.
  assert (JSDate.Day t = JSDate.DayFromYear y
            + JSDate.monthStart m (JSDate.InLeapYear y) + dd - 1) as Hday.
  { unfold t. rewrite Day_MakeDate by done. unfold JSDate.MakeDay.
    replace (m / 12) with 0 by (Z.div_mod_to_equations; lia).
    replace (m mod 12) with m by (Z.div_mod_to_equations; lia).
    by rewrite Z.add_0_r. }
  assert (JSDate.getUTCFullYear t = y) as Hyear.
  { unfold JSDate.getUTCFullYear. apply YearFromDay_unique.
    rewrite DayFromYear_succ, DaysInYear_InLeapYear, Hday.
    revert Hdd. unfold month_length. clear Hday t.
    set (leap := JSDate.InLeapYear y) in *. clearbody leap.
    month_cases m; simpl; lia. }
  split; [done|].
  unfold JSDate.getUTCDate, JSDate.getUTCMonth, JSDate.DayWithinYear.
  rewrite Hyear, Hday.
  set (leap := JSDate.InLeapYear y) in *. clearbody leap.
  replace (JSDate.DayFromYear y + JSDate.monthStart m leap + dd - 1
           - JSDate.DayFromYear y)
    with (JSDate.monthStart m leap + dd - 1) by lia.
  assert (JSDate.MonthFromDayInYear (JSDate.monthStart m leap + dd - 1) leap = m)
    as ->.
  { revert Hdd. unfold month_length, JSDate.MonthFromDayInYear. clear -Hm Hleap.
    month_cases m; simpl; intros Hdd;
      repeat match goal with
             | |- context [?a <? ?b] =>
                 first [rewrite (proj2 (Z.ltb_lt a b)) by lia
                       |rewrite (proj2 (Z.ltb_ge a b)) by lia]
             end; done. }
  split; [done|lia].
Qed.

Lemma daysinmonth_length (y m : Z) :
  100 <= y -> 1 <= m <= 12 ->
  daysinmonth y m = month_length (JSDate.InLeapYear y) (m - 1).
Proof.
  intros Hy Hm. unfold daysinmonth, dateutil.monthRange. cbn [snd].
  unfold dateutil.getMonthDays, JSDate.UTC.
  replace ((0 <=? y) && (y <=? 99)) with false
    by (symmetry; apply andb_false_iff; right; apply Z.leb_gt; lia).
  pose proof (InLeapYear_range y) as Hleap.
  destruct (MakeDay_read_back y (m - 1) 1 (JSDate.MakeTime 0 0 0 0))
    as (-> & -> & _); [lia| |done|].
  { unfold month_length. set (leap := JSDate.InLeapYear y) in *.
    clearbody leap. clear Hy.
    assert (m - 1 = 0 \/ m - 1 = 1 \/ m - 1 = 2 \/ m - 1 = 3 \/ m - 1 = 4
            \/ m - 1 = 5 \/ m - 1 = 6 \/ m - 1 = 7 \/ m - 1 = 8 \/ m - 1 = 9
            \/ m - 1 = 10 \/ m - 1 = 11) as Hc by lia.
    repeat destruct Hc as [->|Hc]; try rewrite Hc; simpl; lia. }
  rewrite isLeapYear_DaysInYear. unfold month_length.
  unfold JSDate.InLeapYear in *.
  assert (m - 1 = 0 \/ m - 1 = 1 \/ m - 1 = 2 \/ m - 1 = 3 \/ m - 1 = 4
          \/ m - 1 = 5 \/ m - 1 = 6 \/ m - 1 = 7 \/ m - 1 = 8 \/ m - 1 = 9
          \/ m - 1 = 10 \/ m - 1 = 11) as Hc by lia.
  repeat destruct Hc as [->|Hc]; try rewrite Hc;
    destruct (JSDate.DaysInYear y =? 366); done.
Qed.






(** ** Reading a date *)

Lemma YearFromDay_spec (d : Z) :
  JSDate.DayFromYear (JSDate.YearFromDay d) <= d
  < JSDate.DayFromYear (JSDate.YearFromDay d + 1).
Proof.
  unfold JSDate.YearFromDay.
  set (y0 := 1970 + d * 400 / 146097).
  assert (146097 * (y0 - 1970) <= 400 * d < 146097 * (y0 - 1970) + 146097)
    as Hy0 by (unfold y0; Z.div_mod_to_equations; lia).
  clearbody y0.
  pose proof (DayFromYear_mean y0) as H0.
  pose proof (DayFromYear_mean (y0 + 2)) as H2.
  pose proof (DayFromYear_succ (y0 - 1)) as Hs.
  pose proof (DaysInYear_range (y0 - 1)) as Hr.
  replace (y0 - 1 + 1) with y0 in * by lia.
  destruct (JSDate.DayFromYear (y0 + 1) <=? d) eqn:H1.
  { apply Z.leb_le in H1. replace (y0 + 1 + 1) with (y0 + 2) by lia. lia. }
  apply Z.leb_gt in H1.
  destruct (JSDate.DayFromYear y0 <=? d) eqn:H.
  { apply Z.leb_le in H. lia. }
  apply Z.leb_gt in H. replace (y0 - 1 + 1) with y0 by lia. lia.
Qed.

Lemma DayWithinYear_range (t : Z) :
  0 <= JSDate.DayWithinYear t
  < 365 + JSDate.InLeapYear (JSDate.getUTCFullYear t).
Proof.
  unfold JSDate.DayWithinYear, JSDate.getUTCFullYear.
  pose proof (YearFromDay_spec (JSDate.Day t)) as Hspec.
  rewrite DayFromYear_succ, DaysInYear_InLeapYear in Hspec. lia.
Qed.

Lemma getUTCDate_range (t : Z) : 1 <= JSDate.getUTCDate t <= 31.
Proof.
  unfold JSDate.getUTCDate, JSDate.getUTCMonth.
  pose proof (DayWithinYear_range t) as Hd.
  pose proof (InLeapYear_range (JSDate.getUTCFullYear t)) as Hl.
  set (diy := JSDate.DayWithinYear t) in *.
  set (leap := JSDate.InLeapYear (JSDate.getUTCFullYear t)) in *.
  clearbody diy leap. unfold JSDate.MonthFromDayInYear.
  repeat (case_match; [cbn [JSDate.monthStart]; lia|]).
  cbn [JSDate.monthStart]. lia.
Qed.

(** * Day overflow after clock arithmetic *)






(** * Weekday ordinals and the frequency *)

Lemma split_byweekday_plain (f : Frequency) (l : list ByWeekday) :
  freq_num MONTHLY < freq_num f ->
  forall (byweekday : list Z) (bynweekday : list (Z * Z)),
    split_byweekday f l byweekday bynweekday
    = (byweekday ++ (weekday_number <$> l), bynweekday).
Proof.
  intros Hf. induction l as [|w l IH]; intros wd nwd; cbn [split_byweekday fmap list_fmap].
  { by rewrite app_nil_r. }
  destruct w as [n|s|w].
  - by rewrite IH, <- (assoc (++)).
  - by rewrite IH, <- (assoc (++)).
  - rewrite (proj2 (Z.ltb_lt _ _) Hf), orb_true_r.
    by rewrite IH, <- (assoc (++)).
Qed.

Lemma split_byweekday_without_ordinals (f : Frequency) (l : list ByWeekday) :
  freq_num MONTHLY < freq_num f ->
  split_byweekday f (plain_weekday <$> l) [] [] = split_byweekday f l [] [].
Proof.
  intros Hf. rewrite !split_byweekday_plain by done. f_equal. f_equal.
  rewrite <- list_fmap_compose. apply list_fmap_ext. by intros _ [n|s|w] _.
Qed.

(** Two option objects that differ in [byweekday] only and resolve alike
    make rules that answer alike: the same error, or rules with the same
    resolved options and cache, whose calls return the same values. *)
Lemma cached_query_of_same_options (h : Host) (fuel : nat)
    (cache : option Cache.t) (orig orig' : Options.t) (o : ParsedOptions)
    (q : Query) :
  fst <$> RRule.cached_query h fuel (RRule.mk cache orig o) q
  = fst <$> RRule.cached_query h fuel (RRule.mk cache orig' o) q.
Proof.
  unfold RRule.cached_query, RRule._cacheGet, RRule._cacheAdd, RRule._iter.
  cbn [RRule._cache RRule.options RRule.origOptions].
  destruct cache as [c|].
  - destruct (Cache._cacheGet c q) as [[v|] c1]; [done|].
    cbn [RRule._cache RRule.options RRule.origOptions].
    by destruct (rrule_iter h o fuel q None).
  - cbn [RRule._cache RRule.options RRule.origOptions].
    by destruct (rrule_iter h o fuel q None).
Qed.

Lemma calls_of_same_options (h : Host) (fuel : nat) (rule plain : RRule.t)
    (c : RRule.Call) :
  RRule.options plain = RRule.options rule ->
  RRule._cache plain = RRule._cache rule ->
  fst <$> RRule.call h fuel rule c = fst <$> RRule.call h fuel plain c.
Proof.
  destruct rule as [cache orig o], plain as [cache' orig' o'].
  cbn [RRule.options RRule._cache]. intros -> ->.
  destruct c as [[it|]|a b inc [it|]|dt inc|dt inc];
    cbn [RRule.call RRule.all RRule.between RRule.before RRule.after];
    unfold RRule.all, RRule.between, RRule.before, RRule.after;
    try apply cached_query_of_same_options;
    unfold RRule._iter; cbn [RRule.options];
    by destruct (rrule_iter h o fuel _ _).
Qed.

Lemma rules_of_same_options (now : Z) (opts : Options.t) :
  parseOptions now opts = parseOptions now (without_ordinals opts)
  /\ (forall p : ParsedOptions,
         parseOptions now opts = Ok p -> bynweekday p = None) ->
  parseOptions now opts = parseOptions now (without_ordinals opts)
  /\ (forall p : ParsedOptions,
         parseOptions now opts = Ok p -> bynweekday p = None)
  /\ (forall (noCache : bool) (e : ValidationError),
         RRule.new now opts noCache = Throw e
         <-> RRule.new now (without_ordinals opts) noCache = Throw e)
  /\ (forall (noCache : bool) (rule : RRule.t),
         RRule.new now opts noCache = Ok rule ->
         exists plain : RRule.t,
           RRule.new now (without_ordinals opts) noCache = Ok plain
           /\ RRule.options plain = RRule.options rule
           /\ RRule._cache plain = RRule._cache rule
           /\ forall (h : Host) (fuel : nat) (c : RRule.Call),
                 fst <$> RRule.call h fuel rule c
                 = fst <$> RRule.call h fuel plain c).
Proof.
  intros [Hsame Hplain]. split; [done|]. split; [done|].
  assert (initializeOptions (without_ordinals opts)
          = match initializeOptions opts with
            | Ok _ => Ok (without_ordinals opts)
            | Throw e => Throw e
            end) as Hinit.
  { unfold initializeOptions, invalid_keys, without_ordinals.
    cbn [Options.otherKeys Options.dtstart Options.until].
    by destruct (_ ++ _). }
  split.
  - intros noCache e. unfold RRule.new. rewrite Hinit, <- Hsame.
    destruct (initializeOptions opts); [|done].
    by destruct (parseOptions now opts).
  - intros noCache rule. unfold RRule.new. rewrite Hinit, <- Hsame.
    destruct (initializeOptions opts) as [orig|]; [|done].
    destruct (parseOptions now opts) as [p|]; [|done].
    intros [= <-]. eexists. split; [done|]. split; [done|]. split; [done|].
    intros h fuel c. by apply calls_of_same_options.
Qed.

(** C8, as stated, fails: a weekly rule on the second Tuesday is
    constructed without an error; the ordinal is dropped and the rule
    recurs on every Tuesday. *)
Lemma weekly_rule_with_an_ordinal_is_constructed :
  exists p : ParsedOptions,
    parseOptions 0 weekly_second_tuesday = Ok p
    /\ byweekday p = Some [1] /\ bynweekday p = None
    /\ rrule_iter utcHost p 5 QAll None
       = Some (Dates [JSDate.UTC 2024 0 2 0 0 0 0; JSDate.UTC 2024 0 9 0 0 0 0;
                      JSDate.UTC 2024 0 16 0 0 0 0]).
Proof.
  eexists. split; [vm_compute; reflexivity|].
  split; [reflexivity|]. split; [reflexivity|]. vm_compute. reflexivity.
Qed.

(** C8 (amended): with a frequency finer than Monthly and without
    [byeaster] (which makes the frequency Yearly), the ordinal of a weekday
    of [byweekday] is dropped at construction: the options resolve exactly
    as they do with the plain weekdays, to the same resolved options or the
    same validation error; a rule so constructed has no [bynweekday], and
    every query on it is computed as on the rule constructed from the plain
    weekdays. *)
Theorem ordinal_with_finer_frequency_is_dropped
    (now : Z) (opts : Options.t) (f : Frequency) :
  Options.freq opts = Some f -> freq_num MONTHLY < freq_num f ->
  Options.byeaster opts = None ->
  parseOptions now opts = parseOptions now (without_ordinals opts)
  /\ (forall p : ParsedOptions,
         parseOptions now opts = Ok p -> bynweekday p = None)
  /\ (forall (noCache : bool) (e : ValidationError),
         RRule.new now opts noCache = Throw e
         <-> RRule.new now (without_ordinals opts) noCache = Throw e)
  /\ (forall (noCache : bool) (rule : RRule.t),
         RRule.new now opts noCache = Ok rule ->
         exists plain : RRule.t,
           RRule.new now (without_ordinals opts) noCache = Ok plain
           /\ RRule.options plain = RRule.options rule
           /\ RRule._cache plain = RRule._cache rule
           /\ forall (h : Host) (fuel : nat) (c : RRule.Call),
                 fst <$> RRule.call h fuel rule c
                 = fst <$> RRule.call h fuel plain c).
Proof.
  intros Hfreq Hf Heaster.
  assert (parseOptions now opts = parseOptions now (without_ordinals opts)
          /\ forall p : ParsedOptions,
               parseOptions now opts = Ok p -> bynweekday p = None)
    as [Hsame Hplain]; [|by apply rules_of_same_options].
  destruct opts as [fr ds iv wk ct un tz bsp bm bmd byd bwn bwd bh bmi bs be ok].
  cbn [Options.freq Options.byeaster] in Hfreq, Heaster. subst fr be.
  unfold parseOptions, initializeOptions, invalid_keys, without_ordinals.
  cbn [Options.freq Options.dtstart Options.interval Options.wkst Options.count
       Options.until Options.tzid Options.bysetpos Options.bymonth
       Options.bymonthday Options.byyearday Options.byweekno Options.byweekday
       Options.byhour Options.byminute Options.bysecond Options.byeaster
       Options.otherKeys].
  destruct (ok ++ _) as [|k ks]; [|split; [done|by intros]].
  cbn [Options.freq Options.dtstart Options.interval Options.wkst Options.count
       Options.until Options.tzid Options.bysetpos Options.bymonth
       Options.bymonthday Options.byyearday Options.byweekno Options.byweekday
       Options.byhour Options.byminute Options.bysecond Options.byeaster
       Options.otherKeys helpers.isPresent default].
  destruct (negb (forallb _ _)); [split; [done|by intros]|].
  assert ((freq_num MONTHLY <? freq_num f) = true) as Hlt by (by apply Z.ltb_lt).
  assert (f <> YEARLY /\ f <> MONTHLY) as [Hy Hm]
    by (split; intros ->; vm_compute in Hf; done).
  unfold id.
  rewrite !(bool_decide_eq_false_2 (f = YEARLY)) by done.
  rewrite !(bool_decide_eq_false_2 (f = MONTHLY)) by done.
  cbn [orb]. rewrite ?andb_false_r. cbn [andb].
  destruct bmd as [[v|md]|]; [destruct (v <? 0)|..];
    (destruct bwd as [[[n|s|w]|l]|];
     cbn [fmap option_fmap option_map plain_weekdays plain_weekday
          helpers.isPresent];
     [rewrite ?orb_false_r, ?orb_true_r; cbn [negb andb]..
     |destruct (negb _ && bool_decide (f = WEEKLY))];
     rewrite ?Hlt, ?orb_true_r, ?split_byweekday_without_ordinals by done;
     rewrite ?split_byweekday_plain by done; cbv beta iota zeta;
     (split; [done|by intros p [= <-]])).
Qed.

(** The theorem at the weekly rule on the second Tuesday. *)
Lemma ordinal_with_finer_frequency_is_dropped_witness :
  parseOptions 0 weekly_second_tuesday
  = parseOptions 0 (without_ordinals weekly_second_tuesday).
Proof.
  apply (proj1 (ordinal_with_finer_frequency_is_dropped 0
                  weekly_second_tuesday WEEKLY eq_refl ltac:(simpl; lia)
                  eq_refl)).
Defined.

(** * The day rules taken from the start *)

(** C5, as stated, fails: with [bymonth] present and 0, and no day rule,
    a yearly rule takes the month of its start (March) for [bymonth]. *)
Lemma bymonth_zero_is_replaced_by_the_month_of_start :
  exists p : ParsedOptions,
    parseOptions 0 yearly_bymonth_zero = Ok p
    /\ Options.bymonth yearly_bymonth_zero = Some (One 0)
    /\ freq p = YEARLY
    /\ bymonth p = Some [3]
    /\ JSDate.getUTCMonth (dtstart p) + 1 = 3.
Proof.
  eexists. split; [vm_compute; reflexivity|].
  repeat split; vm_compute; reflexivity.
Qed.

(** C5 (amended): when the options hold none of [byweekno], [byyearday],
    [bymonthday], [byweekday] and [byeaster], the resolved rule takes its
    day rules from its start: a Yearly rule has the day of the start for
    [bymonthday], and the month of the start for [bymonth] when [bymonth]
    is absent or 0 (a [bymonth] that is present and not 0 is kept); a
    Monthly rule has the day of the start for [bymonthday]; a Weekly rule
    has the weekday of the start for [byweekday]. *)
Theorem day_rules_default_to_the_start
    (now : Z) (opts : Options.t) (p : ParsedOptions) :
  Options.byweekno opts = None -> Options.byyearday opts = None ->
  Options.bymonthday opts = None -> Options.byweekday opts = None ->
  Options.byeaster opts = None ->
  parseOptions now opts = Ok p ->
  match freq p with
  | YEARLY =>
      bymonth p
      = match Options.bymonth opts with
        | None => Some [JSDate.getUTCMonth (dtstart p) + 1]
        | Some (One n) =>
            if n =? 0 then Some [JSDate.getUTCMonth (dtstart p) + 1]
            else Some [n]
        | Some (Many l) => Some l
        end
      /\ bymonthday p = [JSDate.getUTCDate (dtstart p)]
      /\ bynmonthday p = []
  | MONTHLY =>
      bymonthday p = [JSDate.getUTCDate (dtstart p)] /\ bynmonthday p = []
  | WEEKLY =>
      byweekday p = Some [dateutil.getWeekday (dtstart p)]
      /\ bynweekday p = None
  | _ => True
  end.
Proof.
  intros Hwn Hyd Hmd Hwd Hea.
  destruct opts as [fr ds iv wk ct un tz bsp bm bmd byd bwn bwd bh bmi bs be ok].
  cbn [Options.byweekno Options.byyearday Options.bymonthday Options.byweekday
       Options.byeaster] in *. subst.
  unfold parseOptions, initializeOptions, invalid_keys.
  cbn [Options.freq Options.dtstart Options.interval Options.wkst Options.count
       Options.until Options.tzid Options.bysetpos Options.bymonth
       Options.bymonthday Options.byyearday Options.byweekno Options.byweekday
       Options.byhour Options.byminute Options.bysecond Options.byeaster
       Options.otherKeys].
  destruct (ok ++ _) as [|k ks]; [|done].
  cbn [Options.freq Options.dtstart Options.interval Options.wkst Options.count
       Options.until Options.tzid Options.bysetpos Options.bymonth
       Options.bymonthday Options.byyearday Options.byweekno Options.byweekday
       Options.byhour Options.byminute Options.bysecond Options.byeaster
       Options.otherKeys helpers.isPresent truthy notEmpty1 orb negb andb].
  destruct (negb (forallb _ _)); [done|].
  assert (forall t, (JSDate.getUTCDate t <? 0) = false) as Hpos
    by (intros t; pose proof (getUTCDate_range t); apply Z.ltb_ge; lia).
  destruct (default YEARLY fr) eqn:Hfreq;
    repeat case_bool_decide; try done;
    cbn [orb andb negb split_byweekday app nonempty_or_null];
    rewrite ?Hpos; cbv beta iota zeta;
    intros Hp; injection Hp; clear Hp; intros <-; cbn [freq bymonth bymonthday bynmonthday byweekday
                         bynweekday dtstart]; try done.
  - split; [|done]. destruct bm as [[n|l]|]; [|done..].
    cbn [truthy negb]. by destruct (n =? 0).
Qed.

(** The theorem at the yearly rule whose [bymonth] is 0. *)
Lemma day_rules_default_to_the_start_witness :
  exists p : ParsedOptions,
    parseOptions 0 yearly_bymonth_zero = Ok p
    /\ bymonth p = Some [3] /\ bymonthday p = [15] /\ bynmonthday p = [].
Proof.
  eexists. split; [vm_compute; reflexivity|].
  exact (day_rules_default_to_the_start 0 yearly_bymonth_zero _
           eq_refl eq_refl eq_refl eq_refl eq_refl eq_refl).
Defined.

(** * Hours given out of order *)

(** C3 at the failing input: [buildTimeset] keeps the hours in the order
    of [byhour], so the rule emits 10:00 before 05:00 of the same day, and
    [after] midnight, inclusive, returns 10:00; [between] shows that 05:00
    of that day is an occurrence too. *)
Theorem after_returns_the_hour_listed_first :
  exists rule : RRule.t,
    RRule.new 0 daily_at_10_and_5 false = Ok rule
    /\ fst <$> RRule.after utcHost 4 rule (JSDate.UTC 2024 0 1 0 0 0 0) true
       = Some (OneDate (Some (JSDate.UTC 2024 0 1 10 0 0 0)))
    /\ fst <$> RRule.between utcHost 4 rule (JSDate.UTC 2024 0 1 0 0 0 0)
                 (JSDate.UTC 2024 0 1 23 0 0 0) true None
       = Some (Dates [JSDate.UTC 2024 0 1 10 0 0 0; JSDate.UTC 2024 0 1 5 0 0 0]).
Proof.
  eexists. split; [vm_compute; reflexivity|].
  split; vm_compute; reflexivity.
Qed.

(** C9 at the failing input: on the rule of the text [every day at 10, 5],
    made at 2024-01-01T05:00:00Z, [next(2)] returns 10:00 before 05:00. *)
Theorem next_returns_the_hours_as_listed :
  exists rule : RRule.t,
    RRule.new (JSDate.UTC 2024 0 1 5 0 0 0) every_day_at_10_5 false = Ok rule
    /\ fst <$> RepeatAdapter.next utcHost 4 rule 2
       = Some (Dates [JSDate.UTC 2024 0 1 10 0 0 0; JSDate.UTC 2024 0 1 5 0 0 0]).
Proof.
  eexists. split; [vm_compute; reflexivity|]. vm_compute. reflexivity.
Qed.

(** * An exclusion rule with a cache *)

(** C6 at the failing input: the cache of the exclusion rule finds its
    entries by [String(date)], which prints no milliseconds. Without the
    exclusion date, the [between] the set asks around 12:00:00.200 is
    answered by the entry cached around 12:00:00.100, which is empty, and
    both dates are returned; with the exclusion date 12:00:00.100 the first
    [between] asked is the one around 12:00:00.200, and nothing is
    returned: adding the exclusion date removed both dates. With an
    exclusion rule that has no cache, adding it removes that date only. *)
Theorem exdate_removes_a_second_date :
  exists cached uncached : RRule.t,
    RRule.new 0 once_at_200ms false = Ok cached
    /\ RRule.new 0 once_at_200ms true = Ok uncached
    /\ set_all (two_dates_except cached)
       = Some (Dates [JSDate.UTC 2024 0 1 12 0 0 100;
                      JSDate.UTC 2024 0 1 12 0 0 200])
    /\ set_all (RRuleSet.exdate (JSDate.UTC 2024 0 1 12 0 0 100)
                  (two_dates_except cached))
       = Some (Dates [])
    /\ set_all (two_dates_except uncached)
       = Some (Dates [JSDate.UTC 2024 0 1 12 0 0 100])
    /\ set_all (RRuleSet.exdate (JSDate.UTC 2024 0 1 12 0 0 100)
                  (two_dates_except uncached))
       = Some (Dates []).
Proof.
  eexists _, _. split; [vm_compute; reflexivity|].
  split; [vm_compute; reflexivity|].
  repeat split; vm_compute; reflexivity.
Qed.

(** * [parseTaskListConfig] returns *)

Section TaskList.

Import State.















End TaskList.


(** The parse of a few lines. *)
Example parseTaskListConfig_some_lines :
  State.parseTaskListConfig some_lines
  = Some (State.set_selectTags
            (State.set_sort
               (State.set_overdue State.TaskListConfigDefaults true) None)
            [JSString.lit "work"; JSString.lit "home"],
          [State.invalid_line (JSString.lit "sort: bogus");
           State.invalid_line (JSString.lit "note")]).
Proof. vm_compute. reflexivity. Qed.

(** * More properties of the helpers *)

(** X1: [pymod] is the modulo of Python, as its comment says: for a
    divisor that is not 0 the result has the sign of the divisor and is
    smaller than it in size, and differs from the dividend by a multiple of
    the divisor; [divmod] returns the quotient that goes with it. *)
Theorem divmod_is_floor_division (a b : Z) :
  b <> 0 ->
  helpers.pymod a b = a mod b
  /\ (0 <= helpers.pymod a b < b \/ b < helpers.pymod a b <= 0)
  /\ a = b * (helpers.divmod a b).1 + (helpers.divmod a b).2.
Proof.
  intros Hb.
  assert (helpers.pymod a b = a mod b) as Hmod.
  { unfold helpers.pymod.
    destruct (Z.rem a b * b <? 0) eqn:Hsign;
      [apply Z.ltb_lt in Hsign|apply Z.ltb_ge in Hsign].
    - apply Z.mod_unique with (q := Z.quot a b - 1).
      + pose proof (Z.rem_bound_abs a b Hb). nia.
      + pose proof (Z.quot_rem a b Hb). nia.
    - apply Z.mod_unique with (q := Z.quot a b).
      + pose proof (Z.rem_bound_abs a b Hb).
        destruct (Z.eq_dec (Z.rem a b) 0) as [->|Hr]; [lia|]. nia.
      + pose proof (Z.quot_rem a b Hb). nia. }
  split; [done|]. split.
  - rewrite Hmod. destruct (Z.lt_ge_cases 0 b).
    + left. by apply Z.mod_pos_bound.
    + right. apply Z.mod_neg_bound. lia.
  - cbn [helpers.divmod fst snd]. rewrite Hmod. by apply Z.div_mod.
Qed.

Lemma divmod_is_floor_division_witness :
  helpers.pymod (-7) 3 = 2 /\ (helpers.divmod (-7) 3).1 = -3.
Proof.
  destruct (divmod_is_floor_division (-7) 3 ltac:(lia)) as (Hmod & _ & Hdiv).
  split; [by rewrite Hmod|]. reflexivity.
Defined.

(** * Sorting dates *)

Lemma insert_by_perm {A} (getTime : A -> option Z) (x : A) (l : list A) :
  dateutil.insert_by getTime x l ≡ₚ x :: l.
Proof.
  induction l as [|y l IH]; cbn [dateutil.insert_by]; [done|].
  destruct (dateutil.comes_after getTime x y); [|done].
  by rewrite IH, Permutation_swap.
Qed.

Lemma sort_perm {A} (getTime : A -> option Z) (l : list A) :
  dateutil.sort getTime l ≡ₚ l.
Proof.
  unfold dateutil.sort. induction l as [|x l IH]; cbn [foldr]; [done|].
  by rewrite insert_by_perm, IH.
Qed.

Lemma insert_by_sorted {A} (getTime : A -> option Z) (x : A) (l : list A) :
  is_Some (getTime x) -> Forall (fun y => is_Some (getTime y)) l ->
  StronglySorted (time_le getTime) l ->
  StronglySorted (time_le getTime) (dateutil.insert_by getTime x l).
Proof.
  intros [tx Hx] Hl Hsorted.
  induction Hsorted as [|y l Hsorted IH Hy]; cbn [dateutil.insert_by].
  { by repeat constructor. }
  apply Forall_cons in Hl as [[ty Hty] Hl].
  unfold dateutil.comes_after. rewrite Hx, Hty.
  destruct (0 <? tx - ty) eqn:Hlt;
    [apply Z.ltb_lt in Hlt|apply Z.ltb_ge in Hlt].
  - constructor; [by apply IH|].
    rewrite insert_by_perm. constructor; [|done].
    unfold time_le. rewrite Hx, Hty. lia.
  - constructor; [by constructor|]. constructor.
    + unfold time_le. rewrite Hx, Hty. lia.
    + eapply Forall_impl; [exact Hy|]. intros z. unfold time_le.
      rewrite Hx, Hty. destruct (getTime z); [lia|done].
Qed.

Lemma sort_sorted {A} (getTime : A -> option Z) (dates : list A) :
  Forall (fun x => is_Some (getTime x)) dates ->
  StronglySorted (time_le getTime) (dateutil.sort getTime dates).
Proof.
  intros Hvalid. unfold dateutil.sort.
  induction Hvalid as [|x l Hx Hl IH]; cbn [foldr]; [constructor|].
  apply insert_by_sorted; [done| |done].
  fold (dateutil.sort getTime l). by rewrite sort_perm.
Qed.

(** X2: [dateutil.sort] on an array of valid dates (or of times): the
    array holds the same elements afterwards, in ascending order of
    time. *)
Theorem sort_orders_by_time {A} (getTime : A -> option Z) (dates : list A) :
  Forall (fun x => is_Some (getTime x)) dates ->
  dateutil.sort getTime dates ≡ₚ dates
  /\ StronglySorted (time_le getTime) (dateutil.sort getTime dates).
Proof. intros Hvalid. split; [apply sort_perm|by apply sort_sorted]. Qed.

Lemma sort_orders_by_time_witness :
  dateutil.sort Some [30; 10; 20] ≡ₚ [30; 10; 20]
  /\ StronglySorted (time_le Some) (dateutil.sort Some [30; 10; 20]).
Proof.
  apply (sort_orders_by_time Some [30; 10; 20]).
  repeat constructor; by eexists.
Defined.

Lemma sorted_dates (l : list Z) :
  StronglySorted (time_le Some) l <-> StronglySorted Z.le l.
Proof.
  split; intros H; induction H; constructor; try done;
    (eapply Forall_impl; [eassumption|]); by intros.
Qed.

Lemma strictly_sorted (l : list Z) :
  StronglySorted Z.le l -> NoDup l -> StronglySorted Z.lt l.
Proof.
  induction 1 as [|x l Hs IH Hx]; intros Hnd; [constructor|].
  apply NoDup_cons in Hnd as [Hnot Hnd]. constructor; [by apply IH|].
  apply Forall_forall. intros y Hy.
  pose proof (proj1 (Forall_forall _ _) Hx y Hy).
  assert (x <> y) by (by intros ->). lia.
Qed.

Lemma strictly_sorted_NoDup (l : list Z) : StronglySorted Z.lt l -> NoDup l.
Proof.
  induction 1 as [|x l Hs IH Hx]; constructor; [|done].
  intros Hin. pose proof (proj1 (Forall_forall _ _) Hx x Hin). lia.
Qed.

(** X3: [_addDate] keeps a collection of dates in strictly ascending order
    (sorted, each date once): the collection holds the date afterwards and
    what it held before, and a date that is already there changes
    nothing. *)
Theorem addDate_keeps_dates_sorted_and_single (date : Z) (collection : list Z) :
  StronglySorted Z.lt collection ->
  StronglySorted Z.lt (RRuleSet._addDate date collection)
  /\ (forall d, d ∈ RRuleSet._addDate date collection
                <-> d = date \/ d ∈ collection)
  /\ (date ∈ collection -> RRuleSet._addDate date collection = collection).
Proof.
  intros Hsorted. unfold RRuleSet._addDate.
  case_bool_decide as Hin.
  { split; [done|]. split; [|done]. intros d. split; [by right|].
    by intros [->|]. }
  assert (Forall (fun x : Z => is_Some (Some x)) (collection ++ [date])) as Hvalid
    by (apply Forall_forall; by eexists).
  pose proof (sort_perm Some (collection ++ [date])) as Hperm.
  pose proof (sort_sorted Some (collection ++ [date]) Hvalid) as Hle.
  split; [|split; [|done]].
  - apply strictly_sorted; [by apply sorted_dates|].
    rewrite Hperm. apply NoDup_app. split; [by apply strictly_sorted_NoDup|].
    split; [|apply NoDup_singleton].
    intros x Hx ->%list_elem_of_singleton. done.
  - intros d. rewrite Hperm, elem_of_app, list_elem_of_singleton. tauto.
Qed.

Lemma addDate_keeps_dates_sorted_and_single_witness :
  StronglySorted Z.lt (RRuleSet._addDate 20 [10; 30]).
Proof.
  apply (addDate_keeps_dates_sorted_and_single 20 [10; 30]).
  repeat constructor; lia.
Defined.

(** * What a query returns *)

Section Invariant.

Context (h : Host) (options : ParsedOptions).
Context {S : Type} (accept : S -> Z -> option (S * bool)).
Context (P : S -> Prop).
Hypothesis accept_keeps :
  forall s date s' ok,
    occurrence_time h options date -> P s -> accept s date = Some (s', ok) ->
    P s'.

Lemma emit_invariant (dates : list (option Z)) :
  forall (s : S) (count : option Z) (r : Emitted S),
    P s -> emit h accept options dates s count = Some r ->
    match r with Stop s' => P s' | Continue s' _ => P s' end.
Proof.
  induction dates as [|[res|] dates IH]; intros s count r Hs; cbn [emit].
  - by intros [= <-].
  - destruct (until options) as [u|] eqn:Hu.
    + destruct (u <? res) eqn:Hlate; [by intros [= <-]|].
      apply Z.ltb_ge in Hlate.
      destruct (dtstart options <=? res) eqn:Hstart; [|by apply IH].
      apply Z.leb_le in Hstart.
      destruct (accept s (rezoneIfNeeded h res options)) as [[s' ok]|] eqn:Hacc;
        [|done].
      assert (P s') as Hs'.
      { eapply accept_keeps; [|done|done]. exists res. by rewrite Hu. }
      cbn [mbind option_bind]. destruct ok; cbn [negb]; [|by intros [= <-]].
      repeat case_match; try (by intros [= <-]); by apply IH.
    + destruct (dtstart options <=? res) eqn:Hstart; [|by apply IH].
      apply Z.leb_le in Hstart.
      destruct (accept s (rezoneIfNeeded h res options)) as [[s' ok]|] eqn:Hacc;
        [|done].
      assert (P s') as Hs'.
      { eapply accept_keeps; [|done|done]. exists res. by rewrite Hu. }
      cbn [mbind option_bind]. destruct ok; cbn [negb]; [|by intros [= <-]].
      repeat case_match; try (by intros [= <-]); by apply IH.
  - by apply IH.
Qed.

Lemma iter_loop_invariant (fuel : nat) :
  forall counterDate ii timeset (s s' : S) count,
    P s ->
    iter_loop h accept options fuel counterDate ii timeset s count = Some s' ->
    P s'.
Proof.
  induction fuel as [|fuel IH]; intros cd ii ts s s' count Hs; [done|].
  cbn [iter_loop]. destruct (period h options cd ii ts) as [dates filtered].
  destruct (emit h accept options dates s count) as [r|] eqn:Hemit; [|done].
  pose proof (emit_invariant dates s count r Hs Hemit) as Hr.
  cbn [mbind option_bind]. destruct r as [s1|s1 count1]; [by intros [= <-]|].
  destruct (interval options =? 0); [by intros [= <-]|].
  destruct (DateTime.add fuel options filtered cd) as [cd'|]; [|done].
  cbn [mbind option_bind].
  destruct (dateutil.MAXYEAR <? DateTime.year cd'); [by intros [= <-]|].
  by apply IH.
Qed.

Lemma iter_invariant (fuel : nat) (s s' : S) :
  P s -> iter h accept options fuel s = Some s' -> P s'.
Proof.
  unfold iter. destruct (_ || _); [by intros ? [= <-]|].
  apply iter_loop_invariant.
Qed.

End Invariant.

(** [accept] keeps the dates it has and may add the one it is given. *)
Lemma accept_result_grows (r : IterResult.t) (date : Z) :
  IterResult._result (IterResult.accept r date).1 = IterResult._result r
  \/ IterResult._result (IterResult.accept r date).1
     = IterResult._result r ++ [date].
Proof.
  destruct r as [m mi ma res tot it].
  unfold IterResult.accept, IterResult.add, IterResult.with_total,
    IterResult.push.
  cbn [IterResult.method IterResult.minDate IterResult.maxDate
       IterResult._result IterResult.total IterResult.iterator].
  repeat case_match; cbn [fst IterResult._result]; by auto.
Qed.

Lemma accept_query_state (q : Query) (r : IterResult.t) (date : Z) :
  query_state q r -> query_state q (IterResult.accept r date).1.
Proof.
  destruct r as [m mi ma res tot it]. intros (Hm & Hmi & Hma & Hres).
  cbn [IterResult.method IterResult.minDate IterResult.maxDate
       IterResult._result] in *. subst m mi ma.
  unfold IterResult.accept, IterResult.add, IterResult.with_total,
    IterResult.push, query_state.
  cbn [IterResult.method IterResult.minDate IterResult.maxDate
       IterResult._result IterResult.total IterResult.iterator].
  destruct q as [|a b inc|dt inc|dt inc];
    cbn [IterResult.new IterResult.minDate IterResult.maxDate];
    repeat case_match; subst;
    cbn [fst IterResult.method IterResult.minDate IterResult.maxDate
         IterResult._result];
    repeat split; try done;
    (apply Forall_app; split; [done|]);
    (constructor; [|done]);
    cbn [within];
    repeat match goal with
           | H : (_ <? _) = true |- _ => apply Z.ltb_lt in H
           | H : (_ <? _) = false |- _ => apply Z.ltb_ge in H
           end; try done; lia.
Qed.

Lemma accept_result_fst (r r' : IterResult.t) (date : Z) (ok : bool) :
  accept_result r date = Some (r', ok) -> r' = (IterResult.accept r date).1.
Proof. unfold accept_result. intros [= H]. by rewrite H. Qed.

Lemma getValue_dates (r : IterResult.t) :
  dates_of (IterResult.getValue r) ⊆ IterResult._result r.
Proof.
  unfold IterResult.getValue.
  destruct (IterResult.method r); cbn [dates_of]; try done;
    destruct (last (IterResult._result r)) as [d|] eqn:Hlast;
    intros x Hx; try (by apply elem_of_nil in Hx);
    apply list_elem_of_singleton in Hx as ->;
    apply last_Some in Hlast as [l' ->]; set_solver.
Qed.

(** In UTC the date offered is the time of the walk itself. *)
Lemma occurrence_time_utc (h : Host) (o : ParsedOptions) (date : Z) :
  DateWithZone.isUTC (tzid o) = true ->
  occurrence_time h o date -> in_span o date.
Proof.
  intros Hutc (res & Hstart & Huntil & ->).
  unfold rezoneIfNeeded, DateWithZone.rezonedDate. by rewrite Hutc.
Qed.

Lemma iterator_in_span (h : Host) (o : ParsedOptions) (fuel : nat) (q : Query)
    (iterator : option (Z -> Z -> bool)) (v : Value) :
  DateWithZone.isUTC (tzid o) = true ->
  rrule_iter h o fuel q iterator = Some v ->
  Forall (in_span o) (dates_of v).
Proof.
  unfold rrule_iter, emitResult. intros Hutc Hrun.
  destruct (iter h accept_result o fuel (IterResult.new q iterator))
    as [r|] eqn:Hiter; [|done].
  cbn [fmap option_fmap option_map] in Hrun. simplify_eq.
  assert (Forall (in_span o) (IterResult._result r)) as Hres.
  { apply (iter_invariant h o accept_result
             (fun r => Forall (in_span o) (IterResult._result r)))
      with (3 := Hiter); [|by destruct q].
    intros s date s' ok Hdate Hs ->%accept_result_fst.
    destruct (accept_result_grows s date) as [-> | ->]; [done|].
    apply Forall_app. split; [done|]. constructor; [|done].
    by apply (occurrence_time_utc h). }
  apply Forall_forall. intros d Hd%getValue_dates.
  by apply (proj1 (Forall_forall _ _) Hres).
Qed.

Lemma iterator_within (h : Host) (o : ParsedOptions) (fuel : nat) (q : Query)
    (iterator : option (Z -> Z -> bool)) (v : Value) :
  rrule_iter h o fuel q iterator = Some v ->
  Forall (within q) (dates_of v).
Proof.
  unfold rrule_iter, emitResult. intros Hrun.
  destruct (iter h accept_result o fuel (IterResult.new q iterator))
    as [r|] eqn:Hiter; [|done].
  cbn [fmap option_fmap option_map] in Hrun. simplify_eq.
  assert (query_state q r) as (_ & _ & _ & Hres).
  { apply (iter_invariant h o accept_result (query_state q))
      with (3 := Hiter); [|by destruct q].
    intros s date s' ok _ Hs ->%accept_result_fst.
    by apply accept_query_state. }
  apply Forall_forall. intros d Hd%getValue_dates.
  by apply (proj1 (Forall_forall _ _) Hres).
Qed.

(** ** The cache holds dates of the rule *)

Lemma feed_grows (P : Z -> Prop) (dates : list Z) :
  forall r : IterResult.t,
    Forall P (IterResult._result r) -> Forall P dates ->
    Forall P (IterResult._result (Cache.feed r dates)).
Proof.
  induction dates as [|d dates IH]; intros r Hr Hdates; cbn [Cache.feed];
    [done|].
  apply Forall_cons in Hdates as [Hd Hdates].
  pose proof (accept_result_grows r d) as Hgrow.
  destruct (IterResult.accept r d) as [r' ok]. cbn [fst] in Hgrow.
  assert (Forall P (IterResult._result r')) as Hr'.
  { destruct Hgrow as [-> | ->]; [done|].
    apply Forall_app. by split; [|constructor]. }
  destruct ok; [by apply IH|done].
Qed.

Lemma cacheAdd_span (o : ParsedOptions) (c : Cache.t) (q : Query) (v : Value) :
  cache_span o c -> Forall (in_span o) (dates_of v) ->
  cache_span o (Cache._cacheAdd c q v).
Proof.
  intros (Hall & Hbefore & Hafter & Hbetween) Hv.
  assert (forall items,
             Forall (fun item => Forall (in_span o)
                                   (dates_of (Cache._value item))) items ->
             Forall (fun item => Forall (in_span o)
                                   (dates_of (Cache._value item)))
               (items ++ [{| Cache.args := q; Cache._value := v |}]))
    as Hsnoc.
  { intros items Hitems. apply Forall_app. split; [done|]. by constructor. }
  unfold Cache._cacheAdd.
  destruct q as [|a b inc|dt inc|dt inc]; [destruct v as [l|d]|..];
    repeat split; cbn [Cache.all Cache.before Cache.after Cache.between];
    try done; try (by apply Hsnoc).
  by intros l' [= <-].
Qed.

Lemma cacheGet_span (o : ParsedOptions) (c c' : Cache.t) (q : Query)
    (result : option Value) :
  cache_span o c -> Cache._cacheGet c q = (result, c') ->
  cache_span o c'
  /\ forall v, result = Some v -> Forall (in_span o) (dates_of v).
Proof.
  intros Hc. pose proof Hc as (Hall & Hbefore & Hafter & Hbetween).
  assert (forall v, Cache.lookup c q = Some v -> Forall (in_span o) (dates_of v))
    as Hlookup.
  { intros v. unfold Cache.lookup.
    assert (forall items,
               Forall (fun item => Forall (in_span o)
                                     (dates_of (Cache._value item))) items ->
               Cache._value
                 <$> List.find (fun item => Cache.same_args q (Cache.args item))
                       items = Some v ->
               Forall (in_span o) (dates_of v)) as Hfind.
    { intros items Hitems Hv.
      destruct (List.find _ items) as [item|] eqn:Hitem; [|done].
      injection Hv as <-. apply find_some in Hitem as [Hin%list_elem_of_In _].
      by apply (proj1 (Forall_forall _ _) Hitems). }
    destruct q as [|a b inc|dt inc|dt inc]; cbn [Cache.items];
      [|by apply Hfind..].
    destruct (Cache.all c) as [l|] eqn:Hl; [|done].
    intros [= <-]. by apply Hall. }
  unfold Cache._cacheGet. destruct (Cache.all c) as [dates|] eqn:Hdates.
  - destruct (Cache.not_cached (Cache.lookup c q)).
    + intros [= <- <-].
      assert (Forall (in_span o)
                (dates_of (IterResult.getValue
                             (Cache.feed (IterResult.new q None) dates))))
        as Hv.
      { apply Forall_forall. intros d Hd%getValue_dates. revert d Hd.
        apply Forall_forall, feed_grows; [by destruct q|by apply Hall]. }
      split; [by apply cacheAdd_span|]. by intros v [= <-].
    + intros [= <- <-]. split; [done|]. intros v Hv. by apply Hlookup.
  - intros [= <- <-]. split; [done|]. intros v Hv. by apply Hlookup.
Qed.

Lemma call_span (h : Host) (fuel : nat) (rule rule' : RRule.t) (c : RRule.Call)
    (v : Value) :
  DateWithZone.isUTC (tzid (RRule.options rule)) = true ->
  rule_span rule -> RRule.call h fuel rule c = Some (v, rule') ->
  Forall (in_span (RRule.options rule)) (dates_of v)
  /\ rule_span rule' /\ RRule.options rule' = RRule.options rule.
Proof.
  intros Hutc Hrule.
  assert (forall q it w,
             RRule._iter h rule fuel q it = Some w ->
             Forall (in_span (RRule.options rule)) (dates_of w)) as Hiter.
  { intros q it w. by apply iterator_in_span. }
  assert (forall q,
             RRule.cached_query h fuel rule q = Some (v, rule') ->
             Forall (in_span (RRule.options rule)) (dates_of v)
             /\ rule_span rule' /\ RRule.options rule' = RRule.options rule)
    as Hcached.
  { intros q. unfold RRule.cached_query, RRule._cacheGet, RRule._cacheAdd.
    unfold rule_span in Hrule.
    destruct (RRule._cache rule) as [c0|] eqn:Hc0.
    - destruct (Cache._cacheGet c0 q) as [result c1] eqn:Hget.
      destruct (cacheGet_span _ _ _ _ _ Hrule Hget) as [Hc1 Hresult].
      destruct result as [w|].
      + intros [= <- <-]. split; [by apply Hresult|].
        unfold rule_span. by cbn [RRule._cache RRule.options].
      + unfold RRule._iter at 1. cbn [RRule.options RRule._cache].
        destruct (rrule_iter h (RRule.options rule) fuel q None) as [w|]
          eqn:Hw; [|done].
        cbn [mbind option_bind RRule._cache RRule.options RRule.origOptions].
        intros [= <- <-].
        pose proof (Hiter q None w Hw) as Hv.
        split; [done|]. unfold rule_span. cbn [RRule._cache RRule.options].
        split; [|done]. by apply cacheAdd_span.
    - destruct (RRule._iter h rule fuel q None) as [w|] eqn:Hw; [|done].
      cbn [mbind option_bind]. rewrite Hc0. intros [= <- <-].
      split; [by apply (Hiter q None)|]. unfold rule_span. by rewrite Hc0. }
  assert (forall q it,
             (w ← RRule._iter h rule fuel q (Some it); Some (w, rule))
             = Some (v, rule') ->
             Forall (in_span (RRule.options rule)) (dates_of v)
             /\ rule_span rule' /\ RRule.options rule' = RRule.options rule)
    as Hcallback.
  { intros q it.
    destruct (RRule._iter h rule fuel q (Some it)) as [w|] eqn:Hw; [|done].
    cbn [mbind option_bind]. intros [= <- <-].
    split; [by apply (Hiter q (Some it))|done]. }
  destruct c as [[it|]|a b inc [it|]|dt inc|dt inc];
    cbn [RRule.call]; unfold RRule.all, RRule.between, RRule.before,
      RRule.after; first [apply Hcached|apply Hcallback].
Qed.

(** X4: every date that [all], [between], [before] or [after] returns on
    a rule in UTC (its [tzid] absent or UTC), in any sequence of calls on
    the rule as the constructor made it, with a callback or without,
    computed by the iterator or taken from the cache the earlier calls
    filled, is not before [dtstart] and, when [until] is set, not after
    [until]. *)
Theorem calls_return_dates_from_dtstart_to_until
    (now : Z) (opts : Options.t) (noCache : bool) (h : Host) (fuel : nat)
    (rule rule' : RRule.t) (cs : list RRule.Call) (vs : list Value) :
  RRule.new now opts noCache = Ok rule ->
  DateWithZone.isUTC (tzid (RRule.options rule)) = true ->
  RRule.calls h fuel rule cs = Some (vs, rule') ->
  Forall (fun v => Forall (in_span (RRule.options rule)) (dates_of v)) vs.
Proof.
  intros Hnew Hutc.
  assert (rule_span rule) as Hrule.
  { unfold RRule.new in Hnew.
    destruct (initializeOptions opts); [|done].
    destruct (parseOptions now opts); [|done].
    injection Hnew as <-. unfold rule_span. cbn [RRule._cache].
    by destruct noCache. }
  clear Hnew. revert rule rule' vs Hutc Hrule.
  induction cs as [|c cs IH]; intros rule rule' vs Hutc Hrule;
    cbn [RRule.calls]; [by intros [= <- <-]|].
  destruct (RRule.call h fuel rule c) as [[v rule1]|] eqn:Hcall; [|done].
  cbn [mbind option_bind].
  destruct (call_span h fuel rule rule1 c v Hutc Hrule Hcall)
    as (Hv & Hrule1 & Hoptions).
  destruct (RRule.calls h fuel rule1 cs) as [[vs1 rule2]|] eqn:Hcalls; [|done].
  cbn [mbind option_bind]. intros [= <- <-].
  constructor; [done|]. rewrite <- Hoptions.
  apply (IH rule1 rule2 vs1); [by rewrite Hoptions|done|done].
Qed.

(** The theorem at [all()] and then [after] the first occurrence, on a
    yearly rule from 2024 until June 2026. *)
Lemma calls_return_dates_from_dtstart_to_until_witness :
  exists (rule rule' : RRule.t) (vs : list Value),
    RRule.new 0 yearly_until_2026 false = Ok rule
    /\ RRule.calls utcHost 5 rule
         [RRule.CallAll None;
          RRule.CallAfter (JSDate.UTC 2024 0 1 0 0 0 0) false]
       = Some (vs, rule')
    /\ vs = [Dates [JSDate.UTC 2024 0 1 0 0 0 0; JSDate.UTC 2025 0 1 0 0 0 0;
                    JSDate.UTC 2026 0 1 0 0 0 0];
             OneDate (Some (JSDate.UTC 2025 0 1 0 0 0 0))]
    /\ Forall (fun v => Forall (in_span (RRule.options rule)) (dates_of v)) vs.
Proof.
  eexists _, _, _. split; [vm_compute; reflexivity|].
  match goal with
  | |- RRule.calls _ _ ?rule ?cs = Some (?vs, ?rule') /\ _ =>
      assert (RRule.calls utcHost 5 rule cs = Some (vs, rule')) as Hrun
        by (vm_compute; reflexivity)
  end.
  split; [exact Hrun|]. split; [reflexivity|].
  refine (calls_return_dates_from_dtstart_to_until 0 yearly_until_2026 false
            utcHost 5 _ _ _ _ _ _ Hrun); vm_compute; reflexivity.
Defined.

(** X5: on a rule in UTC (its [tzid] absent or UTC) and without a cache
    (constructed with [noCache]), where every query is computed by the
    iterator, the dates [between], [before] and [after] return lie within
    the bounds of the call: from [after] to [before] for [between], up to
    [dt] for [before], from [dt] on for [after]; a bound itself is returned
    only when [inc] is set. *)
Theorem uncached_queries_return_dates_within_their_bounds
    (h : Host) (fuel : nat) (rule rule' : RRule.t) (c : RRule.Call)
    (v : Value) :
  DateWithZone.isUTC (tzid (RRule.options rule)) = true ->
  RRule._cache rule = None ->
  RRule.call h fuel rule c = Some (v, rule') ->
  Forall (within (query_of c)) (dates_of v).
Proof.
  intros _ Hcache.
  assert (forall q it,
             (w ← RRule._iter h rule fuel q it; Some (w, rule)) = Some (v, rule')
             -> Forall (within q) (dates_of v)) as Hiter.
  { intros q it. destruct (RRule._iter h rule fuel q it) as [w|] eqn:Hw;
      [|done].
    cbn [mbind option_bind]. intros [= <- <-].
    by apply (iterator_within h (RRule.options rule) fuel q it). }
  assert (forall q,
             RRule.cached_query h fuel rule q = Some (v, rule') ->
             Forall (within q) (dates_of v)) as Hcached.
  { intros q. unfold RRule.cached_query, RRule._cacheGet, RRule._cacheAdd.
    rewrite Hcache.
    destruct (RRule._iter h rule fuel q None) as [w|] eqn:Hw; [|done].
    cbn [mbind option_bind]. intros [= <- _].
    by apply (iterator_within h (RRule.options rule) fuel q None). }
  destruct c as [[it|]|a b inc [it|]|dt inc|dt inc];
    cbn [RRule.call query_of]; unfold RRule.all, RRule.between, RRule.before,
      RRule.after; first [apply Hcached|apply Hiter].
Qed.

(** The theorem at [after] the first occurrence of a yearly rule from 2024,
    constructed without a cache. *)
Lemma uncached_queries_return_dates_within_their_bounds_witness :
  exists rule : RRule.t,
    RRule.new 0 yearly_until_2026 true = Ok rule
    /\ RRule.call utcHost 5 rule
         (RRule.CallAfter (JSDate.UTC 2024 0 1 0 0 0 0) false)
       = Some (OneDate (Some (JSDate.UTC 2025 0 1 0 0 0 0)), rule)
    /\ Forall (within (QAfter (JSDate.UTC 2024 0 1 0 0 0 0) false))
         [JSDate.UTC 2025 0 1 0 0 0 0].
Proof.
  eexists. split; [vm_compute; reflexivity|].
  match goal with
  | |- RRule.call _ _ ?rule ?c = Some (?v, _) /\ _ =>
      assert (RRule.call utcHost 5 rule c = Some (v, rule)) as Hrun
        by (vm_compute; reflexivity);
      exact (conj Hrun
               (uncached_queries_return_dates_within_their_bounds utcHost 5
                  rule rule c v eq_refl eq_refl Hrun))
  end.
Defined.

Lemma filter_none {A} (P : A -> Prop) `{forall x, Decision (P x)} (l : list A) :
  Forall (fun x => ~ P x) l -> filter P l = [].
Proof.
  induction 1 as [|x l Hx Hl IH]; [done|]. by rewrite filter_cons_False.
Qed.

Lemma accept_method (r : IterResult.t) (date : Z) :
  IterResult.method (IterResult.accept r date).1 = IterResult.method r.
Proof.
  destruct r as [m mi ma res tot it].
  unfold IterResult.accept, IterResult.add, IterResult.with_total,
    IterResult.push.
  cbn [IterResult.method IterResult.minDate IterResult.maxDate
       IterResult._result IterResult.total IterResult.iterator].
  by repeat case_match.
Qed.

Lemma feed_method (l : list Z) :
  forall r, IterResult.method (Cache.feed r l) = IterResult.method r.
Proof.
  induction l as [|d l IH]; intros r; cbn [Cache.feed]; [done|].
  pose proof (accept_method r d) as Hm.
  destruct (IterResult.accept r d) as [r' [|]]; cbn [fst] in Hm; [|done].
  by rewrite IH.
Qed.

Lemma new_result_with (q : Query) : IterResult.new q None = result_with q [] 0.
Proof. by destruct q. Qed.

Lemma feed_between (a b : Z) (inc : bool) (l : list Z) :
  StronglySorted Z.le l ->
  forall res n,
    IterResult._result (Cache.feed (result_with (QBetween a b inc) res n) l)
    = res ++ filter (within (QBetween a b inc)) l.
Proof.
  induction 1 as [|d l Hsorted IH Hd]; intros res n; cbn [Cache.feed].
  { by rewrite app_nil_r. }
  unfold IterResult.accept, IterResult.add, IterResult.with_total,
    IterResult.push, result_with.
  cbn [IterResult.method IterResult.minDate IterResult.maxDate
       IterResult._result IterResult.total IterResult.iterator IterResult.new].
  rewrite filter_cons.
  destruct (d <? (if inc then a else a + 1)) eqn:Hearly;
    [apply Z.ltb_lt in Hearly|apply Z.ltb_ge in Hearly].
  { rewrite decide_False by (cbn [within]; destruct inc; lia). apply IH. }
  destruct ((if inc then b else b - 1) <? d) eqn:Hlate;
    [apply Z.ltb_lt in Hlate|apply Z.ltb_ge in Hlate].
  - rewrite decide_False by (cbn [within]; destruct inc; lia).
    cbn [IterResult._result].
    replace (filter (within (QBetween a b inc)) l) with (@nil Z);
      [by rewrite app_nil_r|].
    symmetry. apply filter_none, Forall_forall. intros x Hx.
    pose proof (proj1 (Forall_forall _ _) Hd x Hx).
    cbn [within]. destruct inc; lia.
  - rewrite decide_True by (cbn [within]; destruct inc; lia).
    etrans; [apply (IH (res ++ [d]) (n + 1))|by rewrite <- (assoc (++))].
Qed.

Lemma feed_before (dt : Z) (inc : bool) (l : list Z) :
  StronglySorted Z.le l ->
  forall res n,
    IterResult._result (Cache.feed (result_with (QBefore dt inc) res n) l)
    = res ++ filter (within (QBefore dt inc)) l.
Proof.
  induction 1 as [|d l Hsorted IH Hd]; intros res n; cbn [Cache.feed].
  { by rewrite app_nil_r. }
  unfold IterResult.accept, IterResult.add, IterResult.with_total,
    IterResult.push, result_with.
  cbn [IterResult.method IterResult.minDate IterResult.maxDate
       IterResult._result IterResult.total IterResult.iterator IterResult.new].
  rewrite filter_cons.
  destruct ((if inc then dt else dt - 1) <? d) eqn:Hlate;
    [apply Z.ltb_lt in Hlate|apply Z.ltb_ge in Hlate].
  - rewrite decide_False by (cbn [within]; destruct inc; lia).
    cbn [IterResult._result].
    replace (filter (within (QBefore dt inc)) l) with (@nil Z);
      [by rewrite app_nil_r|].
    symmetry. apply filter_none, Forall_forall. intros x Hx.
    pose proof (proj1 (Forall_forall _ _) Hd x Hx).
    cbn [within]. destruct inc; lia.
  - rewrite decide_True by (cbn [within]; destruct inc; lia).
    etrans; [apply (IH (res ++ [d]) (n + 1))|by rewrite <- (assoc (++))].
Qed.

Lemma feed_after (dt : Z) (inc : bool) (l : list Z) :
  forall n,
    IterResult._result (Cache.feed (result_with (QAfter dt inc) [] n) l)
    = option_list (head (filter (within (QAfter dt inc)) l)).
Proof.
  induction l as [|d l IH]; intros n; cbn [Cache.feed]; [done|].
  unfold IterResult.accept, IterResult.add, IterResult.with_total,
    IterResult.push, result_with.
  cbn [IterResult.method IterResult.minDate IterResult.maxDate
       IterResult._result IterResult.total IterResult.iterator IterResult.new].
  rewrite filter_cons.
  destruct (d <? (if inc then dt else dt + 1)) eqn:Hearly;
    [apply Z.ltb_lt in Hearly|apply Z.ltb_ge in Hearly].
  - rewrite decide_False by (cbn [within]; destruct inc; lia). apply IH.
  - by rewrite decide_True by (cbn [within]; destruct inc; lia).
Qed.

(** X6: when the occurrences of a rule come in ascending order, [between]
    returns exactly those of them that are within its bounds, in order,
    [after] the first one within its bound and [before] the last one
    within its bound ([null] when there is none). *)
Theorem queries_select_from_the_occurrences
    (h : Host) (o : ParsedOptions) (fuel : nat) (l : list Z)
    (a b dt : Z) (inc : bool) :
  rrule_iter h o fuel QAll None = Some (Dates l) ->
  StronglySorted Z.le l ->
  rrule_iter h o fuel (QBetween a b inc) None
  = Some (Dates (filter (within (QBetween a b inc)) l))
  /\ rrule_iter h o fuel (QAfter dt inc) None
     = Some (OneDate (head (filter (within (QAfter dt inc)) l)))
  /\ rrule_iter h o fuel (QBefore dt inc) None
     = Some (OneDate (last (filter (within (QBefore dt inc)) l))).
Proof.
  intros Hall Hsorted.
  rewrite !(query_is_feed_of_all h o fuel l) by done.
  unfold IterResult.getValue. rewrite !feed_method, !new_result_with.
  cbn [result_with IterResult.method].
  fold (result_with (QBetween a b inc) [] 0).
  fold (result_with (QAfter dt inc) [] 0).
  fold (result_with (QBefore dt inc) [] 0).
  rewrite feed_between, feed_before, feed_after by done.
  cbn [app]. split; [done|]. split; [|done].
  by destruct (head (filter (within (QAfter dt inc)) l)).
Qed.

(** The theorem at a yearly rule of three occurrences. *)
Lemma queries_select_from_the_occurrences_witness :
  exists p : ParsedOptions,
    parseOptions 0 yearly_until_2026 = Ok p
    /\ rrule_iter utcHost p 5
         (QBefore (JSDate.UTC 2026 0 1 0 0 0 0) false) None
       = Some (OneDate (Some (JSDate.UTC 2025 0 1 0 0 0 0))).
Proof.
  eexists. split; [vm_compute; reflexivity|].
  refine (proj2 (proj2 (queries_select_from_the_occurrences utcHost _ 5%nat
            [JSDate.UTC 2024 0 1 0 0 0 0; JSDate.UTC 2025 0 1 0 0 0 0;
             JSDate.UTC 2026 0 1 0 0 0 0]
            0 0 (JSDate.UTC 2026 0 1 0 0 0 0) false _ _))).
  - vm_compute. reflexivity.
  - repeat (constructor; [|vm_compute; repeat constructor; done]).
    constructor.
Defined.

(** * The callback of [next] *)

Lemma feed_callback (n : Z) (l : list Z) :
  forall (res : list Z) (tot : Z),
    IterResult._result
      (Cache.feed
         (IterResult.mk QAll None None res tot (Some (fun _ len => len <? n))) l)
    = res ++ take (Z.to_nat (n - Z.of_nat (length res))) l.
Proof.
  induction l as [|d l IH]; intros res tot; cbn [Cache.feed].
  { by rewrite take_nil, app_nil_r. }
  unfold IterResult.accept, IterResult.add, IterResult.with_total,
    IterResult.push.
  cbn [IterResult.method IterResult.minDate IterResult.maxDate
       IterResult._result IterResult.total IterResult.iterator].
  destruct (Z.of_nat (length res) <? n) eqn:Hlen;
    [apply Z.ltb_lt in Hlen|apply Z.ltb_ge in Hlen].
  - etrans; [apply (IH (res ++ [d]) (tot + 1))|].
    rewrite length_app. cbn [length].
    replace (Z.to_nat (n - Z.of_nat (length res)))
      with (S (Z.to_nat (n - Z.of_nat (length res + 1)))) by lia.
    cbn [take]. by rewrite <- (assoc (++)).
  - cbn [IterResult._result].
    replace (Z.to_nat (n - Z.of_nat (length res))) with 0%nat by lia.
    by rewrite app_nil_r.
Qed.

(** X7: [next(count)] returns the first [count] of the dates [all()]
    returns, in the order [all()] returns them, and all of them when there
    are fewer; it leaves the rule and its cache as they are. *)
Theorem next_takes_the_first_dates_of_all
    (h : Host) (fuel : nat) (rule : RRule.t) (count : Z) (l : list Z) :
  RRule._iter h rule fuel QAll None = Some (Dates l) ->
  RepeatAdapter.next h fuel rule count
  = Some (Dates (take (Z.to_nat count) l), rule).
Proof.
  unfold RepeatAdapter.next, RRule.all, RRule._iter. intros Hall.
  rewrite (query_is_feed_of_all h _ fuel l) by done.
  cbn [mbind option_bind]. do 2 f_equal.
  unfold IterResult.getValue. rewrite feed_method. cbn [IterResult.new IterResult.method].
  rewrite feed_callback. cbn [app length]. f_equal. f_equal. lia.
Qed.

(** The theorem at a yearly rule of three occurrences, asked for two. *)
Lemma next_takes_the_first_dates_of_all_witness :
  exists rule : RRule.t,
    RRule.new 0 yearly_until_2026 true = Ok rule
    /\ RepeatAdapter.next utcHost 5 rule 2
       = Some (Dates [JSDate.UTC 2024 0 1 0 0 0 0; JSDate.UTC 2025 0 1 0 0 0 0],
               rule).
Proof.
  eexists. split; [vm_compute; reflexivity|].
  refine (next_takes_the_first_dates_of_all utcHost 5%nat _ 2
            [JSDate.UTC 2024 0 1 0 0 0 0; JSDate.UTC 2025 0 1 0 0 0 0;
             JSDate.UTC 2026 0 1 0 0 0 0] _).
  vm_compute. reflexivity.
Defined.

(** * Asking again *)

Lemma same_args_refl (q : Query) : Cache.same_args q q = true.
Proof.
  destruct q; cbn [Cache.same_args]; [done|..];
    rewrite ?bool_decide_eq_true_2 by done; done.
Qed.

Lemma find_app_None {A} (f : A -> bool) (l1 l2 : list A) :
  List.find f l1 = None -> List.find f (l1 ++ l2) = List.find f l2.
Proof.
  induction l1 as [|x l1 IH]; cbn [List.find app]; [done|].
  destruct (f x); [done|apply IH].
Qed.

Lemma find_app_Some {A} (f : A -> bool) (l1 l2 : list A) (x : A) :
  List.find f l1 = Some x -> List.find f (l1 ++ l2) = Some x.
Proof.
  induction l1 as [|y l1 IH]; cbn [List.find app]; [done|].
  destruct (f y); [done|apply IH].
Qed.

Lemma rrule_iter_all_value (h : Host) (o : ParsedOptions) (fuel : nat)
    (iterator : option (Z -> Z -> bool)) (v : Value) :
  rrule_iter h o fuel QAll iterator = Some v -> exists l, v = Dates l.
Proof.
  unfold rrule_iter, emitResult. intros Hrun.
  destruct (iter h accept_result o fuel (IterResult.new QAll iterator))
    as [r|] eqn:Hiter; [|done].
  cbn [fmap option_fmap option_map] in Hrun. simplify_eq.
  assert (IterResult.method r = QAll) as Hm.
  { apply (iter_invariant h o accept_result
             (fun r => IterResult.method r = QAll)) with (3 := Hiter); [|done].
    intros s date s' ok _ Hs ->%accept_result_fst. by rewrite accept_method. }
  unfold IterResult.getValue. rewrite Hm. by eexists.
Qed.

Lemma all_cacheAdd (c : Cache.t) (q : Query) (v : Value) :
  q <> QAll -> Cache.all (Cache._cacheAdd c q v) = Cache.all c.
Proof. by destruct q. Qed.

Lemma lookup_cacheAdd (c : Cache.t) (q : Query) (v : Value) :
  q <> QAll ->
  Cache.lookup (Cache._cacheAdd c q v) q
  = Some (default v (Cache.lookup c q)).
Proof.
  intros Hq. destruct q as [|a b inc|dt inc|dt inc]; [done|..];
    cbn [Cache.lookup Cache._cacheAdd Cache.items Cache.between Cache.before
         Cache.after];
    match goal with
    | |- context [List.find ?f (?l ++ _)] =>
        destruct (List.find f l) as [item|] eqn:Hfind;
        [by rewrite (find_app_Some _ _ _ _ Hfind)
        |rewrite (find_app_None _ _ _ Hfind)]
    end;
    cbn [List.find Cache.args]; by rewrite same_args_refl.
Qed.

(** What the cache has answered once, it answers again. *)
Lemma cacheGet_again (c c' : Cache.t) (q : Query) (v : Value) :
  Cache._cacheGet c q = (Some v, c') ->
  exists c'' : Cache.t, Cache._cacheGet c' q = (Some v, c'').
Proof.
  unfold Cache._cacheGet at 1.
  destruct (Cache.all c) as [dates|] eqn:Hall.
  - destruct (Cache.not_cached (Cache.lookup c q)) eqn:Hmiss.
    + intros [= <- <-].
      assert (q <> QAll) as Hq.
      { intros ->. cbn [Cache.lookup] in Hmiss. by rewrite Hall in Hmiss. }
      unfold Cache._cacheGet.
      rewrite all_cacheAdd, Hall, lookup_cacheAdd by done.
      destruct (Cache.lookup c q) as [[l|[d|]]|]; try done; cbn [default].
      * by eexists.
      * case_match; by eexists.
    + intros [= Hv <-]. unfold Cache._cacheGet.
      rewrite Hall, Hmiss, Hv. by eexists.
  - intros [= Hv <-]. unfold Cache._cacheGet. rewrite Hall, Hv. by eexists.
Qed.

(** What the iterator has answered and the cache has taken, the cache
    answers. *)
Lemma cacheGet_added (c : Cache.t) (q : Query) (v : Value) :
  Cache.all c = None -> Cache.lookup c q = None ->
  (q = QAll -> exists l, v = Dates l) ->
  exists c' : Cache.t,
    Cache._cacheGet (Cache._cacheAdd c q v) q = (Some v, c').
Proof.
  intros Hall Hmiss Hv. unfold Cache._cacheGet.
  destruct (decide (q = QAll)) as [->|Hq].
  - destruct (Hv eq_refl) as [l ->].
    cbn [Cache._cacheAdd Cache.all Cache.lookup fmap option_fmap option_map
         Cache.not_cached].
    by eexists.
  - rewrite all_cacheAdd, Hall, lookup_cacheAdd, Hmiss by done. by eexists.
Qed.

(** X8: a query a rule with a cache has answered is answered again with
    the same value, and without a turn of the iterator (no fuel is
    needed). *)
Theorem a_query_asked_again_is_not_iterated
    (h : Host) (fuel : nat) (rule rule' : RRule.t) (c : Cache.t) (q : Query)
    (v : Value) :
  RRule._cache rule = Some c ->
  RRule.cached_query h fuel rule q = Some (v, rule') ->
  exists rule'' : RRule.t, RRule.cached_query h 0 rule' q = Some (v, rule'').
Proof.
  intros Hcache. unfold RRule.cached_query, RRule._cacheGet.
  rewrite Hcache.
  destruct (Cache._cacheGet c q) as [[w|] c1] eqn:Hget.
  - intros [= <- <-]. cbn [RRule._cache].
    destruct (cacheGet_again c c1 q w Hget) as [c2 ->]. by eexists.
  - unfold RRule._iter, RRule._cacheAdd. cbn [RRule.options RRule._cache
      RRule.origOptions].
    destruct (rrule_iter h (RRule.options rule) fuel q None) as [w|] eqn:Hrun;
      [|done].
    cbn [mbind option_bind]. intros [= <- <-]. cbn [RRule._cache].
    assert (Cache.all c = None /\ Cache.lookup c q = None /\ c1 = c)
      as (Hall & Hmiss & ->).
    { revert Hget. unfold Cache._cacheGet.
      destruct (Cache.all c);
        [by destruct (Cache.lookup c q) as [[?|[?|]]|]; cbn [Cache.not_cached]|].
      by intros [= -> ->]. }
    destruct (cacheGet_added c q w Hall Hmiss) as [c2 ->]; [|by eexists].
    intros ->. by apply rrule_iter_all_value in Hrun.
Qed.

(** The theorem at [after] the first occurrence of a yearly rule from 2024:
    the first call needs the iterator, the second one does not. *)
Lemma a_query_asked_again_is_not_iterated_witness :
  exists rule rule' : RRule.t,
    RRule.new 0 yearly_until_2026 false = Ok rule
    /\ RRule.cached_query utcHost 0 rule
         (QAfter (JSDate.UTC 2024 0 1 0 0 0 0) false) = None
    /\ RRule.cached_query utcHost 5 rule
         (QAfter (JSDate.UTC 2024 0 1 0 0 0 0) false)
       = Some (OneDate (Some (JSDate.UTC 2025 0 1 0 0 0 0)), rule')
    /\ exists rule'' : RRule.t,
         RRule.cached_query utcHost 0 rule'
           (QAfter (JSDate.UTC 2024 0 1 0 0 0 0) false)
         = Some (OneDate (Some (JSDate.UTC 2025 0 1 0 0 0 0)), rule'').
Proof.
  eexists _, _. split; [vm_compute; reflexivity|].
  split; [vm_compute; reflexivity|].
  split; [vm_compute; reflexivity|].
  match goal with
  | |- exists _, RRule.cached_query _ _ ?rule' ?q = Some (?v, _) =>
      refine (a_query_asked_again_is_not_iterated utcHost 5%nat
                (RRule.mk (Some Cache.new) (RRule.origOptions rule')
                   (RRule.options rule')) rule'
                Cache.new q v eq_refl _)
  end.
  vm_compute. reflexivity.
Defined.

(** * The clock and the date it stands for *)

Lemma time_fields (t : Z) :
  JSDate.TimeWithinDay t
  = JSDate.MakeTime (JSDate.getUTCHours t) (JSDate.getUTCMinutes t)
      (JSDate.getUTCSeconds t) (JSDate.getUTCMilliseconds t).
Proof.
  unfold JSDate.TimeWithinDay, JSDate.MakeTime, JSDate.getUTCHours,
    JSDate.getUTCMinutes, JSDate.getUTCSeconds, JSDate.getUTCMilliseconds,
    JSDate.msPerDay, JSDate.msPerHour, JSDate.msPerMinute, JSDate.msPerSecond.
  Z.div_mod_to_equations. lia.
Qed.

Lemma day_fields (t : Z) :
  JSDate.Day t
  = JSDate.MakeDay (JSDate.getUTCFullYear t) (JSDate.getUTCMonth t)
      (JSDate.getUTCDate t).
Proof.
  unfold JSDate.MakeDay. pose proof (getUTCMonth_range t) as Hm.
  rewrite Z.div_small, Z.mod_small, Z.add_0_r by lia.
  unfold JSDate.getUTCDate, JSDate.DayWithinYear. lia.
Qed.

Lemma date_fields (t : Z) :
  t = JSDate.MakeDate
        (JSDate.MakeDay (JSDate.getUTCFullYear t) (JSDate.getUTCMonth t)
           (JSDate.getUTCDate t))
        (JSDate.MakeTime (JSDate.getUTCHours t) (JSDate.getUTCMinutes t)
           (JSDate.getUTCSeconds t) (JSDate.getUTCMilliseconds t)).
Proof.
  rewrite <- day_fields, <- time_fields.
  unfold JSDate.MakeDate, JSDate.Day, JSDate.TimeWithinDay, JSDate.msPerDay.
  Z.div_mod_to_equations. lia.
Qed.

Lemma year_from_epoch (t : Z) : 0 <= t -> 1970 <= JSDate.getUTCFullYear t.
Proof.
  intros Ht. unfold JSDate.getUTCFullYear.
  pose proof (YearFromDay_spec (JSDate.Day t)) as [_ Hnext].
  assert (0 <= JSDate.Day t) as Hday
    by (unfold JSDate.Day, JSDate.msPerDay; Z.div_mod_to_equations; lia).
  destruct (Z.lt_ge_cases (JSDate.YearFromDay (JSDate.Day t)) 1970) as [Hlt|];
    [|done].
  assert (JSDate.DayFromYear (JSDate.YearFromDay (JSDate.Day t) + 1)
          <= JSDate.DayFromYear 1970) as Hle.
  { destruct (Z.eq_dec (JSDate.YearFromDay (JSDate.Day t) + 1) 1970) as [->|];
      [done|].
    pose proof (DayFromYear_lt (JSDate.YearFromDay (JSDate.Day t) + 1) 1970
                  ltac:(lia)). lia. }
  change (JSDate.DayFromYear 1970) with 0 in Hle. lia.
Qed.

(** X9: a date from the epoch on, read into a clock with [fromDate], is the
    date the clock gives back with [getTime]. *)
Theorem getTime_of_fromDate (t : Z) :
  0 <= t -> DateTime.getTime (DateTime.fromDate t) = t.
Proof.
  intros Ht. pose proof (year_from_epoch t Ht) as Hy.
  unfold DateTime.getTime, DateTime.fromDate, JSDate.UTC.
  cbn [DateTime.year DateTime.month DateTime.day DateTime.hour DateTime.minute
       DateTime.second DateTime.millisecond].
  replace ((0 <=? JSDate.getUTCFullYear t) && (JSDate.getUTCFullYear t <=? 99))
    with false by (symmetry; apply andb_false_iff; right; apply Z.leb_gt; lia).
  replace (JSDate.getUTCMonth t + 1 - 1) with (JSDate.getUTCMonth t) by lia.
  rewrite Z.rem_mod_nonneg by lia.
  symmetry. apply date_fields.
Qed.

Lemma getTime_of_fromDate_witness :
  DateTime.getTime (DateTime.fromDate 1704067200123) = 1704067200123.
Proof. apply getTime_of_fromDate. lia. Defined.

Lemma time_read_back (day hh mi ss ms : Z) :
  0 <= hh < 24 -> 0 <= mi < 60 -> 0 <= ss < 60 -> 0 <= ms < 1000 ->
  let t := JSDate.MakeDate day (JSDate.MakeTime hh mi ss ms) in
  0 <= JSDate.MakeTime hh mi ss ms < JSDate.msPerDay
  /\ JSDate.getUTCHours t = hh /\ JSDate.getUTCMinutes t = mi
  /\ JSDate.getUTCSeconds t = ss /\ JSDate.getUTCMilliseconds t = ms.
Proof.
  intros Hh Hm Hs Hms t. subst t.
  unfold JSDate.MakeDate, JSDate.MakeTime, JSDate.getUTCHours,
    JSDate.getUTCMinutes, JSDate.getUTCSeconds, JSDate.getUTCMilliseconds,
    JSDate.msPerDay, JSDate.msPerHour, JSDate.msPerMinute, JSDate.msPerSecond.
  split; [lia|]. repeat split.
  - rewrite <- (Z.div_unique _ 3600000 (day * 24 + hh)
                  (mi * 60000 + ss * 1000 + ms)) by lia.
    symmetry. apply (Z.mod_unique _ _ day); lia.
  - rewrite <- (Z.div_unique _ 60000 ((day * 24 + hh) * 60 + mi)
                  (ss * 1000 + ms)) by lia.
    symmetry. apply (Z.mod_unique _ _ (day * 24 + hh)); lia.
  - rewrite <- (Z.div_unique _ 1000 (((day * 24 + hh) * 60 + mi) * 60 + ss) ms)
      by lia.
    symmetry. apply (Z.mod_unique _ _ ((day * 24 + hh) * 60 + mi)); lia.
  - symmetry.
    apply (Z.mod_unique _ _ ((((day * 24 + hh) * 60 + mi) * 60 + ss))); lia.
Qed.

(** X10: the date of a valid clock from 1970 on, read into a clock, is that
    clock. *)
Theorem fromDate_of_getTime (d : DateTime.t) :
  valid_clock d -> DateTime.fromDate (DateTime.getTime d) = d.
Proof.
  destruct d as [y m dd hh mi ss ms].
  intros (Hy & Hm & Hd & Hh & Hmi & Hs & Hms).
  cbn [DateTime.year DateTime.month DateTime.day DateTime.hour DateTime.minute
       DateTime.second DateTime.millisecond] in *.
  rewrite daysinmonth_length in Hd by lia.
  unfold DateTime.getTime, JSDate.UTC.
  cbn [DateTime.year DateTime.month DateTime.day DateTime.hour DateTime.minute
       DateTime.second DateTime.millisecond].
  replace ((0 <=? y) && (y <=? 99)) with false
    by (symmetry; apply andb_false_iff; right; apply Z.leb_gt; lia).
  destruct (time_read_back (JSDate.MakeDay y (m - 1) dd) hh mi ss ms)
    as (Htime & Hhh & Hmm & Hss & Hmsec); [done..|].
  destruct (MakeDay_read_back y (m - 1) dd (JSDate.MakeTime hh mi ss ms))
    as (Hyear & Hmonth & Hdate); [lia|done|done|].
  set (t := JSDate.MakeDate (JSDate.MakeDay y (m - 1) dd)
              (JSDate.MakeTime hh mi ss ms)) in *.
  assert (0 <= t) as Ht.
  { unfold t, JSDate.MakeDate, JSDate.MakeDay, JSDate.msPerDay in *.
    assert (0 <= JSDate.DayFromYear (y + (m - 1) / 12)).
    { replace ((m - 1) / 12) with 0 by (Z.div_mod_to_equations; lia).
      rewrite Z.add_0_r.
      destruct (Z.eq_dec y 1970) as [->|]; [done|].
      pose proof (DayFromYear_lt 1970 y ltac:(lia)) as H.
      change (JSDate.DayFromYear 1970) with 0 in H. lia. }
    assert (0 <= JSDate.monthStart ((m - 1) mod 12)
                   (JSDate.InLeapYear (y + (m - 1) / 12))).
    { pose proof (InLeapYear_range (y + (m - 1) / 12)).
      unfold JSDate.monthStart. repeat case_match; lia. }
    lia. }
  unfold DateTime.fromDate.
  rewrite Hyear, Hmonth, Hdate, Hhh, Hmm, Hss, Z.rem_mod_nonneg by lia.
  change (t mod 1000) with (JSDate.getUTCMilliseconds t).
  rewrite Hmsec. f_equal. lia.
Qed.

Lemma fromDate_of_getTime_witness :
  DateTime.fromDate (DateTime.getTime (DateTime.mk 2024 2 29 23 59 59 999))
  = DateTime.mk 2024 2 29 23 59 59 999.
Proof.
  apply fromDate_of_getTime. unfold valid_clock.
  cbn [DateTime.year DateTime.month DateTime.day DateTime.hour DateTime.minute
       DateTime.second DateTime.millisecond].
  assert (daysinmonth 2024 2 = 29) as -> by (vm_compute; reflexivity). lia.
Defined.

(** * Weekdays *)

Lemma getWeekday_Day (t : Z) :
  dateutil.getWeekday t = (JSDate.Day t + 3) mod 7.
Proof.
  unfold dateutil.getWeekday, JSDate.getUTCDay.
  pose proof (Z.mod_pos_bound (JSDate.Day t + 4) 7 ltac:(lia)) as Hm.
  assert ((JSDate.Day t + 3) mod 7 = ((JSDate.Day t + 4) mod 7 + 6) mod 7) as ->.
  { rewrite Zplus_mod_idemp_l.
    replace (JSDate.Day t + 4 + 6) with (JSDate.Day t + 3 + 1 * 7) by lia.
    by rewrite Z.mod_add. }
  assert (exists k : nat, (JSDate.Day t + 4) mod 7 = Z.of_nat k /\ (k < 7)%nat)
    as (k & -> & Hk).
  { exists (Z.to_nat ((JSDate.Day t + 4) mod 7)). lia. }
  do 7 (destruct k as [|k]; [vm_compute; reflexivity|]). lia.
Qed.

(** X11: the weekday [dateutil.getWeekday] gives a date counts from Monday
    (0) to Sunday (6): it is the day number since the epoch plus 3 (the
    epoch was a Thursday) modulo 7, it moves on by one with every day, and
    [Weekday.getJsWeekday] turns it back into the weekday the date itself
    reports. *)
Theorem weekday_counts_from_monday (t : Z) (n : option Z) :
  dateutil.getWeekday t = (JSDate.Day t + 3) mod 7
  /\ dateutil.getWeekday (t + dateutil.ONE_DAY)
     = (dateutil.getWeekday t + 1) mod 7
  /\ Weekday.getJsWeekday (Weekday.mk (dateutil.getWeekday t) n) = JSDate.getUTCDay t.
Proof.
  split; [apply getWeekday_Day|]. split.
  - rewrite !getWeekday_Day.
    assert (JSDate.Day (t + dateutil.ONE_DAY) = JSDate.Day t + 1) as ->.
    { unfold JSDate.Day, dateutil.ONE_DAY, JSDate.msPerDay.
      change (1000 * 60 * 60 * 24) with (1 * 86400000).
      by rewrite Z.div_add. }
    rewrite Zplus_mod_idemp_l. f_equal. lia.
  - rewrite getWeekday_Day. unfold Weekday.getJsWeekday, JSDate.getUTCDay.
    cbn [Weekday.weekday].
    pose proof (Z.mod_pos_bound (JSDate.Day t + 3) 7 ltac:(lia)) as Hm.
    assert ((JSDate.Day t + 4) mod 7 = ((JSDate.Day t + 3) mod 7 + 1) mod 7)
      as -> by (rewrite Zplus_mod_idemp_l; f_equal; lia).
    destruct ((JSDate.Day t + 3) mod 7 =? 6) eqn:H6;
      [apply Z.eqb_eq in H6|apply Z.eqb_neq in H6].
    + by rewrite H6.
    + symmetry. apply Z.mod_small. lia.
Qed.

(** * Months *)

(** X12: [addMonths] with a number of months that is not negative moves a
    clock whose month is from 1 to 12 forward by exactly that many months,
    to a month from 1 to 12 again, and leaves the rest of the clock as it
    is. *)
Theorem addMonths_counts_months (months : Z) (d : DateTime.t) :
  0 <= months -> 1 <= DateTime.month d <= 12 ->
  let d' := DateTime.addMonths months d in
  1 <= DateTime.month d' <= 12
  /\ DateTime.year d' * 12 + DateTime.month d'
     = DateTime.year d * 12 + DateTime.month d + months
  /\ DateTime.with_month (DateTime.with_year d' 0) 0
     = DateTime.with_month (DateTime.with_year d 0) 0.
Proof.
  intros Hmonths Hm d'. subst d'. destruct d as [y m dd hh mi ss ms].
  unfold DateTime.addMonths. clock_fields.
  destruct (12 <? m + months) eqn:Hover;
    [apply Z.ltb_lt in Hover|apply Z.ltb_ge in Hover]; clock_fields.
  2:{ split; [lia|]. split; [lia|done]. }
  rewrite pymod_pos by lia.
  pose proof (Z.div_mod (m + months) 12 ltac:(lia)) as Hdiv.
  pose proof (Z.mod_pos_bound (m + months) 12 ltac:(lia)) as Hmod.
  destruct ((m + months) mod 12 =? 0) eqn:H0;
    [apply Z.eqb_eq in H0|apply Z.eqb_neq in H0]; clock_fields.
  - split; [lia|]. split; [lia|done].
  - split; [lia|]. split; [lia|done].
Qed.

Lemma addMonths_counts_months_witness :
  DateTime.year (DateTime.addMonths 14 (DateTime.mk 2024 11 30 0 0 0 0)) * 12
  + DateTime.month (DateTime.addMonths 14 (DateTime.mk 2024 11 30 0 0 0 0))
  = 2024 * 12 + 11 + 14.
Proof.
  apply (addMonths_counts_months 14 (DateTime.mk 2024 11 30 0 0 0 0));
    cbn [DateTime.month]; lia.
Defined.

(** * Ordinals *)

Lemma round_div_near (n e d : Z) :
  0 < d -> - d < 2 * e < d -> dateutil.round_div (n * d + e) d = n.
Proof.
  intros Hd He. unfold dateutil.round_div.
  symmetry. apply (Z.div_unique _ _ n (2 * e + d)); lia.
Qed.

(** X13: on a host whose zone offsets differ by less than twelve hours,
    [toOrdinal] gives back the ordinal [fromOrdinal] was given, and
    [fromOrdinal] gives back a date at midnight UTC that [toOrdinal] was
    given: the ordinal of a day is the same in every such zone. *)
Theorem ordinals_round_trip (h : Host) (n : Z) :
  (forall a b : Z,
      Z.abs (getTimezoneOffset h a - getTimezoneOffset h b) < 720) ->
  dateutil.toOrdinal h (dateutil.fromOrdinal n) = n
  /\ dateutil.fromOrdinal (dateutil.toOrdinal h (n * dateutil.ONE_DAY))
     = n * dateutil.ONE_DAY.
Proof.
  intros Hzone.
  assert (forall k, dateutil.toOrdinal h (k * dateutil.ONE_DAY) = k) as Hk.
  { intros k. unfold dateutil.toOrdinal, dateutil.daysBetween, dateutil.tzOffset.
    change dateutil.ORDINAL_BASE with 0.
    pose proof (Hzone 0 (k * dateutil.ONE_DAY)) as Hoff.
    set (a := getTimezoneOffset h 0) in *.
    set (b := getTimezoneOffset h (k * dateutil.ONE_DAY)) in *.
    replace (k * dateutil.ONE_DAY - b * 60 * 1000 - (0 - a * 60 * 1000))
      with (k * dateutil.ONE_DAY + (a - b) * 60000) by lia.
    apply round_div_near; unfold dateutil.ONE_DAY; lia. }
  split.
  - unfold dateutil.fromOrdinal. change dateutil.ORDINAL_BASE with 0.
    rewrite Z.add_0_l. apply Hk.
  - rewrite Hk. unfold dateutil.fromOrdinal. by change dateutil.ORDINAL_BASE with 0.
Qed.

Lemma ordinals_round_trip_witness :
  dateutil.toOrdinal utcHost (dateutil.fromOrdinal 19723) = 19723.
Proof.
  apply (ordinals_round_trip utcHost 19723). intros a b. cbn. lia.
Defined.

(** * The masks of a year and the calendar *)

Lemma year_length_InLeapYear (year : Z) :
  year_length year = 365 + JSDate.InLeapYear year.
Proof.
  unfold year_length, JSDate.InLeapYear. rewrite isLeapYear_DaysInYear.
  by destruct (JSDate.DaysInYear year =? 366).
Qed.

Lemma day_of_year_Day (year i : Z) :
  100 <= year -> JSDate.Day (day_of_year year i) = JSDate.DayFromYear year + i.
Proof.
  intros Hy.
  assert (day_of_year year i = (JSDate.DayFromYear year + i) * 86400000) as ->.
  { unfold day_of_year, JSDate.UTC.
    replace ((0 <=? year) && (year <=? 99)) with false
      by (symmetry; apply andb_false_iff; right; apply Z.leb_gt; lia).
    unfold JSDate.MakeDate, JSDate.MakeDay, JSDate.MakeTime, dateutil.ONE_DAY,
      JSDate.msPerDay, JSDate.msPerHour, JSDate.msPerMinute, JSDate.msPerSecond.
    change (0 / 12) with 0. change (0 mod 12) with 0.
    rewrite !Z.add_0_r. cbn [JSDate.monthStart]. lia. }
  unfold JSDate.Day, JSDate.msPerDay. by rewrite Z.div_mul.
Qed.

Lemma day_of_year_fields (year i : Z) :
  100 <= year -> 0 <= i < year_length year ->
  JSDate.getUTCFullYear (day_of_year year i) = year
  /\ JSDate.DayWithinYear (day_of_year year i) = i.
Proof.
  intros Hy Hi. rewrite year_length_InLeapYear in Hi.
  assert (JSDate.getUTCFullYear (day_of_year year i) = year) as Hyear.
  { unfold JSDate.getUTCFullYear. apply YearFromDay_unique.
    rewrite day_of_year_Day, DayFromYear_succ, DaysInYear_InLeapYear by done.
    lia. }
  split; [done|]. unfold JSDate.DayWithinYear.
  rewrite Hyear, day_of_year_Day by done. lia.
Qed.

Lemma masks_365 :
  forallb (masks_agree 0 M365MASK MDAY365MASK NMDAY365MASK M365RANGE)
    (helpers.range 0 365) = true.
Proof. vm_compute. reflexivity. Qed.

Lemma masks_366 :
  forallb (masks_agree 1 M366MASK MDAY366MASK NMDAY366MASK M366RANGE)
    (helpers.range 0 366) = true.
Proof. vm_compute. reflexivity. Qed.

Lemma wdaymask_mod :
  forallb (fun k => bool_decide (helpers.get WDAYMASK k = Some (k mod 7)))
    (helpers.range 0 385) = true.
Proof. vm_compute. reflexivity. Qed.

Lemma in_range (a b i : Z) : a <= i < b -> i ∈ helpers.range a b.
Proof.
  intros Hi. unfold helpers.range. apply list_elem_of_fmap.
  exists (Z.to_nat (i - a)). split; [lia|]. apply elem_of_seq. lia.
Qed.

(** X14: the masks [baseYearMasks] gives a year (from 100 on) agree with the
    calendar: for every day [i] of the year, [mmask[i]] is its month,
    [mdaymask[i]] its day of the month, [nmdaymask[i]] its day counted back
    from the end of the month, [wdaymask[i]] its weekday, and [mrange]
    holds the first day of its month and of the next. *)
Theorem year_masks_agree_with_the_calendar (year i : Z) :
  100 <= year -> 0 <= i < year_length year ->
  let '(mmask, mdaymask, nmdaymask, wdaymask, mrange) := baseYearMasks year in
  let t := day_of_year year i in
  let month := JSDate.getUTCMonth t in
  helpers.get mmask i = Some (month + 1)
  /\ helpers.get mdaymask i = Some (JSDate.getUTCDate t)
  /\ helpers.get nmdaymask i
     = Some (JSDate.getUTCDate t - daysinmonth year (month + 1) - 1)
  /\ helpers.get wdaymask i = Some (dateutil.getWeekday t)
  /\ (exists first next : Z,
        helpers.get mrange month = Some first
        /\ helpers.get mrange (month + 1) = Some next
        /\ first <= i < next /\ next - first = daysinmonth year (month + 1)).
Proof.
  intros Hy Hi.
  destruct (day_of_year_fields year i Hy Hi) as [Hyear Hdiy].
  pose proof (year_length_InLeapYear year) as Hlen.
  pose proof (InLeapYear_range year) as Hleap.
  pose proof (getUTCMonth_range (day_of_year year i)) as Hmonth.
  assert (daysinmonth year (JSDate.getUTCMonth (day_of_year year i) + 1)
          = JSDate.monthStart (JSDate.getUTCMonth (day_of_year year i) + 1)
              (JSDate.InLeapYear year)
            - JSDate.monthStart (JSDate.getUTCMonth (day_of_year year i))
                (JSDate.InLeapYear year)) as Hdim.
  { rewrite daysinmonth_length by lia. unfold month_length.
    by replace (JSDate.getUTCMonth (day_of_year year i) + 1 - 1)
      with (JSDate.getUTCMonth (day_of_year year i)) by lia. }
  assert (dateutil.getWeekday (day_of_year year i)
          = (dateutil.getWeekday (JSDate.UTC year 0 1 0 0 0 0) + i) mod 7)
    as Hwd.
  { rewrite !getWeekday_Day.
    change (JSDate.UTC year 0 1 0 0 0 0) with (JSDate.UTC year 0 1 0 0 0 0).
    replace (JSDate.UTC year 0 1 0 0 0 0) with (day_of_year year 0)
      by (unfold day_of_year; lia).
    rewrite !day_of_year_Day by done. rewrite Zplus_mod_idemp_l. f_equal. lia. }
  pose proof (getWeekday_range (JSDate.UTC year 0 1 0 0 0 0)) as Hwday.
  unfold baseYearMasks. rewrite Hlen.
  assert (JSDate.getUTCDate (day_of_year year i)
          = i - JSDate.monthStart (JSDate.getUTCMonth (day_of_year year i))
                  (JSDate.InLeapYear year) + 1) as Hdate
    by (unfold JSDate.getUTCDate; by rewrite Hyear, Hdiy).
  assert (JSDate.getUTCMonth (day_of_year year i)
          = JSDate.MonthFromDayInYear i (JSDate.InLeapYear year)) as Hm
    by (unfold JSDate.getUTCMonth; by rewrite Hyear, Hdiy).
  assert (helpers.get
            (helpers.slice WDAYMASK
               (dateutil.getWeekday (JSDate.UTC year 0 1 0 0 0 0))
               (Z.of_nat (length WDAYMASK))) i
          = Some (dateutil.getWeekday (day_of_year year i))) as Hwmask.
  { rewrite Hwd.
    set (wday := dateutil.getWeekday (JSDate.UTC year 0 1 0 0 0 0)) in *.
    clearbody wday.
    pose proof (proj1 (forallb_forall _ _) wdaymask_mod (wday + i)) as Hk.
    specialize (Hk (proj1 (list_elem_of_In _ _)
                      (in_range 0 385 (wday + i) ltac:(lia)))).
    apply bool_decide_eq_true in Hk. rewrite <- Hk.
    unfold helpers.get, helpers.slice.
    change (Z.of_nat (length WDAYMASK)) with 385.
    rewrite !(proj2 (Z.ltb_ge _ 0)) by lia.
    rewrite Z.min_id, Z.min_l by lia.
    rewrite lookup_take_lt by lia. rewrite lookup_drop. f_equal. lia. }
  rewrite Hdim, Hdate, Hm in *. clear Hdim Hdate Hm Hwd Hyear Hdiy.
  set (leap := JSDate.InLeapYear year) in *. clearbody leap.
  assert (leap = 0 \/ leap = 1) as [-> | ->] by lia; cbn [Z.add Z.eqb Pos.eqb].
  - pose proof (proj1 (forallb_forall _ _) masks_365 i
                  (proj1 (list_elem_of_In _ _) (in_range 0 365 i ltac:(lia))))
      as Hmasks.
    unfold masks_agree in Hmasks.
    repeat (apply andb_true_iff in Hmasks as [Hmasks ?]).
    repeat match goal with
           | H : bool_decide _ = true |- _ => apply bool_decide_eq_true in H
           end.
    split; [done|]. split; [done|]. split; [|split; [done|]].
    + etrans; [eassumption|]. f_equal. lia.
    + eexists _, _. split; [done|]. split; [done|]. split; [|done].
      clear -Hi Hlen. unfold JSDate.MonthFromDayInYear.
      repeat match goal with
             | |- context [?a <? ?b] => destruct (Z.ltb_spec a b)
             end;
        repeat match goal with
        | |- context [JSDate.monthStart ?m ?l] =>
            let v := eval vm_compute in (JSDate.monthStart m l) in
            change (JSDate.monthStart m l) with v
        end; lia.
  - pose proof (proj1 (forallb_forall _ _) masks_366 i
                  (proj1 (list_elem_of_In _ _) (in_range 0 366 i ltac:(lia))))
      as Hmasks.
    unfold masks_agree in Hmasks.
    repeat (apply andb_true_iff in Hmasks as [Hmasks ?]).
    repeat match goal with
           | H : bool_decide _ = true |- _ => apply bool_decide_eq_true in H
           end.
    split; [done|]. split; [done|]. split; [|split; [done|]].
    + etrans; [eassumption|]. f_equal. lia.
    + eexists _, _. split; [done|]. split; [done|]. split; [|done].
      clear -Hi Hlen. unfold JSDate.MonthFromDayInYear.
      repeat match goal with
             | |- context [?a <? ?b] => destruct (Z.ltb_spec a b)
             end;
        repeat match goal with
        | |- context [JSDate.monthStart ?m ?l] =>
            let v := eval vm_compute in (JSDate.monthStart m l) in
            change (JSDate.monthStart m l) with v
        end; lia.
Qed.

(** The theorem at the last day of February 2024, day 59 of a leap year. *)
Lemma year_masks_agree_with_the_calendar_witness :
  let '(mmask, mdaymask, nmdaymask, wdaymask, mrange) := baseYearMasks 2024 in
  helpers.get mmask 59 = Some 2
  /\ helpers.get mdaymask 59 = Some 29
  /\ helpers.get nmdaymask 59 = Some (-1)
  /\ helpers.get wdaymask 59 = Some 3.
Proof.
  pose proof (year_masks_agree_with_the_calendar 2024 59) as H.
  destruct (baseYearMasks 2024) as [[[[mmask mdaymask] nmdaymask] wdaymask] mrange].
  destruct H as (H1 & H2 & H3 & H4 & _); [lia|vm_compute; done|].
  repeat split; [exact H1|exact H2|exact H3|exact H4].
Defined.

(** * What a set returns *)

Lemma evalExdate_grows (h : Host) (fuel : nat) (_exrule : list RRule.t) :
  forall (hash : gset Z) (after before : Z) (rules : list RRule.t)
         (hash' : gset Z),
    evalExdate h fuel _exrule hash after before = Some (rules, hash') ->
    hash ⊆ hash'.
Proof.
  induction _exrule as [|rule rest IH]; intros hash a b rules hash';
    cbn [evalExdate].
  - by intros [= _ <-].
  - destruct (RRule.between h fuel rule a b true None) as [[v rule']|]; [|done].
    cbn [mbind option_bind].
    destruct (evalExdate h fuel rest _ a b) as [[rest' hash1]|] eqn:Hrest;
      [|done].
    cbn [mbind option_bind]. intros [= _ <-].
    apply IH in Hrest. set_solver.
Qed.

Lemma set_state_grows (q : Query) (excluded : gset Z) (from : Z -> Prop)
    (r : IterResult.t) (hash hash' : gset Z) (rules rules' : list RRule.t) :
  hash ⊆ hash' ->
  set_state q excluded from
    {| sink_result := r; _exdateHash := hash; sink_exrule := rules |} ->
  set_state q excluded from
    {| sink_result := r; _exdateHash := hash'; sink_exrule := rules' |}.
Proof.
  intros Hsub (Hq & Hnd & Hex & Hres).
  cbn [sink_result _exdateHash] in *.
  split; [done|]. split; [done|]. split; [by etrans|].
  eapply Forall_impl; [exact Hres|]. intros d (Hd & ? & ?).
  split; [by apply Hsub|done].
Qed.

Lemma set_state_accept (q : Query) (excluded : gset Z) (from : Z -> Prop)
    (r : IterResult.t) (hash : gset Z) (rules : list RRule.t) (date : Z) :
  date ∉ hash -> from date ->
  set_state q excluded from
    {| sink_result := r; _exdateHash := hash; sink_exrule := rules |} ->
  set_state q excluded from
    {| sink_result := (IterResult.accept r date).1;
       _exdateHash := hash ∪ {[date]}; sink_exrule := rules |}.
Proof.
  intros Hnew Hfrom (Hq & Hnd & Hex & Hres).
  cbn [sink_result _exdateHash] in *.
  split; [by apply accept_query_state|].
  assert (date ∉ IterResult._result r) as Hfresh.
  { intros Hin. by destruct (proj1 (Forall_forall _ _) Hres date Hin). }
  cbn [sink_result _exdateHash].
  destruct (accept_result_grows r date) as [-> | ->].
  - split; [done|]. split; [by apply union_subseteq_l'|].
    eapply Forall_impl; [exact Hres|]. intros d (Hd & ? & ?).
    split; [by apply elem_of_union_l|done].
  - split.
    { apply NoDup_app. split; [done|]. split; [|apply NoDup_singleton].
      intros x Hx ->%list_elem_of_singleton. done. }
    split; [by apply union_subseteq_l'|]. apply Forall_app. split.
    + eapply Forall_impl; [exact Hres|]. intros d (Hd & ? & ?).
      split; [by apply elem_of_union_l|done].
    + constructor; [|done].
      split; [by apply elem_of_union_r, elem_of_singleton|].
      split; [|done]. intros Hin. by apply Hnew, Hex.
Qed.

Lemma accept_set_keeps (h : Host) (q : Query) (excluded : gset Z)
    (from : Z -> Prop) (fuel : nat) (s s' : SetSink) (date : Z) (ok : bool) :
  from date -> set_state q excluded from s ->
  accept_set h fuel s date = Some (s', ok) ->
  set_state q excluded from s'.
Proof.
  intros Hfrom Hs. unfold accept_set. destruct s as [r hash rules].
  cbn [sink_result _exdateHash sink_exrule].
  case_bool_decide; [by intros [= <- _]|].
  destruct (evalExdate h fuel rules hash (date - 1) (date + 1))
    as [[rules' hash']|] eqn:Heval; [|done].
  cbn [mbind option_bind]. apply evalExdate_grows in Heval.
  case_bool_decide.
  - intros [= <- _]. by apply (set_state_grows _ _ _ _ hash _ rules).
  - destruct (IterResult.accept r date) as [r' ok'] eqn:Hacc.
    intros [= <- _].
    replace r' with (IterResult.accept r date).1 by (by rewrite Hacc).
    apply set_state_accept; [done|done|].
    by apply (set_state_grows _ _ _ _ hash _ rules).
Qed.

Lemma accept_set_between_keeps (q : Query) (excluded : gset Z)
    (from : Z -> Prop) (s s' : SetSink) (date : Z) (ok : bool) :
  from date -> set_state q excluded from s ->
  accept_set_between s date = Some (s', ok) ->
  set_state q excluded from s'.
Proof.
  intros Hfrom Hs. unfold accept_set_between. destruct s as [r hash rules].
  cbn [sink_result _exdateHash sink_exrule].
  case_bool_decide; [by intros [= <- _]|].
  destruct (IterResult.accept r date) as [r' ok'] eqn:Hacc.
  intros [= <- _].
  replace r' with (IterResult.accept r date).1 by (by rewrite Hacc).
  by apply set_state_accept.
Qed.

Section SetInvariant.

Context (h : Host) (q : Query) (excluded : gset Z) (from : Z -> Prop).
Context (accept : SetSink -> Z -> option (SetSink * bool)).
Hypothesis accept_keeps :
  forall s date s' ok,
    from date -> set_state q excluded from s ->
    accept s date = Some (s', ok) -> set_state q excluded from s'.

Lemma accept_rdates_keeps (tzid : option string) (_rdate : list Z) :
  forall s s' : SetSink,
    Forall (fun date => from (DateWithZone.rezonedDate h date tzid)) _rdate ->
    set_state q excluded from s ->
    accept_rdates h accept tzid _rdate s = Some s' ->
    set_state q excluded from s'.
Proof.
  induction _rdate as [|date rest IH]; intros s s' Hfrom Hs;
    cbn [accept_rdates]; [by intros [= <-]|].
  apply Forall_cons in Hfrom as [Hdate Hrest].
  destruct (accept s _) as [[s1 ok]|] eqn:Hacc; [|done].
  cbn [mbind option_bind].
  pose proof (accept_keeps _ _ _ _ Hdate Hs Hacc) as Hs1.
  destruct ok; [by apply IH|by intros [= <-]].
Qed.

Lemma iter_rules_keeps (fuel : nat) (_rrule : list RRule.t) :
  forall s s' : SetSink,
    Forall (fun rule => forall d, occurrence_time h (RRule.options rule) d
                                  -> from d) _rrule ->
    set_state q excluded from s ->
    iter_rules h accept fuel _rrule s = Some s' ->
    set_state q excluded from s'.
Proof.
  induction _rrule as [|rule rest IH]; intros s s' Hfrom Hs;
    cbn [iter_rules]; [by intros [= <-]|].
  apply Forall_cons in Hfrom as [Hrule Hrest].
  destruct (iter h accept (RRule.options rule) fuel s) as [s1|] eqn:Hiter;
    [|done].
  cbn [mbind option_bind]. apply IH; [done|].
  apply (iter_invariant h (RRule.options rule) accept
           (set_state q excluded from)) with (3 := Hiter); [|done].
  intros s0 date s0' ok Hocc Hs0 Hacc.
  by apply (accept_keeps s0 date s0' ok); [apply Hrule|..].
Qed.

End SetInvariant.

Lemma new_query_state (q : Query) (iterator : option (Z -> Z -> bool)) :
  query_state q (IterResult.new q iterator).
Proof. by destruct q as [|a b inc|dt inc|dt inc]. Qed.

Lemma sorted_part (l : list Z) (v : Value) :
  StronglySorted Z.lt l ->
  v = Dates l \/ v = OneDate (last l) \/ v = OneDate (head l) ->
  StronglySorted Z.lt (dates_of v) /\ dates_of v ⊆ l.
Proof.
  intros Hl [-> | [-> | ->]]; cbn [dates_of]; [done| |].
  - destruct (last l) as [d|] eqn:Hlast;
      [|by split; [constructor|apply list_subseteq_nil]].
    split; [by repeat constructor|].
    apply last_Some in Hlast as [l' ->].
    intros x ->%list_elem_of_singleton.
    apply elem_of_app. right. by apply list_elem_of_singleton.
  - destruct l as [|d l]; cbn [head]; [by split; [constructor|]|].
    split; [by repeat constructor|].
    intros x ->%list_elem_of_singleton. by left.
Qed.

(** What [iterSet] returns, in terms of the dates as [rezonedDate] moves
    them. *)
Lemma iterSet_returns_set_times
    (h : Host) (fuel : nat) (s : RRuleSet.t) (q : Query)
    (iterator : option (Z -> Z -> bool)) (v : Value) (rules : list RRule.t) :
  RRuleSet._iter h fuel s (IterResult.new q iterator) = Some (v, rules) ->
  StronglySorted Z.lt (dates_of v)
  /\ Forall (fun d => d ∉ excluded_dates h s) (dates_of v)
  /\ Forall (within q) (dates_of v)
  /\ Forall (set_time h s) (dates_of v).
Proof.
  unfold RRuleSet._iter, iterSet. intros Hrun.
  set (excluded := list_to_set (map _ (RRuleSet._exdate s)) : gset Z) in Hrun.
  assert (forall d, d ∈ excluded <-> d ∈ excluded_dates h s) as Hexcluded.
  { intros d. unfold excluded, excluded_dates. by rewrite elem_of_list_to_set. }
  assert (IterResult.method (IterResult.new q iterator) = q) as Hmethod
    by (by destruct q).
  rewrite !Hmethod in Hrun.
  assert (exists (accept : SetSink -> Z -> option (SetSink * bool))
                 (s0 s1 s2 : SetSink),
             (forall t date t' ok,
                 set_time h s date -> set_state q excluded (set_time h s) t ->
                 accept t date = Some (t', ok) ->
                 set_state q excluded (set_time h s) t')
             /\ set_state q excluded (set_time h s) s0
             /\ accept_rdates h accept (RRuleSet.tzid s) (RRuleSet._rdate s) s0
                = Some s1
             /\ iter_rules h accept fuel (RRuleSet._rrule s) s1 = Some s2
             /\ (let res := dateutil.sort Some
                              (IterResult._result (sink_result s2)) in
                 v = Dates res \/ v = OneDate (last res)
                 \/ v = OneDate (head res)))
    as (accept & s0 & s1 & s2 & Haccept & Hs0 & Hrdates & Hrules & Hv).
  { assert (forall hash rules0,
               excluded ⊆ hash ->
               set_state q excluded (set_time h s)
                 {| sink_result := IterResult.new q iterator;
                    _exdateHash := hash; sink_exrule := rules0 |}) as Hstart.
    { intros hash rules0 Hsub. split; [apply new_query_state|].
      replace (IterResult._result _) with ([] : list Z) by (by destruct q).
      cbn [sink_result _exdateHash]. split; [constructor|]. by split. }
    destruct q as [|a b inc|dt inc|dt inc]; cbn [mbind option_bind] in Hrun.
    2: { destruct (evalExdate h fuel _ excluded a b) as [[rules0 hash]|]
           eqn:Heval; [|done].
         cbn [mbind option_bind] in Hrun. apply evalExdate_grows in Heval.
         destruct (accept_rdates _ _ _ _ _) as [s1|] eqn:Hrd; [|done].
         cbn [mbind option_bind] in Hrun.
         destruct (iter_rules _ _ _ _ _) as [s2|] eqn:Hit; [|done].
         cbn [mbind option_bind] in Hrun. injection Hrun as <- _.
         exists accept_set_between,
           {| sink_result := IterResult.new (QBetween a b inc) iterator;
              _exdateHash := hash; sink_exrule := rules0 |}, s1, s2.
         split; [intros t date t' ok; apply accept_set_between_keeps|].
         split; [by apply Hstart|]. split; [exact Hrd|].
         split; [exact Hit|]. by left. }
    all: destruct (accept_rdates _ _ _ _ _) as [s1|] eqn:Hrd; [|done];
      cbn [mbind option_bind] in Hrun;
      destruct (iter_rules _ _ _ _ _) as [s2|] eqn:Hit; [|done];
      cbn [mbind option_bind] in Hrun; injection Hrun as <- _;
      eexists (accept_set h fuel), _, s1, s2;
      (split; [intros t date t' ok; apply accept_set_keeps|]);
      (split; [by apply Hstart|]); (split; [exact Hrd|]);
      (split; [exact Hit|]); by auto. }
  assert (set_state q excluded (set_time h s) s2) as (Hq & Hnd & _ & Hres).
  { eapply (iter_rules_keeps h q excluded _ accept Haccept);
      [|eapply (accept_rdates_keeps h q excluded _ accept Haccept)|];
      [| |exact Hs0|exact Hrdates|exact Hrules].
    - apply Forall_forall. intros rule Hrule d Hd. right. by exists rule.
    - apply Forall_forall. intros date Hdate. left.
      apply list_elem_of_fmap. by exists date. }
  destruct Hq as (_ & _ & _ & Hwithin).
  set (result := IterResult._result (sink_result s2)) in *.
  cbn zeta in Hv.
  pose proof (sort_perm Some result) as Hperm.
  assert (StronglySorted Z.lt (dateutil.sort Some result)) as Hsorted.
  { apply strictly_sorted; [|by rewrite Hperm].
    apply (proj1 (sorted_dates _)). apply sort_sorted. apply Forall_forall. by eexists. }
  destruct (sorted_part _ v Hsorted Hv) as [Hv1 Hv2].
  split; [done|].
  assert (forall d, d ∈ dates_of v -> d ∈ result) as Hin.
  { intros d Hd%Hv2. by rewrite Hperm in Hd. }
  repeat split; apply Forall_forall; intros d Hd%Hin.
  - rewrite <- Hexcluded.
    by destruct (proj1 (Forall_forall _ _) Hres d Hd) as (_ & ? & _).
  - by apply (proj1 (Forall_forall _ _) Hwithin).
  - by destruct (proj1 (Forall_forall _ _) Hres d Hd) as (_ & _ & ?).
Qed.

(** X15: [_iter] of a set on a new [IterResult], which is what [all],
    [between], [before] and [after] run on a set constructed without a cache
    ([new RRuleSet(true)]), and what [all] and [between] with a callback run
    on any set. With valid dates in the set and every zone UTC or absent
    (the zone of the set and those of its rules and exclusion rules), the
    dates returned are in strictly ascending order, so none comes twice;
    none of them is a date of [_exdate]; each lies within the bounds of the
    query; and each is a date of [_rdate] or lies, for one of the rules of
    [_rrule], from its [dtstart] on and not after its [until]. *)
Theorem set_returns_sorted_single_dates_not_excluded
    (h : Host) (fuel : nat) (s : RRuleSet.t) (q : Query)
    (iterator : option (Z -> Z -> bool)) (v : Value) (rules : list RRule.t) :
  DateWithZone.isUTC (RRuleSet.tzid s) = true ->
  Forall (fun rule => DateWithZone.isUTC (tzid (RRule.options rule)) = true)
    (RRuleSet._rrule s ++ RRuleSet._exrule s) ->
  RRuleSet._iter h fuel s (IterResult.new q iterator) = Some (v, rules) ->
  StronglySorted Z.lt (dates_of v)
  /\ Forall (fun d => d ∉ RRuleSet._exdate s) (dates_of v)
  /\ Forall (within q) (dates_of v)
  /\ Forall (fun d =>
               d ∈ RRuleSet._rdate s
               \/ exists rule : RRule.t,
                    rule ∈ RRuleSet._rrule s
                    /\ in_span (RRule.options rule) d)
       (dates_of v).
Proof.
  intros Hzone Hzones Hrun.
  apply Forall_app in Hzones as [Hzones _].
  destruct (iterSet_returns_set_times h fuel s q iterator v rules Hrun)
    as (Hsorted & Hexcluded & Hwithin & Htimes).
  assert (forall dates : list Z,
             (fun date => DateWithZone.rezonedDate h date (RRuleSet.tzid s))
               <$> dates = dates) as Hsame.
  { intros dates. unfold DateWithZone.rezonedDate. rewrite Hzone.
    apply list_fmap_id. }
  unfold excluded_dates in Hexcluded. rewrite Hsame in Hexcluded.
  repeat split; [done..|].
  apply Forall_forall. intros d Hd.
  destruct (proj1 (Forall_forall _ _) Htimes d Hd)
    as [Hrdate|(rule & Hrule & Htime)].
  - left. by rewrite Hsame in Hrdate.
  - right. exists rule. split; [done|].
    apply (occurrence_time_utc h); [|done].
    by apply (proj1 (Forall_forall _ _) Hzones).
Qed.

(** The theorem at [all()] on a set of a yearly rule from 2024 until June
    2026, two dates and an excluded date. *)
Lemma set_returns_sorted_single_dates_not_excluded_witness :
  exists rule : RRule.t,
    RRule.new 0 yearly_until_2026 true = Ok rule
    /\ RRuleSet._iter utcHost 5 (dates_and_an_exclusion rule)
         (IterResult.new QAll None)
       = Some (Dates [JSDate.UTC 2024 0 1 0 0 0 0; JSDate.UTC 2024 6 1 0 0 0 0;
                      JSDate.UTC 2026 0 1 0 0 0 0], [])
    /\ StronglySorted Z.lt
         [JSDate.UTC 2024 0 1 0 0 0 0; JSDate.UTC 2024 6 1 0 0 0 0;
          JSDate.UTC 2026 0 1 0 0 0 0]
    /\ Forall (fun d => d ∉ [JSDate.UTC 2025 0 1 0 0 0 0])
         [JSDate.UTC 2024 0 1 0 0 0 0; JSDate.UTC 2024 6 1 0 0 0 0;
          JSDate.UTC 2026 0 1 0 0 0 0].
Proof.
  eexists. split; [vm_compute; reflexivity|].
  match goal with
  | |- RRuleSet._iter _ _ ?s _ = Some (?v, ?r) /\ _ =>
      assert (RRuleSet._iter utcHost 5 s (IterResult.new QAll None)
              = Some (v, r)) as Hrun by (vm_compute; reflexivity);
      split; [exact Hrun|];
      assert (DateWithZone.isUTC (RRuleSet.tzid s) = true) as Hzone
        by (vm_compute; reflexivity);
      assert (Forall (fun rule =>
                        DateWithZone.isUTC (tzid (RRule.options rule)) = true)
                (RRuleSet._rrule s ++ RRuleSet._exrule s)) as Hzones
        by (repeat constructor);
      pose proof (set_returns_sorted_single_dates_not_excluded utcHost 5 s
                    QAll None v r Hzone Hzones Hrun)
        as (Hsorted & Hexcluded & _)
  end.
  split; [exact Hsorted|exact Hexcluded].
Defined.

(** * What [parseOptions] refuses, and what it returns *)

Lemma bysetpos_ok_spec (v : Z) : bysetpos_ok v = false <-> bad_setpos v.
Proof. unfold bysetpos_ok, bad_setpos. lia. Qed.

Lemma forallb_false_Exists {A} (f : A -> bool) (l : list A) :
  forallb f l = false <-> Exists (fun x => f x = false) l.
Proof.
  induction l as [|x l IH]; cbn [forallb].
  - split; [done|]. by intros ?%Exists_nil.
  - rewrite Exists_cons, <- IH. destruct (f x); cbn [andb].
    + split; [by right|]. by intros [?|?].
    + split; [by left|done].
Qed.

(** X16: on options whose [freq] is absent or one of the seven frequencies
    (any other [freq] is refused with [Invalid frequency], an error these
    options never meet), [parseOptions] throws the error of
    [initializeOptions], with the keys that are no option or hold an
    invalid date, when there is such a key; without such a key it throws
    the error of [bysetpos] when a position is 0 or outside -366 to 366;
    and when it returns, no key is invalid, every position is within -366
    to 366 and not 0, and [bysetpos] holds the positions asked for, as an
    array. *)
Theorem parseOptions_refuses_invalid_keys_and_positions
    (now : Z) (o : Options.t) :
  (invalid_keys o <> [] ->
   parseOptions now o = Throw (InvalidOptions (invalid_keys o)))
  /\ (invalid_keys o = [] -> Exists bad_setpos (setpos_of o) ->
      parseOptions now o = Throw InvalidBySetPos)
  /\ (forall p : ParsedOptions,
        parseOptions now o = Ok p ->
        invalid_keys o = []
        /\ Forall (fun v => v <> 0 /\ -366 <= v <= 366) (setpos_of o)
        /\ bysetpos p = toArray <$> Options.bysetpos o).
Proof.
  unfold parseOptions, initializeOptions.
  destruct (invalid_keys o) as [|key keys] eqn:Hkeys.
  2: { split; [done|]. split; [done|]. by intros p. }
  fold (setpos_of o). split; [done|].
  destruct (forallb bysetpos_ok (setpos_of o)) eqn:Hpos; cbn [negb].
  - assert (Forall (fun v => v <> 0 /\ -366 <= v <= 366) (setpos_of o))
      as Hgood.
    { apply Forall_forall. intros v Hv.
      pose proof (proj1 (forallb_forall _ _) Hpos v
                    (proj1 (list_elem_of_In _ _) Hv)) as Hok.
      unfold bysetpos_ok in Hok. lia. }
    split.
    + intros _ Hbad. exfalso. apply Exists_exists in Hbad as (v & Hv & Hbad).
      destruct (proj1 (Forall_forall _ _) Hgood v Hv) as [Hv0 Hv1].
      unfold bad_setpos in Hbad. lia.
    + repeat match goal with
             | |- context [let '(_, _) := ?x in _] => destruct x
             end.
      intros p [= <-]. by cbn [bysetpos].
  - split; [done|]. by intros p.
Qed.

Lemma parseOptions_refuses_invalid_keys_and_positions_witness :
  parseOptions 0 daily_with_position_0 = Throw InvalidBySetPos.
Proof.
  apply (proj1 (proj2 (parseOptions_refuses_invalid_keys_and_positions 0
                         daily_with_position_0))).
  - reflexivity.
  - apply Exists_cons_tl, Exists_cons_hd. by left.
Defined.

(** What [split_byweekday] keeps true of the two arrays it fills. *)
Lemma split_byweekday_ordinals (fr : Frequency) (l : list ByWeekday) :
  forall (byweekday : list Z) (bynweekday : list (Z * Z)),
    Forall (fun wn => wn.2 <> 0) bynweekday ->
    (bynweekday <> [] -> freq_num fr <= freq_num MONTHLY) ->
    Forall (fun wn => wn.2 <> 0) (split_byweekday fr l byweekday bynweekday).2
    /\ ((split_byweekday fr l byweekday bynweekday).2 <> []
        -> freq_num fr <= freq_num MONTHLY).
Proof.
  induction l as [|[n|str|w] l IH]; intros wd nwd Hn Hfreq;
    cbn [split_byweekday]; [done|by apply IH|by apply IH|].
  destruct (negb (Weekday.has_n w)) eqn:Hhas; cbn [orb]; [by apply IH|].
  destruct (freq_num MONTHLY <? freq_num fr) eqn:Hfr; [by apply IH|].
  apply Z.ltb_ge in Hfr. apply IH; [|done].
  apply Forall_app. split; [done|]. constructor; [|done]. cbn [snd].
  unfold Weekday.has_n in Hhas. destruct (Weekday.n w) as [k|]; [|done].
  cbn [default]. unfold id. destruct (k =? 0) eqn:Hk; [done|].
  by apply Z.eqb_neq in Hk.
Qed.

(** X17: the options [parseOptions] returns are well formed. The days of
    [bymonthday] are not negative and those of [bynmonthday] are negative;
    [byweekday] and [bynweekday] are [null] rather than empty; a weekday
    of [bynweekday] has an ordinal that is not 0, and [bynweekday] is set
    only with a frequency of a month or a year. *)
Theorem parseOptions_returns_well_formed_options
    (now : Z) (o : Options.t) (p : ParsedOptions) :
  parseOptions now o = Ok p ->
  Forall (fun v => 0 <= v) (bymonthday p)
  /\ Forall (fun v => v < 0) (bynmonthday p)
  /\ byweekday p <> Some []
  /\ bynweekday p <> Some []
  /\ Forall (fun wn => wn.2 <> 0) (default [] (bynweekday p))
  /\ (is_Some (bynweekday p) -> freq_num (freq p) <= freq_num MONTHLY).
Proof.
  unfold parseOptions, initializeOptions.
  destruct (invalid_keys o); [|done].
  destruct (negb _); [done|].
  set (fr := if helpers.isPresent (Options.byeaster o) then YEARLY
             else default YEARLY (Options.freq o)).
  set (start := default (now - now mod 1000) (date_time (Options.dtstart o))).
  set (no_day_rule := negb _).
  set (bymonthday0 := if no_day_rule && _ then _ else Options.bymonthday o).
  set (byweekday0 := if no_day_rule && bool_decide (fr = WEEKLY) then _
                     else Options.byweekday o).
  destruct (match bymonthday0 with
            | None => ([], [])
            | Some (Many l) =>
                (List.filter (fun v => 0 <? v) l, List.filter (fun v => v <? 0) l)
            | Some (One v) => if v <? 0 then ([], [v]) else ([v], [])
            end) as [md nmd] eqn:Hmd.
  assert (Forall (fun v => 0 <= v) md /\ Forall (fun v => v < 0) nmd)
    as [Hmd1 Hmd2].
  { destruct bymonthday0 as [[v|l]|].
    - destruct (v <? 0) eqn:Hv; injection Hmd as <- <-;
        [apply Z.ltb_lt in Hv|apply Z.ltb_ge in Hv];
        by repeat constructor.
    - injection Hmd as <- <-.
      split; apply Forall_forall; intros v Hv%list_elem_of_In;
        apply filter_In in Hv as [_ Hv]; lia.
    - by injection Hmd as <- <-. }
  destruct (match byweekday0 with
            | None => (None, None)
            | Some (One (WNum n)) => (Some [n], None)
            | Some (One (WStr s)) =>
                (Some [Weekday.weekday (Weekday.fromStr s)], None)
            | Some (One (WObj w)) =>
                if negb (Weekday.has_n w) || (freq_num MONTHLY <? freq_num fr)
                then (Some [Weekday.weekday w], None)
                else (None, Some [(Weekday.weekday w, default 0 (Weekday.n w))])
            | Some (Many l) =>
                let '(wd, nwd) := split_byweekday fr l [] [] in
                (nonempty_or_null wd, nonempty_or_null nwd)
            end) as [wd nwd] eqn:Hwd.
  assert (wd <> Some [] /\ nwd <> Some []
          /\ Forall (fun wn => wn.2 <> 0) (default [] nwd)
          /\ (is_Some nwd -> freq_num fr <= freq_num MONTHLY))
    as (Hwd1 & Hwd2 & Hwd3 & Hwd4).
  { destruct byweekday0 as [[[n|str|w]|l]|].
    - injection Hwd as <- <-. repeat split; try done; by intros [? ?].
    - injection Hwd as <- <-. repeat split; try done; by intros [? ?].
    - destruct (negb (Weekday.has_n w)) eqn:Hhas; cbn [orb] in Hwd.
      { injection Hwd as <- <-. repeat split; try done; by intros [? ?]. }
      destruct (freq_num MONTHLY <? freq_num fr) eqn:Hfr.
      { injection Hwd as <- <-. repeat split; try done; by intros [? ?]. }
      injection Hwd as <- <-. apply Z.ltb_ge in Hfr.
      repeat split; try done. constructor; [|done]. cbn [snd].
      unfold Weekday.has_n in Hhas. destruct (Weekday.n w) as [k|]; [|done].
      cbn [default]. unfold id. destruct (k =? 0) eqn:Hk; [done|].
      by apply Z.eqb_neq in Hk.
    - pose proof (split_byweekday_ordinals fr l [] [] (Forall_nil_2 _)
                    ltac:(done)) as [Hn Hfreq].
      destruct (split_byweekday fr l [] []) as [wd0 nwd0].
      injection Hwd as <- <-. cbn [snd] in Hn, Hfreq.
      split; [by destruct wd0|]. split; [by destruct nwd0|].
      split; [by destruct nwd0|].
      intros [? Hsome]. apply Hfreq. by destruct nwd0.
    - injection Hwd as <- <-. repeat split; try done; by intros [? ?]. }
  intros Hp. injection Hp; clear Hp; intros <-.
  cbn [bymonthday bynmonthday byweekday bynweekday freq]. done.
Qed.

(** The theorem at a monthly rule on the 31st. *)
Lemma parseOptions_returns_well_formed_options_witness :
  exists p : ParsedOptions,
    parseOptions 0 monthly_on_the_31st = Ok p
    /\ bymonthday p = [31]
    /\ Forall (fun v => 0 <= v) (bymonthday p)
    /\ Forall (fun v => v < 0) (bynmonthday p)
    /\ byweekday p <> Some []
    /\ bynweekday p <> Some []
    /\ Forall (fun wn => wn.2 <> 0) (default [] (bynweekday p))
    /\ (is_Some (bynweekday p) -> freq_num (freq p) <= freq_num MONTHLY).
Proof.
  eexists. split; [vm_compute; reflexivity|]. split; [reflexivity|].
  apply (parseOptions_returns_well_formed_options 0 monthly_on_the_31st).
  vm_compute. reflexivity.
Defined.

(** * Easter *)

Lemma easter_years : forallb easter_ok (helpers.range 100 10000) = true.
Proof. vm_compute. reflexivity. Qed.

Lemma UTC_day (y m d : Z) :
  100 <= y ->
  JSDate.UTC y m d 0 0 0 0 = JSDate.MakeDay y m d * JSDate.msPerDay.
Proof.
  intros Hy. unfold JSDate.UTC.
  replace ((0 <=? y) && (y <=? 99)) with false
    by (symmetry; apply andb_false_iff; right; apply Z.leb_gt; lia).
  unfold JSDate.MakeDate, JSDate.MakeTime. lia.
Qed.

(** The day of the year [easter] returns: the days from January 1 to the
    month and day it computed, moved by the offset. *)
Lemma easter_day_number (y offset : Z) :
  100 <= y ->
  easter y offset
  = [JSDate.MakeDay y ((easter_month_day y).1 - 1)
       ((easter_month_day y).2 + offset)
     - JSDate.MakeDay y 0 1].
Proof.
  intros Hy. unfold easter, easter_month_day. cbn [fst snd]. f_equal.
  rewrite !UTC_day by done. unfold ceil_div.
  change (1000 * 60 * 60 * 24) with JSDate.msPerDay.
  rewrite <- Z.mul_sub_distr_r, <- Z.mul_opp_l, Z.div_mul by done. lia.
Qed.

(** X18: for a year from 100 to 9999, [easter(y, offset)] returns one day
    of the year, [offset] days after Easter Sunday: without the offset the
    day is a Sunday from March 22 to April 25. *)
Theorem easter_is_a_sunday_in_spring (y offset : Z) :
  100 <= y <= 9999 ->
  exists n : Z,
    easter y offset = [n + offset]
    /\ dateutil.getWeekday (day_of_year y n) = 6
    /\ (JSDate.getUTCMonth (day_of_year y n) = 2
        /\ 22 <= JSDate.getUTCDate (day_of_year y n)
        \/ JSDate.getUTCMonth (day_of_year y n) = 3
           /\ JSDate.getUTCDate (day_of_year y n) <= 25).
Proof.
  intros Hy. rewrite easter_day_number by lia.
  pose proof (proj1 (forallb_forall _ _) easter_years y
                (proj1 (list_elem_of_In _ _) (in_range 100 10000 y ltac:(lia))))
    as Hok.
  unfold easter_ok in Hok.
  destruct (easter_month_day y) as [month day]. cbn [fst snd].
  apply andb_true_iff in Hok as [Hrange Hsunday%Z.eqb_eq].
  pose proof (InLeapYear_range y) as Hleap.
  set (n := JSDate.monthStart (month - 1) (JSDate.InLeapYear y) + day - 1).
  assert (month = 3 /\ 22 <= day <= 31 \/ month = 4 /\ 1 <= day <= 25)
    as Hdate by lia.
  assert (0 <= month - 1 <= 11) as Hmonth by lia.
  assert (1 <= day <= month_length (JSDate.InLeapYear y) (month - 1)) as Hday.
  { unfold month_length.
    destruct Hdate as [[-> ?] | [-> ?]];
      [change (3 - 1) with 2|change (4 - 1) with 3];
      change (2 + 1) with 3; change (3 + 1) with 4;
      cbn [JSDate.monthStart]; lia. }
  assert (forall d, JSDate.MakeDay y (month - 1) d
                    = JSDate.DayFromYear y
                      + JSDate.monthStart (month - 1) (JSDate.InLeapYear y)
                      + d - 1) as Hmake.
  { intros d. unfold JSDate.MakeDay.
    rewrite Z.div_small, Z.mod_small, Z.add_0_r by lia. done. }
  assert (day_of_year y n
          = JSDate.MakeDate (JSDate.MakeDay y (month - 1) day) 0) as Ht.
  { unfold day_of_year. rewrite UTC_day, !Hmake by lia.
    unfold JSDate.MakeDate, dateutil.ONE_DAY, JSDate.msPerDay, n.
    change (0 / 12) with 0. change (0 mod 12) with 0.
    unfold JSDate.MakeDay. change (0 / 12) with 0. change (0 mod 12) with 0.
    cbn [JSDate.monthStart]. rewrite !Z.add_0_r. lia. }
  exists n. split; [|split].
  - rewrite !Hmake. f_equal. unfold n, JSDate.MakeDay.
    change (0 / 12) with 0. change (0 mod 12) with 0.
    cbn [JSDate.monthStart]. rewrite !Z.add_0_r. lia.
  - rewrite getWeekday_Day, day_of_year_Day by lia. rewrite <- Hsunday.
    f_equal. unfold n. lia.
  - rewrite Ht.
    destruct (MakeDay_read_back y (month - 1) day 0 Hmonth Hday ltac:(done))
      as (_ & -> & ->).
    lia.
Qed.

(** The theorem at 2024, whose Easter was March 31, day 90 of the year,
    and at the offset of Easter Monday. *)
Lemma easter_is_a_sunday_in_spring_witness :
  exists n : Z,
    easter 2024 1 = [n + 1]
    /\ dateutil.getWeekday (day_of_year 2024 n) = 6
    /\ (JSDate.getUTCMonth (day_of_year 2024 n) = 2
        /\ 22 <= JSDate.getUTCDate (day_of_year 2024 n)
        \/ JSDate.getUTCMonth (day_of_year 2024 n) = 3
           /\ JSDate.getUTCDate (day_of_year 2024 n) <= 25).
Proof. apply (easter_is_a_sunday_in_spring 2024 1). lia. Defined.

(** * The lines [parseTaskListConfig] reads *)

Section Lines.

Import State.

Lemma split_from_length (sep : N) (s : list N) :
  forall part : list N,
    length (JSString.split_from sep part s)
    = S (length (filter (fun c => c = sep) s)).
Proof.
  induction s as [|c s IH]; intros part; cbn [JSString.split_from]; [done|].
  rewrite filter_cons. destruct (N.eqb_spec c sep) as [->|Hc].
  - rewrite decide_True by done. cbn [length]. by rewrite IH.
  - rewrite decide_False by done. by rewrite IH.
Qed.

Lemma parts_of_length (line : JSString.t) :
  length (parts_of line) = S (colons line).
Proof.
  unfold parts_of, JSString.split, colons.
  by rewrite length_fmap, split_from_length.
Qed.

(** X19: a line is read as a key and a value only when it holds exactly one
    colon. A line that is not empty and holds no colon, or more than one
    (a time such as 12:30 in the value is enough), is reported with
    [console.error] and changes nothing in the configuration. *)
Theorem line_without_one_colon_is_reported
    (state : TaskListConfig) (errors : list JSString.t) (line : JSString.t) :
  line <> [] -> colons line <> 1%nat ->
  parse_line (state, errors) line = Some (state, errors ++ [invalid_line line]).
Proof.
  intros Hline Hcolons. unfold parse_line.
  rewrite bool_decide_eq_false_2 by done.
  rewrite bool_decide_eq_false_2; [done|].
  rewrite parts_of_length. lia.
Qed.

(** The theorem at the line [select-day: 12:30]. *)
Lemma line_without_one_colon_is_reported_witness :
  parse_line (TaskListConfigDefaults, []) (JSString.lit "select-day: 12:30")
  = Some (TaskListConfigDefaults,
          [invalid_line (JSString.lit "select-day: 12:30")]).
Proof.
  apply (line_without_one_colon_is_reported TaskListConfigDefaults []
           (JSString.lit "select-day: 12:30")); by vm_compute.
Defined.

(** ** [trim] *)

Lemma trimStart_suffix (s : list N) :
  exists front : list N,
    s = front ++ JSString.trimStart s
    /\ Forall (fun c => JSString.trimmed c = true) front
    /\ (forall c rest, JSString.trimStart s = c :: rest
                       -> JSString.trimmed c = false).
Proof.
  induction s as [|c s (front & Hs & Hfront & Hhead)]; cbn [JSString.trimStart].
  - by exists [].
  - destruct (JSString.trimmed c) eqn:Hc.
    + exists (c :: front). split; [by rewrite Hs at 1|].
      split; [by constructor|done].
    + exists []. split; [done|]. split; [done|]. by intros ? ? [= <- _].
Qed.

Lemma trimEnd_prefix (s : list N) :
  exists back : list N,
    s = JSString.trimEnd s ++ back
    /\ Forall (fun c => JSString.trimmed c = true) back
    /\ (forall c front, JSString.trimEnd s = front ++ [c]
                        -> JSString.trimmed c = false).
Proof.
  unfold JSString.trimEnd.
  destruct (trimStart_suffix (reverse s)) as (front & Hs & Hfront & Hhead).
  exists (reverse front). split; [|split].
  - rewrite <- reverse_app, <- Hs. by rewrite reverse_involutive.
  - by apply Forall_reverse.
  - intros c init Hlast. apply (Hhead c (reverse init)).
    apply (f_equal reverse) in Hlast.
    by rewrite reverse_involutive, reverse_app in Hlast.
Qed.

Lemma trim_stripped (s : list N) : stripped (JSString.trim s).
Proof.
  unfold JSString.trim.
  destruct (trimStart_suffix s) as (front & _ & _ & Hhead).
  destruct (trimEnd_prefix (JSString.trimStart s)) as (back & Hs & Hback & Hlast).
  split; [|done]. intros c rest Hc.
  rewrite Hc in Hs. destruct (JSString.trimStart s) as [|c' rest'] eqn:Hstart.
  - by destruct rest.
  - injection Hs as Hc' _. subst c'. by apply (Hhead c rest').
Qed.

Lemma trim_sublist (s : list N) : JSString.trim s ⊆ s.
Proof.
  unfold JSString.trim.
  destruct (trimStart_suffix s) as (front & Hs & _).
  destruct (trimEnd_prefix (JSString.trimStart s)) as (back & Hs' & _).
  intros c Hc. rewrite Hs, Hs'. rewrite !elem_of_app. auto.
Qed.

(** ** [split] *)

Lemma split_from_free (sep : N) (s : list N) :
  forall part : list N,
    sep ∉ part ->
    Forall (fun p : list N => sep ∉ p) (JSString.split_from sep part s).
Proof.
  induction s as [|c s IH]; intros part Hpart; cbn [JSString.split_from].
  - by repeat constructor.
  - destruct (N.eqb_spec c sep) as [->|Hc].
    + constructor; [done|]. apply IH. by intros ?%elem_of_nil.
    + apply IH. rewrite elem_of_app, list_elem_of_singleton. by intros [?|?].
Qed.

Lemma split_from_not_empty (sep : N) (s : list N) :
  forall part : list N, JSString.split_from sep part s <> [].
Proof.
  induction s as [|c s IH]; intros part; cbn [JSString.split_from]; [done|].
  destruct (c =? sep)%N; [done|apply IH].
Qed.

(** X20: the tags a [select-tags] or [omit-tags] line sets. The list is
    never empty (the value [[]] gives one empty tag). A value that is not
    in brackets is the one tag; of a value in brackets every tag is free
    of commas and has no white space at either end. *)
Theorem tags_are_never_empty_and_stripped (value : JSString.t) :
  exists tags : list JSString.t,
    parse_tags (Some value) = Some tags
    /\ tags <> []
    /\ (JSString.in_brackets value = false -> tags = [value])
    /\ (JSString.in_brackets value = true ->
        Forall (fun tag : list N => stripped tag /\ JSString.comma ∉ tag)
          tags).
Proof.
  unfold parse_tags. destruct (JSString.in_brackets value).
  - eexists. split; [done|]. split; [|split; [done|]].
    + intros Hnil%fmap_nil_inv. by apply split_from_not_empty in Hnil.
    + intros _. apply Forall_fmap, Forall_forall. intros part Hpart.
      split; [apply trim_stripped|]. intros Hcomma%trim_sublist.
      pose proof (split_from_free JSString.comma
                    (JSString.drop_bracket_close
                       (JSString.drop_bracket_open value)) []
                    ltac:(by intros ?%elem_of_nil)) as Hfree.
      by apply (proj1 (Forall_forall _ _) Hfree part).
  - exists [value]. by repeat split.
Qed.

(** ** Lines of the same key *)

Lemma parse_line_parts (state : TaskListConfig) (errors : list JSString.t)
    (line k v : JSString.t) :
  parts_of line = [k; v] ->
  parse_line (state, errors) line
  = if equals (Some k) "overdue" then
      Some (set_overdue state (equals (Some v) "true"), errors)
    else if equals (Some k) "due" then
      Some (set_due state (equals (Some v) "true"), errors)
    else if equals (Some k) "no-due" then
      Some (set_noDue state (equals (Some v) "true"), errors)
    else if equals (Some k) "completed" then
      Some (set_completed state (Some (equals (Some v) "true")), errors)
    else if equals (Some k) "sort" then
      if equals (Some v) "due" then Some (set_sort state (Some SortDue), errors)
      else if equals (Some v) "score" then
        Some (set_sort state (Some SortScore), errors)
      else Some (set_sort state None, errors ++ [invalid_line line])
    else if equals (Some k) "group" then
      if equals (Some v) "due" then Some (set_group state (Some GroupDue), errors)
      else if equals (Some v) "completed" then
        Some (set_group state (Some GroupCompleted), errors)
      else Some (set_group state None, errors ++ [invalid_line line])
    else if equals (Some k) "select-tags" then
      tags ← parse_tags (Some v); Some (set_selectTags state tags, errors)
    else if equals (Some k) "omit-tags" then
      tags ← parse_tags (Some v); Some (set_omitTags state tags, errors)
    else if equals (Some k) "select-day" then
      Some (set_due (set_selectDay state (Some v)) true, errors)
    else if equals (Some k) "select-week" then
      Some (set_due (set_selectWeek state (Some v)) true, errors)
    else Some (state, errors).
Proof.
  intros Hparts. unfold parse_line.
  rewrite bool_decide_eq_false_2 by (by intros ->).
  rewrite Hparts. by rewrite bool_decide_eq_true_2 by done.
Qed.

(** After the first of two lines with the key at hand: the second line is
    read by the same branch. *)
Ltac same_key H2 Ht2 state :=
  cbn [mbind option_bind];
  repeat case_match; cbn [mbind option_bind];
  rewrite ?(parse_line_parts _ _ _ _ _ H2);
  repeat match goal with
         | H : equals _ _ = _ |- _ => rewrite H
         end;
  rewrite ?Ht2; cbn [mbind option_bind]; by destruct state.

(** X21: of two lines with the same key the later one decides: the
    configuration after both is the configuration after the second alone.
    So a line read twice changes nothing the second time. *)
Theorem last_line_of_a_key_decides
    (state : TaskListConfig) (errors : list JSString.t)
    (line1 line2 k v1 v2 : JSString.t) :
  parts_of line1 = [k; v1] -> parts_of line2 = [k; v2] ->
  fst <$> (parse_line (state, errors) line1 ≫= fun st => parse_line st line2)
  = fst <$> parse_line (state, errors) line2.
Proof.
  intros H1 H2.
  rewrite (parse_line_parts state errors _ _ _ H1),
    (parse_line_parts state errors _ _ _ H2).
  destruct (tags_are_never_empty_and_stripped v1) as (tags1 & Ht1 & _).
  destruct (tags_are_never_empty_and_stripped v2) as (tags2 & Ht2 & _).
  rewrite Ht1, Ht2.
  destruct (equals (Some k) "overdue") eqn:?; [same_key H2 Ht2 state|].
  destruct (equals (Some k) "due") eqn:?; [same_key H2 Ht2 state|].
  destruct (equals (Some k) "no-due") eqn:?; [same_key H2 Ht2 state|].
  destruct (equals (Some k) "completed") eqn:?; [same_key H2 Ht2 state|].
  destruct (equals (Some k) "sort") eqn:?; [same_key H2 Ht2 state|].
  destruct (equals (Some k) "group") eqn:?; [same_key H2 Ht2 state|].
  destruct (equals (Some k) "select-tags") eqn:?; [same_key H2 Ht2 state|].
  destruct (equals (Some k) "omit-tags") eqn:?; [same_key H2 Ht2 state|].
  destruct (equals (Some k) "select-day") eqn:?; [same_key H2 Ht2 state|].
  destruct (equals (Some k) "select-week") eqn:?; same_key H2 Ht2 state.
Qed.

(** The theorem at the lines [sort: bogus] and [sort: due]. *)
Lemma last_line_of_a_key_decides_witness :
  fst <$> (parse_line (TaskListConfigDefaults, []) (JSString.lit "sort: bogus")
           ≫= fun st => parse_line st (JSString.lit "sort: due"))
  = fst <$> parse_line (TaskListConfigDefaults, []) (JSString.lit "sort: due").
Proof.
  apply (last_line_of_a_key_decides TaskListConfigDefaults []
           (JSString.lit "sort: bogus") (JSString.lit "sort: due")
           (JSString.lit "sort") (JSString.lit "bogus") (JSString.lit "due"));
    by vm_compute.
Defined.

End Lines.

(** * The adapter of a rule ([src/repeat.ts]) *)

Lemma maxID_bounds {Hook} (subscriptions : list (RepeatAdapter.Subscription Hook)) :
  forall prev : Z,
    prev <= foldl (fun prev s => Z.max prev (RepeatAdapter.id s)) prev
              subscriptions
    /\ Forall (fun k => k <= foldl (fun prev s => Z.max prev (RepeatAdapter.id s))
                              prev subscriptions)
         (ids_of subscriptions).
Proof.
  induction subscriptions as [|s l IH]; intros prev; cbn [foldl]; [done|].
  destruct (IH (Z.max prev (RepeatAdapter.id s))) as [Hprev Hl].
  split; [lia|]. unfold ids_of. cbn [fmap list_fmap].
  constructor; [lia|done].
Qed.

Lemma unsubscribe_other {Hook} (newID : Z)
    (subscriptions : list (RepeatAdapter.Subscription Hook)) :
  Forall (fun k => k <> newID) (ids_of subscriptions) ->
  RepeatAdapter.unsubscribe newID subscriptions = subscriptions.
Proof.
  unfold RepeatAdapter.unsubscribe, ids_of.
  induction subscriptions as [|s l IH]; cbn [fmap list_fmap List.filter];
    [done|].
  intros [Hs Hl]%Forall_cons. rewrite (proj2 (Z.eqb_neq _ _) Hs). cbn [negb].
  by rewrite IH.
Qed.

(** X22: the id [subscribe] gives a subscription is positive and greater
    than every id in use, so ids that differ stay different. The function
    [subscribe] returns removes that subscription and no other, whatever
    was subscribed in between with other ids: called at once, it leaves the
    subscriptions as they were before. *)
Theorem subscribe_gives_a_fresh_id {Hook} (subscription : Hook)
    (subscriptions later : list (RepeatAdapter.Subscription Hook)) :
  let '(subscribed, newID) :=
    RepeatAdapter.subscribe subscription subscriptions in
  0 < newID
  /\ Forall (fun k => k < newID) (ids_of subscriptions)
  /\ (NoDup (ids_of subscriptions) -> NoDup (ids_of subscribed))
  /\ RepeatAdapter.unsubscribe newID subscribed = subscriptions
  /\ (Forall (fun k => k <> newID) (ids_of later) ->
      RepeatAdapter.unsubscribe newID (subscribed ++ later)
      = subscriptions ++ later).
Proof.
  unfold RepeatAdapter.subscribe.
  destruct (maxID_bounds subscriptions 0) as [Hpos Hmax].
  set (maxID := foldl _ 0 subscriptions) in *.
  assert (Forall (fun k => k < maxID + 1) (ids_of subscriptions)) as Hless.
  { eapply Forall_impl; [exact Hmax|]. cbn beta. lia. }
  assert (Forall (fun k => k <> maxID + 1) (ids_of subscriptions)) as Hother.
  { eapply Forall_impl; [exact Hless|]. cbn beta. lia. }
  assert (forall rest,
             Forall (fun k => k <> maxID + 1) (ids_of rest) ->
             RepeatAdapter.unsubscribe (maxID + 1)
               ((subscriptions
                 ++ [{| RepeatAdapter.id := maxID + 1;
                        RepeatAdapter.hook := subscription |}]) ++ rest)
             = subscriptions ++ rest) as Hremove.
  { intros rest Hrest. unfold RepeatAdapter.unsubscribe.
    rewrite !List.filter_app. cbn [List.filter RepeatAdapter.id].
    rewrite Z.eqb_refl. cbn [negb].
    fold (RepeatAdapter.unsubscribe (maxID + 1) subscriptions).
    fold (RepeatAdapter.unsubscribe (maxID + 1) rest).
    by rewrite !unsubscribe_other, app_nil_r by done. }
  split; [lia|]. split; [done|]. split; [|split].
  - intros Hnd. unfold ids_of. rewrite fmap_app. apply NoDup_app.
    split; [done|]. split; [|apply NoDup_singleton].
    intros k Hk ->%list_elem_of_singleton.
    by apply (proj1 (Forall_forall _ _) Hother (maxID + 1)).
  - specialize (Hremove [] ltac:(constructor)). by rewrite !app_nil_r in Hremove.
  - apply Hremove.
Qed.

(** ** Days of the week and of the month *)

Lemma weekdays_read_back (ids : list Z) :
  map RepeatAdapter.ByWeekdayToNumber
    (map (fun id => WObj (Weekday.mk id None)) ids) = ids.
Proof. induction ids as [|k ids IH]; cbn [map]; [done|]. by rewrite IH. Qed.

(** X23: the days [setDaysOfWeek] is given are the days [daysOfWeek] reads,
    and the days of the resolved options; the day of the month is left as
    it is. The setter [dayOfMonth] is read back by its getter and empties
    the days of the week. *)
Theorem days_of_week_and_month_read_back
    (ids : list Z) (n : Z) (rrule : RRule.t) :
  RepeatAdapter.daysOfWeek (RepeatAdapter.setDaysOfWeek ids rrule) = ids
  /\ byweekday (RRule.options (RepeatAdapter.setDaysOfWeek ids rrule)) = Some ids
  /\ RepeatAdapter.dayOfMonth (RepeatAdapter.setDaysOfWeek ids rrule)
     = RepeatAdapter.dayOfMonth rrule
  /\ RepeatAdapter.dayOfMonth (RepeatAdapter.set_dayOfMonth n rrule) = Some n
  /\ bymonthday (RRule.options (RepeatAdapter.set_dayOfMonth n rrule)) = [n]
  /\ RepeatAdapter.daysOfWeek (RepeatAdapter.set_dayOfMonth n rrule) = [].
Proof.
  destruct rrule as [cache orig opts].
  unfold RepeatAdapter.daysOfWeek, RepeatAdapter.setDaysOfWeek,
    RepeatAdapter.dayOfMonth, RepeatAdapter.set_dayOfMonth,
    RepeatAdapter.set_byweekday, RepeatAdapter.set_orig_byweekday,
    RepeatAdapter.set_bymonthday, RepeatAdapter.set_orig_bymonthday.
  cbn [RRule.origOptions RRule.options RRule._cache Options.byweekday
       Options.bymonthday byweekday bymonthday].
  by rewrite weekdays_read_back.
Qed.

(** What [parseOptions] makes of a [bymonthday] that is one number, not
    0. *)
Lemma parseOptions_of_a_day (now : Z) (o : Options.t) (p : ParsedOptions)
    (v : Z) :
  Options.bymonthday o = Some (One v) -> v <> 0 ->
  parseOptions now o = Ok p ->
  (bymonthday p, bynmonthday p) = if v <? 0 then ([], [v]) else ([v], []).
Proof.
  intros Hday Hv. unfold parseOptions, initializeOptions.
  destruct (invalid_keys o); [|done].
  destruct (negb (forallb _ _)); [done|].
  rewrite Hday. cbn [truthy]. rewrite (proj2 (Z.eqb_neq _ _) Hv).
  cbn [negb]. rewrite !orb_true_r. cbn [orb negb andb].
  destruct (v <? 0);
    repeat match goal with
           | |- context [let '(_, _) := ?x in _] => destruct x
           end;
    intros Hp; injection Hp; clear Hp; by intros <-.
Qed.

(** X24: [lastDayOfMonth] reads [true] exactly when [dayOfMonth] reads -1,
    and it reads what its setter was given. The setter writes the day -1
    into [bymonthday] of the resolved options, where [parseOptions] keeps
    the days that are not negative: for the options the setter leaves in
    [origOptions], [parseOptions] gives an empty [bymonthday] and the day
    -1 in [bynmonthday]. *)
Theorem lastDayOfMonth_is_day_minus_one
    (rrule : RRule.t) (val : bool) (now : Z) (p : ParsedOptions) :
  parseOptions now
    (RRule.origOptions (RepeatAdapter.set_lastDayOfMonth true rrule)) = Ok p ->
  (RepeatAdapter.lastDayOfMonth rrule = true
   <-> RepeatAdapter.dayOfMonth rrule = Some (-1))
  /\ RepeatAdapter.lastDayOfMonth (RepeatAdapter.set_lastDayOfMonth val rrule)
     = val
  /\ bymonthday (RRule.options (RepeatAdapter.set_lastDayOfMonth true rrule))
     = [-1]
  /\ bymonthday p = [] /\ bynmonthday p = [-1].
Proof.
  intros Hp. split; [|split; [|split]].
  - unfold RepeatAdapter.lastDayOfMonth, RepeatAdapter.dayOfMonth.
    destruct (Options.bymonthday (RRule.origOptions rrule)) as [[d|[|d l]]|];
      cbn [head]; try done; rewrite Z.eqb_eq; split; congruence.
  - by destruct val, rrule.
  - by destruct rrule.
  - apply (parseOptions_of_a_day now _ p (-1)) in Hp; [|by destruct rrule|done].
    change (-1 <? 0) with true in Hp. by injection Hp as -> ->.
Qed.

(** The theorem at a monthly rule on the 31st. *)
Lemma lastDayOfMonth_is_day_minus_one_witness :
  exists (rrule : RRule.t) (p : ParsedOptions),
    RRule.new 0 monthly_on_the_31st true = Ok rrule
    /\ parseOptions 0
         (RRule.origOptions (RepeatAdapter.set_lastDayOfMonth true rrule))
       = Ok p
    /\ bymonthday (RRule.options (RepeatAdapter.set_lastDayOfMonth true rrule))
       = [-1]
    /\ bymonthday p = [] /\ bynmonthday p = [-1].
Proof.
  eexists _, _. split; [vm_compute; reflexivity|].
  match goal with
  | |- parseOptions _ (RRule.origOptions
                         (RepeatAdapter.set_lastDayOfMonth _ ?rrule)) = Ok ?p
       /\ _ =>
      assert (parseOptions 0
                (RRule.origOptions
                   (RepeatAdapter.set_lastDayOfMonth true rrule)) = Ok p)
        as Hp by (vm_compute; reflexivity);
      split; [exact Hp|];
      exact (proj2 (proj2 (lastDayOfMonth_is_day_minus_one rrule true 0 p Hp)))
  end.
Defined.

(** X25: the setter [interval] never leaves the interval 0 in the resolved
    options: 0, [null] and [undefined] stand for 1. It notifies the
    subscribers exactly when the interval changes, and leaves the original
    options and the cache of the rule as they are. *)
Theorem interval_is_never_set_to_zero (n : option Z) (rrule : RRule.t) :
  let newVal := match n with Some 0 | None => 1 | Some k => k end in
  let '(rule', notified) := RepeatAdapter.set_interval n rrule in
  interval (RRule.options rule') = newVal
  /\ interval (RRule.options rule') <> 0
  /\ (notified = true <-> interval (RRule.options rrule) <> newVal)
  /\ RRule.origOptions rule' = RRule.origOptions rrule
  /\ RRule._cache rule' = RRule._cache rrule.
Proof.
  unfold RepeatAdapter.set_interval.
  set (newVal := match n with Some k => if k =? 0 then 1 else k | None => 1 end).
  assert (match n with Some 0 | None => 1 | Some k => k end = newVal) as ->
    by (by destruct n as [[| |]|]).
  assert (newVal <> 0) as Hnz.
  { unfold newVal. destruct n as [k|]; [|done].
    destruct (k =? 0) eqn:Hk; [done|]. by apply Z.eqb_neq in Hk. }
  destruct (newVal =? interval (RRule.options rrule)) eqn:Hsame; cbn [negb].
  - apply Z.eqb_eq in Hsame. rewrite <- Hsame. by repeat split.
  - apply Z.eqb_neq in Hsame. destruct rrule as [cache orig opts].
    by repeat split.
Qed.

(** * Dates written as [UNTIL] strings and read back *)

Lemma padded_years : forallb (padded 4) (helpers.range 100 10000) = true.
Proof. vm_compute. reflexivity. Qed.

Lemma padded_fields : forallb (padded 2) (helpers.range 0 100) = true.
Proof. vm_compute. reflexivity. Qed.

Lemma padded_spec (width a b n : Z) :
  forallb (padded width) (helpers.range a b) = true -> a <= n < b ->
  let s := UntilString.padStart (UntilString.String_of_number n) width
             (JSString.lit "0") in
  Z.of_nat (length s) = width
  /\ forallb UntilString.isDigit s = true
  /\ UntilString.parseInt s = n.
Proof.
  intros Hall Hn.
  pose proof (proj1 (forallb_forall _ _) Hall n
                (proj1 (list_elem_of_In _ _) (in_range a b n Hn))) as Hok.
  unfold padded in Hok. cbn zeta in Hok.
  apply andb_true_iff in Hok as [[H1%bool_decide_eq_true H2]%andb_true_iff
                                   H3%bool_decide_eq_true].
  done.
Qed.

(** The expression matches a date and a time of digits, with or without
    the final [Z]. *)
Lemma exec_date_time (y mo d hh mi ss z : list N) :
  length y = 4%nat -> length mo = 2%nat -> length d = 2%nat ->
  length hh = 2%nat -> length mi = 2%nat -> length ss = 2%nat ->
  forallb UntilString.isDigit (y ++ mo ++ d) = true ->
  forallb UntilString.isDigit (hh ++ mi ++ ss) = true ->
  z = [] \/ z = JSString.lit "Z" ->
  UntilString.exec (y ++ mo ++ d ++ JSString.lit "T" ++ hh ++ mi ++ ss ++ z)
  = Some (y, mo, d, Some (hh, mi, ss)).
Proof.
  intros Hy Hmo Hd Hhh Hmi Hss Hdate Htime Hz.
  destruct y as [|y1 [|y2 [|y3 [|y4 [|]]]]]; try done.
  destruct mo as [|mo1 [|mo2 [|]]]; try done.
  destruct d as [|d1 [|d2 [|]]]; try done.
  destruct hh as [|hh1 [|hh2 [|]]]; try done.
  destruct mi as [|mi1 [|mi2 [|]]]; try done.
  destruct ss as [|ss1 [|ss2 [|]]]; try done.
  unfold UntilString.exec. cbn [app] in *.
  change (JSString.lit "T") with [84%N]. cbn [app take drop].
  rewrite take_0, drop_0, Hdate, Htime. cbn [length].
  rewrite !bool_decide_eq_true_2 by done. cbn [andb N.eqb Pos.eqb].
  by destruct Hz as [-> | ->].
Qed.

Lemma forallb_app_true {A} (f : A -> bool) (l1 l2 : list A) :
  forallb f l1 = true -> forallb f l2 = true -> forallb f (l1 ++ l2) = true.
Proof. intros H1 H2. by rewrite forallb_app, H1, H2. Qed.

Lemma MakeDate_seconds (day hh mi ss ms : Z) :
  JSDate.MakeDate day (JSDate.MakeTime hh mi ss 0)
  = JSDate.MakeDate day (JSDate.MakeTime hh mi ss ms) - ms.
Proof. unfold JSDate.MakeDate, JSDate.MakeTime. lia. Qed.

(** X26: a date of a year from 100 to 9999, written with [timeToUntilString]
    (with the final [Z] or without) and read with [untilStringToDate], is
    the date again, without its milliseconds. *)
Theorem until_string_reads_back (time : Z) (utc : bool) :
  100 <= JSDate.getUTCFullYear time <= 9999 ->
  UntilString.untilStringToDate (UntilString.timeToUntilString time utc)
  = Some (time - time mod 1000).
Proof.
  intros Hyear.
  pose proof (getUTCMonth_range time) as Hmonth.
  pose proof (getUTCDate_range time) as Hdate.
  assert (0 <= JSDate.getUTCHours time < 24 /\ 0 <= JSDate.getUTCMinutes time < 60
          /\ 0 <= JSDate.getUTCSeconds time < 60) as (Hhh & Hmi & Hss).
  { unfold JSDate.getUTCHours, JSDate.getUTCMinutes, JSDate.getUTCSeconds,
      JSDate.msPerHour, JSDate.msPerMinute, JSDate.msPerSecond.
    repeat split; apply Z.mod_pos_bound; lia. }
  destruct (padded_spec 4 100 10000 (JSDate.getUTCFullYear time) padded_years
              ltac:(lia)) as (Hy1 & Hy2 & Hy3).
  destruct (padded_spec 2 0 100 (JSDate.getUTCMonth time + 1) padded_fields
              ltac:(lia)) as (Hmo1 & Hmo2 & Hmo3).
  destruct (padded_spec 2 0 100 (JSDate.getUTCDate time) padded_fields
              ltac:(lia)) as (Hd1 & Hd2 & Hd3).
  destruct (padded_spec 2 0 100 (JSDate.getUTCHours time) padded_fields
              ltac:(lia)) as (Hh1 & Hh2 & Hh3).
  destruct (padded_spec 2 0 100 (JSDate.getUTCMinutes time) padded_fields
              ltac:(lia)) as (Hm1 & Hm2 & Hm3).
  destruct (padded_spec 2 0 100 (JSDate.getUTCSeconds time) padded_fields
              ltac:(lia)) as (Hs1 & Hs2 & Hs3).
  unfold UntilString.untilStringToDate, UntilString.timeToUntilString.
  rewrite exec_date_time; [|lia|lia|lia|lia|lia|lia| | |by destruct utc; auto];
    [|by repeat apply forallb_app_true..].
  rewrite Hy3, Hmo3, Hd3, Hh3, Hm3, Hs3. f_equal.
  unfold JSDate.UTC.
  replace ((0 <=? JSDate.getUTCFullYear time)
           && (JSDate.getUTCFullYear time <=? 99))
    with false by (symmetry; apply andb_false_iff; right; apply Z.leb_gt; lia).
  replace (JSDate.getUTCMonth time + 1 - 1) with (JSDate.getUTCMonth time)
    by lia.
  rewrite (MakeDate_seconds _ _ _ _ (JSDate.getUTCMilliseconds time)).
  by rewrite <- date_fields.
Qed.

(** The theorem at 2024-02-29T23:59:59.999Z. *)
Lemma until_string_reads_back_witness :
  UntilString.timeToUntilString (JSDate.UTC 2024 1 29 23 59 59 999) true
  = JSString.lit "20240229T235959Z"
  /\ UntilString.untilStringToDate
       (UntilString.timeToUntilString (JSDate.UTC 2024 1 29 23 59 59 999) true)
     = Some (JSDate.UTC 2024 1 29 23 59 59 0).
Proof.
  split; [vm_compute; reflexivity|].
  rewrite (until_string_reads_back (JSDate.UTC 2024 1 29 23 59 59 999) true)
    by (vm_compute; split; discriminate).
  vm_compute. reflexivity.
Defined.

(** ** [padStart] *)

Lemma ceil_div_1 (n : Z) : ceil_div n 1 = n.
Proof. unfold ceil_div. rewrite Z.div_1_r. lia. Qed.

(** X27: [padStart] wraps the target length to 32 bits ([targetLength >> 0])
    and then, with a pad of one character, fills up to two missing
    characters with the pad; a string that is long enough for the wrapped
    length is returned as it is. When three or more characters are missing
    (and no more than a million, so that the array [repeat] fills and the
    string made of it are of a size the engine holds), the third character
    of the result is a comma: [repeat] returns an array, and [+=] writes it
    with the commas between its elements. *)
Theorem padStart_pads_two_characters (str : list N) (targetLength : Z) (c : N) :
  let missing := UntilString.to_int32 targetLength - Z.of_nat (length str) in
  (missing <= 2 ->
   UntilString.padStart str targetLength [c]
   = replicate (Z.to_nat missing) c ++ str)
  /\ (3 <= missing <= 1000000 ->
      take 3 (UntilString.padStart str targetLength [c])
      = [c; c; JSString.comma]).
Proof.
  cbn zeta. unfold UntilString.padStart. cbn [length].
  change (Z.of_nat 1) with 1.
  rewrite ceil_div_1.
  generalize (UntilString.to_int32 targetLength). clear targetLength.
  intros targetLength.
  set (missing := targetLength - Z.of_nat (length str)).
  destruct (targetLength <? Z.of_nat (length str)) eqn:Hlong;
    [apply Z.ltb_lt in Hlong|apply Z.ltb_ge in Hlong].
  { split; [|lia]. intros _.
    by replace (Z.to_nat missing) with 0%nat by lia. }
  destruct (1 <? missing) eqn:Hmany;
    [apply Z.ltb_lt in Hmany|apply Z.ltb_ge in Hmany].
  - unfold helpers.repeat.
    destruct (Z.to_nat missing) as [|[|[|n]]] eqn:Hn; try lia.
    + split; [done|lia].
    + split; [lia|]. intros _. cbn [replicate UntilString.String_of_array].
      by destruct (replicate n [c]).
  - split; [|lia]. intros _.
    destruct (Z.to_nat missing) as [|[|n]] eqn:Hn; try lia; done.
Qed.

(** The theorem at a target of [2 ^ 32 + 2], which wraps to 2: one character
    is missing from the string of 5, and one pad is written. *)
Lemma padStart_pads_two_characters_witness :
  UntilString.padStart (JSString.lit "5") 4294967298 (JSString.lit "0")
  = JSString.lit "05".
Proof.
  etrans;
    [apply (proj1 (padStart_pads_two_characters (JSString.lit "5") 4294967298
                     48%N)); vm_compute; discriminate|].
  vm_compute. reflexivity.
Defined.
